(** * BundleGen: the command line front end ([bundlegen/cli/main.py])

    A shallow embedding of the two click commands of [main.py], [cli] and
    [generate], together with the parts of click, [os.path], [shutil] and
    [json] they rely on.  The classes of [bundlegen.core] that [generate]
    drives (platform loader, image downloader and unpacker, bundle
    processor, packaging utilities) are an interface, [Collaborators]:
    every theorem about [generate] holds for all of its implementations. *)

From Stdlib Require Import Ascii.
From Equations Require Import Equations.
From stdpp Require Import gmap strings list fin_maps.

Set Warnings "-register-all,-clear-no-such-hyp".

Open Scope string_scope.
Open Scope list_scope.
Open Scope Z_scope.

(** ** Python values *)

(** JSON documents, as [json.load] builds them. *)
Inductive json : Type :=
| JNull
| JBool (b : bool)
| JNum (n : Z)
| JStr (s : string)
| JList (l : list json)
| JObj (o : list (string * json)).

(** Truth value of a JSON document under Python's [not] / [if]. *)
Definition truthy (j : json) : bool :=
  match j with
  | JNull => false
  | JBool b => b
  | JNum n => negb (n =? 0)%Z
  | JStr s => negb (String.eqb s "")
  | JList l => match l with [] => false | _ => true end
  | JObj o => match o with [] => false | _ => true end
  end.

(** Truth value of a [str]. *)
Definition str_truthy (s : string) : bool := negb (String.eqb s "").

(** Truth value of a value that is a [str] or [None]. *)
Definition opt_truthy (s : option string) : bool :=
  match s with
  | None => false
  | Some s => str_truthy s
  end.

(** Exceptions that leave [generate], as far as the calls modelled below
    raise them.  What the operating system may add on inputs that the model
    does not have (a file that is not valid text, a symbolic link where
    [shutil.rmtree] expects a directory, a missing permission) is not part
    of it: no statement below says that the list is complete. *)
Inductive exn : Type :=
| TypeError
| FileNotFoundError (path : string)
| NotADirectoryError (path : string)
| IsADirectoryError (path : string)
| JSONDecodeError
| Abort
| UsageError (msg : string).

(** ** The file system *)

Inductive node : Type :=
| File (content : string)
| Dir.

(** [inside d p]: the path [p] is [d] itself or lies below it. *)
Definition inside (d p : string) : bool :=
  String.eqb p d || String.prefix (d +:+ "/") p.

(** What [shutil.rmtree d] leaves of a file system in which [d] is a
    directory. *)
Definition remove_tree (d : string) (fs : gmap string node) : gmap string node :=
  filter (λ kv, inside d kv.1 = false) fs.

(** ** Collaborators *)

(** [STBPlatform(platform, searchpath)]. *)
Record stb_platform : Type := {
  found_config : bool;
  get_config : json
}.

(** [ImageUnpackager(src=..., dst=...)]. *)
Record image_unpackager : Type := {
  src : option string;
  dst : string
}.

(** [BundleProcessor(config, rootfs, metadata, nodepwalking, libmatchingmode)]. *)
Record bundle_processor : Type := {
  bp_platform_cfg : json;
  bp_rootfs_path : string;
  bp_app_metadata : json;
  bp_nodepwalking : bool;
  bp_libmatchingmode : string
}.

Class Collaborators : Type := {
  (* os.path.abspath on a str; depends on the working directory *)
  abspath : string → string;
  (* json.loads; None is a JSONDecodeError *)
  json_loads : string → option json;
  STBPlatform : string → option string → gmap string node → stb_platform;
  download_image :
    string → option string → json → gmap string node →
    option string * gmap string node;
  get_image_tag : string → string;
  unpack_image :
    image_unpackager → string → bool → gmap string node →
    bool * gmap string node;
  get_app_metadata_from_img : image_unpackager → gmap string node → json;
  delete_img_app_metadata :
    image_unpackager → gmap string node → gmap string node;
  check_compatibility : bundle_processor → gmap string node → bool;
  begin_processing :
    bundle_processor → gmap string node → bool * gmap string node;
  create_control_file : json → json → gmap string node → gmap string node;
  create_ipk : string → string → gmap string node → gmap string node;
  create_tgz : string → string → gmap string node → gmap string node
}.

(** ** Observable actions *)

Inductive event : Type :=
| EvLoggerRemove
| EvLoggerAdd (level : option string)
| EvLog (level msg : string)
| EvConfirm (prompt : string) (answer : bool)
| EvRmtree (path : string)
| EvSTBPlatform (platform : string) (searchpath : option string)
| EvDownloadImage (image : string)
| EvUnpackImage (tag : string)
| EvGetAppMetadata (found : json)
| EvDeleteImgAppMetadata
| EvOpen (path : string)
| EvBundleProcessor (p : bundle_processor)
| EvCheckCompatibility (r : bool)
| EvBeginProcessing (r : bool)
| EvCreateControlFile
| EvCreateIpk (source dest : string)
| EvCreateTgz (source dest : string).

(** ** The world a command runs in *)

Record world : Type := {
  fs : gmap string node;      (* the file system *)
  answers : list bool;        (* what the user will type at the prompts *)
  log : list event            (* what happened so far, oldest first *)
}.

Definition init_world (files : gmap string node) (ans : list bool) : world :=
  {| fs := files; answers := ans; log := [] |}.

(** ** Commands: state, exceptions and early [return] *)

Inductive outcome (A : Type) : Type :=
| Val (a : A)
| Returned
| Raised (e : exn).
Arguments Val {A} a.
Arguments Returned {A}.
Arguments Raised {A} e.

Definition M (A : Type) : Type := world → outcome A * world.

Definition ret {A} (a : A) : M A := λ w, (Val a, w).

Definition bind {A B} (m : M A) (k : A → M B) : M B :=
  λ w, match m w with
       | (Val a, w') => k a w'
       | (Returned, w') => (Returned, w')
       | (Raised e, w') => (Raised e, w')
       end.

Declare Scope py_scope.
Delimit Scope py_scope with py.
Notation "x <- m ;; k" := (bind m (λ x, k))
  (at level 100, m at next level, right associativity) : py_scope.
Notation "m ;;; k" := (bind m (λ _, k))
  (at level 100, right associativity) : py_scope.
Open Scope py_scope.

(** [return] *)
Definition py_return {A} : M A := λ w, (Returned, w).

(** [raise e] *)
Definition raise {A} (e : exn) : M A := λ w, (Raised e, w).

(** [if c: body] *)
Definition when (c : bool) (body : M unit) : M unit :=
  if c then body else ret tt.

Definition emit (e : event) : M unit :=
  λ w, (Val tt, {| fs := fs w; answers := answers w; log := log w ++ [e] |}).

Definition get_fs : M (gmap string node) := λ w, (Val (fs w), w).

Definition put_fs (files : gmap string node) : M unit :=
  λ w, (Val tt, {| fs := files; answers := answers w; log := log w |}).

(** How a command invocation ends. *)
Inductive completion : Type :=
| Completed
| Failed (e : exn).

(** Calling a function whose body is [m]: an early [return] ends the call
    normally. *)
Definition call (m : M unit) (w : world) : completion * world :=
  match m w with
  | (Val _, w') => (Completed, w')
  | (Returned, w') => (Completed, w')
  | (Raised e, w') => (Failed e, w')
  end.

(** ** Library functions *)

Definition logger (level msg : string) : M unit := emit (EvLog level msg).

(** [os.path.abspath]: [None] is not a path. *)
Definition os_path_abspath `{Collaborators} (p : option string) : M string :=
  match p with
  | None => raise TypeError
  | Some s => ret (abspath s)
  end.

Definition os_path_exists (p : string) : M bool :=
  files <- get_fs ;;
  ret (bool_decide (is_Some (files !! p))).

(** [shutil.rmtree]: refuses what is not an existing directory. *)
Definition shutil_rmtree (p : string) : M unit :=
  emit (EvRmtree p) ;;;
  files <- get_fs ;;
  match files !! p with
  | None => raise (FileNotFoundError p)
  | Some (File _) => raise (NotADirectoryError p)
  | Some Dir => put_fs (remove_tree p files)
  end.

(** [click.confirm(prompt, abort=...)]: end of input aborts. *)
Definition click_confirm (prompt : string) (abort : bool) : M bool :=
  λ w, match answers w with
       | [] => (Raised Abort, w)
       | a :: rest =>
           let w' := {| fs := fs w; answers := rest;
                        log := log w ++ [EvConfirm prompt a] |} in
           if abort && negb a then (Raised Abort, w') else (Val a, w')
       end.

(** [with open(p) as f: ... json.load(f)] up to the read. *)
Definition open_read (p : string) : M string :=
  emit (EvOpen p) ;;;
  files <- get_fs ;;
  match files !! p with
  | None => raise (FileNotFoundError p)
  | Some Dir => raise (IsADirectoryError p)
  | Some (File c) => ret c
  end.

Definition json_load `{Collaborators} (content : string) : M json :=
  match json_loads content with
  | None => raise JSONDecodeError
  | Some j => ret j
  end.

(** ** Calls into [bundlegen.core] *)

Section Commands.
Context `{Collaborators}.

Definition new_STBPlatform (platform : string) (searchpath : option string) :
    M stb_platform :=
  emit (EvSTBPlatform platform searchpath) ;;;
  files <- get_fs ;;
  ret (STBPlatform platform searchpath files).

Definition do_download_image (image : string) (creds : option string)
    (config : json) : M (option string) :=
  emit (EvDownloadImage image) ;;;
  files <- get_fs ;;
  let r := download_image image creds config files in
  put_fs r.2 ;;;
  ret r.1.

Definition do_unpack_image (u : image_unpackager) (tag : string)
    (delete : bool) : M bool :=
  emit (EvUnpackImage tag) ;;;
  files <- get_fs ;;
  let r := unpack_image u tag delete files in
  put_fs r.2 ;;;
  ret r.1.

Definition do_get_app_metadata_from_img (u : image_unpackager) : M json :=
  files <- get_fs ;;
  let found := get_app_metadata_from_img u files in
  emit (EvGetAppMetadata found) ;;;
  ret found.

Definition do_delete_img_app_metadata (u : image_unpackager) : M unit :=
  emit EvDeleteImgAppMetadata ;;;
  files <- get_fs ;;
  put_fs (delete_img_app_metadata u files).

Definition new_BundleProcessor (config : json) (rootfs : string)
    (metadata : json) (nodepwalking : bool) (libmatchingmode : string) :
    M bundle_processor :=
  let p := {| bp_platform_cfg := config; bp_rootfs_path := rootfs;
              bp_app_metadata := metadata; bp_nodepwalking := nodepwalking;
              bp_libmatchingmode := libmatchingmode |} in
  emit (EvBundleProcessor p) ;;;
  ret p.

Definition do_check_compatibility (p : bundle_processor) : M bool :=
  files <- get_fs ;;
  let r := check_compatibility p files in
  emit (EvCheckCompatibility r) ;;;
  ret r.

Definition do_begin_processing (p : bundle_processor) : M bool :=
  files <- get_fs ;;
  let r := begin_processing p files in
  emit (EvBeginProcessing r.1) ;;;
  put_fs r.2 ;;;
  ret r.1.

Definition do_create_control_file (config metadata : json) : M unit :=
  emit EvCreateControlFile ;;;
  files <- get_fs ;;
  put_fs (create_control_file config metadata files).

Definition do_create_ipk (source dest : string) : M unit :=
  emit (EvCreateIpk source dest) ;;;
  files <- get_fs ;;
  put_fs (create_ipk source dest files).

Definition do_create_tgz (source dest : string) : M unit :=
  emit (EvCreateTgz source dest) ;;;
  files <- get_fs ;;
  put_fs (create_tgz source dest files).

(** ** [cli] *)

Definition log_levels : gmap Z string :=
  {[ 0 := "SUCCESS"; 1 := "INFO"; 2 := "DEBUG"; 3 := "TRACE" ]}.

(** The level [cli] hands to [logger.add]: [log_levels.get(verbose)] after
    the clamp. *)
Definition cli_level (verbose : Z) : option string :=
  let verbose := if 3 <? verbose then 3 else verbose in
  log_levels !! verbose.

Definition cli (verbose : Z) : M unit :=
  emit EvLoggerRemove ;;;
  emit (EvLoggerAdd (cli_level verbose)).

(** ** [generate] *)

Definition load_metadata_file (appmetadata : string) : M json :=
  content <- open_read appmetadata ;;
  logger "DEBUG" ("Loading metadata from " +:+ appmetadata) ;;;
  json_load content.

(** The question asked before an existing output directory is deleted. *)
Definition overwrite_prompt (outputdir : string) : string :=
  "The directory " +:+ outputdir +:+
  " already exists. Are you sure you want to continue? The contents of this directory will be deleted".

(** Lines 81-88: check if the output dir already exists. *)
Definition prepare_outputdir (outputdir : string) (yes : bool) : M unit :=
  outputdir_exists <- os_path_exists outputdir ;;
  when outputdir_exists (
    when (negb yes) (
      _ <- click_confirm (overwrite_prompt outputdir) true ;;
      ret tt) ;;;
    (* Delete existing directory *)
    shutil_rmtree outputdir).

(** Lines 90-111: load the platform config, download and unpack the image. *)
Definition fetch_image (image outputdir platform : string)
    (searchpath creds : option string) : M (stb_platform * image_unpackager) :=
  (* Load the config for the platform *)
  selected_platform <- new_STBPlatform platform searchpath ;;
  when (negb (found_config selected_platform)) (
    logger "ERROR" ("Could not find config for platform " +:+ platform) ;;;
    py_return) ;;;
  (* Download the image to a temp directory *)
  img_path <- do_download_image image creds (get_config selected_platform) ;;
  when (negb (opt_truthy img_path)) py_return ;;;
  (* Unpack the image with umoci *)
  let tag := get_image_tag image in
  let img_unpacker := {| src := img_path; dst := outputdir |} in
  unpack_success <- do_unpack_image img_unpacker tag true ;;
  when (negb unpack_success) py_return ;;;
  ret (selected_platform, img_unpacker).

(** Lines 113-145: load app metadata. *)
Definition load_app_metadata (img_unpacker : image_unpackager)
    (appmetadata : option string) : M json :=
  metadata_from_image <- do_get_app_metadata_from_img img_unpacker ;;
  appmetadata <- os_path_abspath appmetadata ;;
  when (negb (truthy metadata_from_image) && negb (str_truthy appmetadata)) (
    (* No metadata at all *)
    logger "ERROR"
      "Cannot find app metadata file in OCI image and none provided to BundleGen" ;;;
    py_return) ;;;
  if negb (truthy metadata_from_image) && str_truthy appmetadata then
    (* No metadata in image, but custom file provided *)
    appmetadata_exists <- os_path_exists appmetadata ;;
    when (negb appmetadata_exists) (
      logger "ERROR"
        ("App metadata file " +:+ appmetadata +:+ " does not exist") ;;;
      py_return) ;;;
    load_metadata_file appmetadata
  else if truthy metadata_from_image && str_truthy appmetadata then
    (* Got two options for metadata, which one do we want? *)
    use_custom <- click_confirm
      "Metadata found in image, but custom metadata provided. Use custom metadata?"
      false ;;
    app_metadata_dict <- (if use_custom then load_metadata_file appmetadata
                          else ret metadata_from_image) ;;
    do_delete_img_app_metadata img_unpacker ;;;
    ret app_metadata_dict
  else
    (* Take metadata from image *)
    do_delete_img_app_metadata img_unpacker ;;;
    ret metadata_from_image.

(** Lines 147-170: check, process, package. *)
Definition process_bundle (selected_platform : stb_platform)
    (outputdir : string) (app_metadata_dict : json) (nodepwalking : bool)
    (libmatchingmode : string) (ipk : bool) : M unit :=
  (* Begin processing. Work in the output dir where the img was unpacked to *)
  processor <- new_BundleProcessor (get_config selected_platform) outputdir
                 app_metadata_dict nodepwalking libmatchingmode ;;
  compatible <- do_check_compatibility processor ;;
  when (negb compatible) (
    (* Not compatible - delete any work done so far *)
    shutil_rmtree outputdir ;;;
    py_return) ;;;
  success <- do_begin_processing processor ;;
  when (negb success) (
    logger "WARNING" "Failed to produce bundle" ;;;
    py_return) ;;;
  (* Processing finished, now create a tarball/ipk of the output directory *)
  if ipk then
    (* create control file *)
    do_create_control_file (get_config selected_platform) app_metadata_dict ;;;
    do_create_ipk outputdir outputdir ;;;
    logger "SUCCESS"
      ("Successfully generated bundle at " +:+ outputdir +:+ ".ipk")
  else
    do_create_tgz outputdir outputdir ;;;
    logger "SUCCESS"
      ("Successfully generated bundle at " +:+ outputdir +:+ ".tar.gz").

(** The body of [generate], block after block. *)
Definition generate (image outputdir platform : string)
    (searchpath creds : option string) (ipk : bool)
    (appmetadata : option string) (yes nodepwalking : bool)
    (libmatchingmode : string) : M unit :=
  logger "INFO"
    ("Generating new OCI bundle* from " +:+ image +:+ " for " +:+ platform) ;;;
  outputdir <- os_path_abspath (Some outputdir) ;;
  prepare_outputdir outputdir yes ;;;
  fetched <- fetch_image image outputdir platform searchpath creds ;;
  let selected_platform := fetched.1 in
  let img_unpacker := fetched.2 in
  app_metadata_dict <- load_app_metadata img_unpacker appmetadata ;;
  process_bundle selected_platform outputdir app_metadata_dict nodepwalking
    libmatchingmode ipk.

(** One invocation of [generate] from a fresh log. *)
Definition run_generate (image outputdir platform : string)
    (searchpath creds : option string) (ipk : bool)
    (appmetadata : option string) (yes nodepwalking : bool)
    (libmatchingmode : string) (files : gmap string node) (ans : list bool) :
    completion * world :=
  call (generate image outputdir platform searchpath creds ipk appmetadata yes
          nodepwalking libmatchingmode)
       (init_world files ans).

(** ** The click layer in front of [generate] *)

(** What click hands to [generate] once the command line and the
    environment variables are read: options that were not given are [None],
    flags are booleans. *)
Record generate_params : Type := {
  arg_image : string;
  arg_outputdir : string;
  opt_platform : option string;
  opt_searchpath : option string;
  opt_creds : option string;
  opt_ipk : bool;
  opt_appmetadata : option string;
  opt_yes : bool;
  opt_nodepwalking : bool;
  opt_libmatchingmode : option string
}.

(** [click.Choice(choices, case_sensitive=True).convert]. *)
Definition click_choice (choices : list string) (value : string) :
    exn + string :=
  if bool_decide (value ∈ choices) then inr value
  else inl (UsageError ("Invalid value: " +:+ value)).

Definition libmatchingmode_choices : list string :=
  ["normal"; "image"; "host"].

(** The value of [--libmatchingmode]: the default is ['normal']. *)
Definition libmatchingmode_value (raw : option string) : exn + string :=
  click_choice libmatchingmode_choices (default "normal" raw).

(** [--platform] is [required=True]. *)
Definition platform_value (raw : option string) : exn + string :=
  match raw with
  | None => inl (UsageError "Missing option '-p' / '--platform'.")
  | Some p => inr p
  end.

(** The [generate] command: click converts the parameters and only then
    calls the function. *)
Definition generate_command (a : generate_params)
    (files : gmap string node) (ans : list bool) : completion * world :=
  match platform_value (opt_platform a) with
  | inl e => (Failed e, init_world files ans)
  | inr platform =>
      match libmatchingmode_value (opt_libmatchingmode a) with
      | inl e => (Failed e, init_world files ans)
      | inr libmatchingmode =>
          run_generate (arg_image a) (arg_outputdir a) platform
            (opt_searchpath a) (opt_creds a) (opt_ipk a) (opt_appmetadata a)
            (opt_yes a) (opt_nodepwalking a) libmatchingmode files ans
      end
  end.

End Commands.

(** ** The resolution core, as the specification describes it

    [main.py] only drives [bundlegen.core]; the dependency walker and the
    library matcher themselves are not part of the sources at hand.  The
    definitions of this part follow the specification (sections 3, 4.3, 4.4
    and 7). *)

(** Modelled from the spec: LibraryRecord (the catalog's per-library entry;
    the classes of [bundlegen.core] that read [_libs.json] are missing). *)
Record LibraryRecord : Type := {
  imageVersionTags : gset string;
  hostVersionTags : gset string;
  dependsOn : gset string
}.

(** Modelled from the spec: the origin of a resolved library. *)
Inductive Origin : Type := IMAGE_ORIGIN | HOST_ORIGIN.

(** Modelled from the spec: ResolvedLibrary (the name is the key of the
    mapping that [resolve] returns). *)
Record ResolvedLibrary : Type := {
  origin : Origin;
  chosenVersionTag : option string
}.

(** Modelled from the spec: the closed enumeration of matching modes. *)
Inductive Mode : Type := NORMAL | IMAGE | HOST.

(** *** Version tags *)

(** Cut a string at the last occurrence of [sep]. *)
Fixpoint rsplit (sep : ascii) (s : string) : option (string * string) :=
  match s with
  | EmptyString => None
  | String c rest =>
      match rsplit sep rest with
      | Some (a, b) => Some (String c a, b)
      | None => if Ascii.eqb c sep then Some (EmptyString, rest) else None
      end
  end.

(** Cut a string at the first occurrence of [sep]. *)
Fixpoint lsplit (sep : ascii) (s : string) : option (string * string) :=
  match s with
  | EmptyString => None
  | String c rest =>
      if Ascii.eqb c sep then Some (EmptyString, rest)
      else match lsplit sep rest with
           | Some (a, b) => Some (String c a, b)
           | None => None
           end
  end.

Definition digit_value (c : ascii) : option N :=
  let n := N_of_ascii c in
  if ((48 <=? n) && (n <=? 57))%N then Some (n - 48)%N else None.

Fixpoint parse_digits (acc : N) (s : string) : option N :=
  match s with
  | EmptyString => Some acc
  | String c rest =>
      match digit_value c with
      | Some d => parse_digits (10 * acc + d)%N rest
      | None => None
      end
  end.

(** A non-empty run of decimal digits. *)
Definition parse_number (s : string) : option N :=
  match s with
  | EmptyString => None
  | _ => parse_digits 0%N s
  end.

(** Modelled from the spec: a version tag [NAME_MAJOR.MINOR] taken apart
    into its family and its numeric pair. *)
Definition parse_tag (tag : string) : option (string * N * N) :=
  match rsplit "_"%char tag with
  | Some (family, version) =>
      match lsplit "."%char version with
      | Some (major, minor) =>
          match parse_number major, parse_number minor with
          | Some ma, Some mi => Some (family, ma, mi)
          | _, _ => None
          end
      | None => None
      end
  | None => None
  end.

(** Modelled from the spec: the order on version tags.  Tags of different
    families (or tags that are not of the form [NAME_MAJOR.MINOR]) are not
    comparable; within a family the pairs (major, minor) are compared
    lexicographically. *)
Definition tag_lt (a b : string) : bool :=
  match parse_tag a, parse_tag b with
  | Some (fa, ma, mi), Some (fb, mb, mj) =>
      String.eqb fa fb && ((ma <? mb)%N || ((ma =? mb)%N && (mi <? mj)%N))
  | _, _ => false
  end.

(** Modelled from the spec: the maximum among the candidate tags of one
    side; [None] when the side reports no tag. *)
Definition max_tag (tags : gset string) : option string :=
  foldr (λ t best,
           match best with
           | None => Some t
           | Some b => if tag_lt b t then Some t else Some b
           end) None (elements tags).

(** *** LibraryMatcher *)

Inductive ResolveError : Type :=
| MissingHostLibraryError (name : string).

(** Modelled from the spec: the rule of mode [host]: HOST origin, with the
    host's tag if any; a library that the host does not have is a
    [MissingHostLibraryError]. *)
Definition host_rule (name : string) (on_host : bool) (r : LibraryRecord) :
    ResolveError + ResolvedLibrary :=
  if on_host then
    inr {| origin := HOST_ORIGIN;
           chosenVersionTag := max_tag (hostVersionTags r) |}
  else inl (MissingHostLibraryError name).

(** Modelled from the spec: the policy of section 4.4 for one library of
    the closure.  [in_image] and [on_host] say whether the image rootfs and
    the host hold a copy of the library. *)
Definition resolve_library (mode : Mode) (name : string)
    (in_image on_host : bool) (r : LibraryRecord) :
    ResolveError + ResolvedLibrary :=
  match mode with
  | HOST => host_rule name on_host r
  | IMAGE =>
      if in_image then
        inr {| origin := IMAGE_ORIGIN;
               chosenVersionTag := max_tag (imageVersionTags r) |}
      else
        inr {| origin := HOST_ORIGIN;
               chosenVersionTag := max_tag (hostVersionTags r) |}
  | NORMAL =>
      match max_tag (imageVersionTags r), max_tag (hostVersionTags r) with
      | None, None =>
          (* no version evidence: the same rule as mode host *)
          host_rule name on_host r
      | Some i, None =>
          inr {| origin := IMAGE_ORIGIN; chosenVersionTag := Some i |}
      | image_max, Some h =>
          let image_wins :=
            match image_max with
            | Some i => tag_lt h i
            | None => false
            end in
          (* ties and tags that cannot be compared prefer HOST; a library
             missing from the host is taken from the image when the image
             has a copy *)
          if image_wins || (negb on_host && in_image) then
            inr {| origin := IMAGE_ORIGIN; chosenVersionTag := image_max |}
          else
            inr {| origin := HOST_ORIGIN; chosenVersionTag := Some h |}
      end
  end.

(** Modelled from the spec: a library of the closure that the catalog does
    not know is eligible for HOST origin only. *)
Definition resolve_unknown (mode : Mode) (name : string) (on_host : bool) :
    ResolveError + ResolvedLibrary :=
  match mode with
  | IMAGE => inr {| origin := HOST_ORIGIN; chosenVersionTag := None |}
  | _ =>
      if on_host then inr {| origin := HOST_ORIGIN; chosenVersionTag := None |}
      else inl (MissingHostLibraryError name)
  end.

Definition resolve_name (catalog : gmap string LibraryRecord)
    (image_libs host_libs : gset string) (mode : Mode) (name : string) :
    ResolveError + ResolvedLibrary :=
  let in_image := bool_decide (name ∈ image_libs) in
  let on_host := bool_decide (name ∈ host_libs) in
  match catalog !! name with
  | Some r => resolve_library mode name in_image on_host r
  | None => resolve_unknown mode name on_host
  end.

Fixpoint resolve_all (catalog : gmap string LibraryRecord)
    (image_libs host_libs : gset string) (mode : Mode) (names : list string) :
    ResolveError + gmap string ResolvedLibrary :=
  match names with
  | [] => inr ∅
  | name :: names =>
      match resolve_name catalog image_libs host_libs mode name with
      | inl e => inl e
      | inr r =>
          match resolve_all catalog image_libs host_libs mode names with
          | inl e => inl e
          | inr m => inr (<[name := r]> m)
          end
      end
  end.

(** Modelled from the spec: [resolve(closure, catalog, mode)], one entry
    per library of the closure.  [image_libs] and [host_libs] are the
    libraries that the image rootfs and the host hold. *)
Definition resolve (closure : gset string)
    (catalog : gmap string LibraryRecord)
    (image_libs host_libs : gset string) (mode : Mode) :
    ResolveError + gmap string ResolvedLibrary :=
  resolve_all catalog image_libs host_libs mode (elements closure).

(** *** DependencyWalker *)

(** Modelled from the spec: the dependencies of a record that the catalog
    does not know. *)
Definition unknown_dependencies (catalog : gmap string LibraryRecord)
    (r : LibraryRecord) : gset string :=
  filter (λ d, catalog !! d = None) (dependsOn r).

(** A value together with the fact that it is the value of [x]. *)
Definition inspect {A : Type} (x : A) : {y : A | x = y} := exist _ x eq_refl.

(** Modelled from the spec: the traversal of section 4.3.  A library
    that was visited is not expanded again; expanding a library of the
    catalog queues its dependencies and records the unknown ones as
    unresolved; a library without catalog entry joins the closure and has
    nothing to expand. *)
Equations? walk_loop (catalog : gmap string LibraryRecord)
    (worklist : list string) (visited unresolved : gset string) :
    gset string * gset string
    by wf (size (dom catalog ∖ visited), length worklist)
          (Subterm.lexprod nat nat lt lt) :=
  walk_loop catalog [] visited unresolved := (visited, unresolved);
  walk_loop catalog (name :: rest) visited unresolved
    with decide (name ∈ visited) => {
    | left _ := walk_loop catalog rest visited unresolved;
    | right _ with inspect (catalog !! name) => {
      | exist _ (Some r) Hentry :=
          walk_loop catalog (elements (dependsOn r) ++ rest)
            ({[name]} ∪ visited)
            (unresolved ∪ unknown_dependencies catalog r);
      | exist _ None Hentry :=
          walk_loop catalog rest ({[name]} ∪ visited) unresolved } }.
Proof.
  - right. simpl. lia.
  - left. apply subset_size. apply elem_of_dom_2 in Hentry. set_solver.
  - assert (dom catalog ∖ ({[name]} ∪ visited) = dom catalog ∖ visited) as ->.
    { apply not_elem_of_dom in Hentry. set_solver. }
    right. simpl. lia.
Qed.

(** Modelled from the spec: the result of the walker: the closure and
    the dependency names recorded as unresolved. *)
Record DependencyClosure : Type := {
  closure : gset string;
  unresolved : gset string
}.

(** Modelled from the spec: [walk(roots, catalog)]. *)
Definition walk (roots : gset string) (catalog : gmap string LibraryRecord) :
    DependencyClosure :=
  let r := walk_loop catalog (elements roots) ∅ ∅ in
  {| closure := r.1; unresolved := r.2 |}.

(** The catalog in which A depends on B and B depends on A, whatever
    version tags the two entries carry. *)
Definition two_cycle (a b : LibraryRecord) : gmap string LibraryRecord :=
  {[ "A" := {| imageVersionTags := imageVersionTags a;
               hostVersionTags := hostVersionTags a;
               dependsOn := {["B"]} |};
     "B" := {| imageVersionTags := imageVersionTags b;
               hostVersionTags := hostVersionTags b;
               dependsOn := {["A"]} |} ]}.

(** ** A concrete set of collaborators

    A small world used to run the commands on concrete inputs: one known
    platform, an image that unpacks into the output directory (with or
    without an embedded metadata file), and a processor whose two verdicts
    are chosen by the caller. *)

Definition img_metadata_path (u : image_unpackager) : string :=
  dst u +:+ "/appmetadata.json".

Definition demo (has_metadata compatible processed : bool) : Collaborators := {|
  abspath := λ p, if String.prefix "/" p then p else "/work/" +:+ p;
  json_loads := λ c,
    if String.eqb c "" then None else Some (JObj [("id", JStr c)]);
  STBPlatform := λ platform _ _,
    if String.eqb platform "rpi3"
    then {| found_config := true; get_config := JObj [("arch", JStr "arm")] |}
    else {| found_config := false; get_config := JNull |};
  download_image := λ _ _ _ files,
    (Some "/tmp/img", <["/tmp/img" := Dir]> files);
  get_image_tag := λ _, "latest";
  unpack_image := λ u _ _ files,
    let files := <[dst u := Dir]> (<[dst u +:+ "/rootfs" := Dir]> files) in
    (true,
     if has_metadata then <[img_metadata_path u := File "app"]> files
     else files);
  get_app_metadata_from_img := λ u files,
    match files !! img_metadata_path u with
    | Some (File c) => JObj [("id", JStr c)]
    | _ => JNull
    end;
  delete_img_app_metadata := λ u files, delete (img_metadata_path u) files;
  check_compatibility := λ _ _, compatible;
  begin_processing := λ p files,
    (processed, <[bp_rootfs_path p +:+ "/config.json" := File "oci"]> files);
  create_control_file := λ _ _ files, files;
  create_ipk := λ _ d files, <[d +:+ ".ipk" := File "ipk"]> files;
  create_tgz := λ _ d files, <[d +:+ ".tar.gz" := File "tgz"]> files
|}.

Definition run_demo (has_metadata compatible processed : bool)
    (appmetadata : option string) (ipk yes : bool)
    (files : gmap string node) (ans : list bool) : completion * world :=
  run_generate (H := demo has_metadata compatible processed)
    "img:latest" "out" "rpi3" None None ipk appmetadata yes false "normal"
    files ans.


(** An image whose metadata side-file holds the empty object: what
    [get_app_metadata_from_img] returns is false in Python's sense. *)
Definition empty_metadata_image : Collaborators := {|
  abspath := λ p, if String.prefix "/" p then p else "/work/" +:+ p;
  json_loads := λ c,
    if String.eqb c "" then None else Some (JObj [("id", JStr c)]);
  STBPlatform := λ _ _ _,
    {| found_config := true; get_config := JObj [("arch", JStr "arm")] |};
  download_image := λ _ _ _ files,
    (Some "/tmp/img", <["/tmp/img" := Dir]> files);
  get_image_tag := λ _, "latest";
  unpack_image := λ u _ _ files,
    (true,
     <[img_metadata_path u := File "{}"]>
       (<[dst u := Dir]> (<[dst u +:+ "/rootfs" := Dir]> files)));
  get_app_metadata_from_img := λ u files,
    match files !! img_metadata_path u with
    | Some (File _) => JObj []
    | _ => JNull
    end;
  delete_img_app_metadata := λ u files, delete (img_metadata_path u) files;
  check_compatibility := λ _ _, true;
  begin_processing := λ p files,
    (true, <[bp_rootfs_path p +:+ "/config.json" := File "oci"]> files);
  create_control_file := λ _ _ files, files;
  create_ipk := λ _ d files, <[d +:+ ".ipk" := File "ipk"]> files;
  create_tgz := λ _ d files, <[d +:+ ".tar.gz" := File "tgz"]> files
|}.

(** ** Reading a log *)

(** The first line of the log of [generate]. *)
Definition greeting (image platform : string) : event :=
  EvLog "INFO"
    ("Generating new OCI bundle* from " +:+ image +:+ " for " +:+ platform).

(** The world in which the first block of [generate] starts. *)
Definition started (image platform : string) (files : gmap string node)
    (ans : list bool) : world :=
  {| fs := files; answers := ans; log := [greeting image platform] |}.

Definition is_delete_metadata (e : event) : bool :=
  match e with EvDeleteImgAppMetadata => true | _ => false end.

Definition is_processor (e : event) : bool :=
  match e with EvBundleProcessor _ => true | _ => false end.

Definition is_packaging (e : event) : bool :=
  match e with EvCreateIpk _ _ | EvCreateTgz _ _ => true | _ => false end.

Definition is_platform_load (e : event) : bool :=
  match e with EvSTBPlatform _ _ => true | _ => false end.

(** How many events of a log satisfy [P]. *)
Fixpoint count (P : event → bool) (l : list event) : nat :=
  match l with
  | [] => 0
  | e :: l => ((if P e then 1 else 0) + count P l)%nat
  end.

(** The events of a log that precede the first one satisfying [P]. *)
Fixpoint before (P : event → bool) (l : list event) : list event :=
  match l with
  | [] => []
  | e :: l => if P e then [] else e :: before P l
  end.

(** What [generate] does before it loads the platform: its start-up. *)
Definition startup (l : list event) : list event := before is_platform_load l.

(** Which block of [generate] an event can come from. *)
Definition startup_event (e : event) : bool :=
  match e with EvConfirm _ _ | EvRmtree _ => true | _ => false end.

Definition fetch_event (e : event) : bool :=
  match e with
  | EvSTBPlatform _ _ | EvDownloadImage _ | EvUnpackImage _ | EvLog _ _ => true
  | _ => false
  end.

Definition metadata_event (e : event) : bool :=
  match e with
  | EvLog _ _ | EvOpen _ | EvConfirm _ _ | EvDeleteImgAppMetadata => true
  | _ => false
  end.

Definition processing_event (e : event) : bool :=
  match e with
  | EvBundleProcessor _ | EvCheckCompatibility _ | EvRmtree _
  | EvBeginProcessing _ | EvLog _ _ | EvCreateControlFile | EvCreateIpk _ _
  | EvCreateTgz _ _ => true
  | _ => false
  end.

(** Events of the blocks before the processor is built. *)
Definition pre_processing_event (e : event) : bool :=
  match e with
  | EvBundleProcessor _ | EvCheckCompatibility _ | EvBeginProcessing _
  | EvCreateControlFile | EvCreateIpk _ _ | EvCreateTgz _ _ => false
  | _ => true
  end.

Definition completion_of {A} (o : outcome A) : completion :=
  match o with
  | Val _ | Returned => Completed
  | Raised e => Failed e
  end.

(** ** The stages of a run *)

(** The calls that make up the pipeline of [generate], in the order of
    the source. *)
Inductive stage : Type :=
| LoadPlatform
| DownloadImage
| UnpackImage
| ReadImageMetadata
| BuildProcessor
| CheckCompatibility
| Process
| WriteControlFile
| Package.

Definition stage_of (e : event) : option stage :=
  match e with
  | EvSTBPlatform _ _ => Some LoadPlatform
  | EvDownloadImage _ => Some DownloadImage
  | EvUnpackImage _ => Some UnpackImage
  | EvGetAppMetadata _ => Some ReadImageMetadata
  | EvBundleProcessor _ => Some BuildProcessor
  | EvCheckCompatibility _ => Some CheckCompatibility
  | EvBeginProcessing _ => Some Process
  | EvCreateControlFile => Some WriteControlFile
  | EvCreateIpk _ _ | EvCreateTgz _ _ => Some Package
  | _ => None
  end.

(** The stages that a log went through, oldest first. *)
Fixpoint stages (l : list event) : list stage :=
  match l with
  | [] => []
  | e :: l =>
      match stage_of e with
      | Some s => s :: stages l
      | None => stages l
      end
  end.

(** The whole pipeline, with or without [--ipk]. *)
Definition pipeline (ipk : bool) : list stage :=
  [LoadPlatform; DownloadImage; UnpackImage; ReadImageMetadata; BuildProcessor;
   CheckCompatibility; Process] ++
  (if ipk then [WriteControlFile; Package] else [Package]).

Definition is_rmtree (e : event) : bool :=
  match e with EvRmtree _ => true | _ => false end.

Definition is_open (e : event) : bool :=
  match e with EvOpen _ => true | _ => false end.

Definition is_confirm (e : event) : bool :=
  match e with EvConfirm _ _ => true | _ => false end.

(** The question asked when both the image and the command line offer
    metadata (line 134). *)
Definition metadata_prompt : string :=
  "Metadata found in image, but custom metadata provided. Use custom metadata?".

Definition is_failed_check (e : event) : bool :=
  match e with EvCheckCompatibility false => true | _ => false end.

(** * Properties *)

(** ** The command monad *)

Lemma bind_inv {A B} (m : M A) (k : A → M B) w o w' :
  bind m k w = (o, w') →
  (∃ a w1, m w = (Val a, w1) ∧ k a w1 = (o, w')) ∨
  (m w = (Returned, w') ∧ o = Returned) ∨
  (∃ e, m w = (Raised e, w') ∧ o = Raised e).
Proof.
  unfold bind. destruct (m w) as [[a| |e] w1]; intros Hk.
  - left. eauto.
  - right; left. by simplify_eq.
  - right; right. simplify_eq. eauto.
Qed.

Tactic Notation "unfold_commands" "in" hyp(Hrun) :=
  unfold load_metadata_file, new_STBPlatform,
    do_download_image, do_unpack_image, do_get_app_metadata_from_img,
    do_delete_img_app_metadata, new_BundleProcessor, do_check_compatibility,
    do_begin_processing, do_create_control_file, do_create_ipk, do_create_tgz,
    os_path_abspath, os_path_exists, shutil_rmtree, click_confirm, open_read,
    json_load, logger, when, bind, ret, py_return, raise, emit, get_fs,
    put_fs in Hrun.

Ltac run_block Hrun :=
  unfold_commands in Hrun; simpl in Hrun;
  repeat (case_match; simpl in *; simplify_eq).

(** The log of a block: what was there, then the new events. *)
Ltac solve_events :=
  simpl; rewrite <- ?app_assoc; simpl;
  first
    [ by (exists []; rewrite app_nil_r; repeat split; try constructor)
    | eexists; split; [reflexivity | repeat constructor] ].

(** Case analysis on where in a log an event sits. *)
Ltac locate_event H :=
  repeat first
    [ apply elem_of_app in H as [H|H]
    | apply elem_of_cons in H as [H|H]
    | apply elem_of_nil in H; destruct H ].

(** An event cannot come from a block that never emits its kind. *)
Ltac wrong_block H :=
  first
    [ discriminate H
    | match goal with
      | HF : Forall _ ?l |- _ =>
          match type of H with
          | _ ∈ l => rewrite Forall_forall in HF; apply HF in H; simpl in H; done
          end
      end ].

(** ** Logs *)

Lemma count_app P l1 l2 : count P (l1 ++ l2) = (count P l1 + count P l2)%nat.
Proof. induction l1 as [|e l1 IH]; simpl; [done | rewrite IH; lia]. Qed.

Lemma count_absent (P : event → bool) l :
  Forall (λ e, P e = false) l → count P l = 0%nat.
Proof. induction 1 as [|e l He _ IH]; simpl; [done | by rewrite He, IH]. Qed.

Lemma before_hit P l e r :
  Forall (λ x, P x = false) l → P e = true → before P (l ++ e :: r) = l.
Proof.
  intros Hl He. induction Hl as [|x l Hx _ IH]; simpl.
  - by rewrite He.
  - by rewrite Hx, IH.
Qed.

Lemma before_miss P l : Forall (λ x, P x = false) l → before P l = l.
Proof. induction 1 as [|x l Hx _ IH]; simpl; [done | by rewrite Hx, IH]. Qed.

(** An event of a kind that the front of a log does not contain sits in
    the rest of it. *)
Lemma split_in_suffix (P : event → bool) l1 l2 front e back :
  front ++ e :: back = l1 ++ l2 → P e = true → Forall (λ x, P x = false) l1 →
  ∃ k, front = l1 ++ k ∧ l2 = k ++ e :: back.
Proof.
  intros Heq He Hl1. revert front Heq.
  induction Hl1 as [|x l1 Hx _ IH]; intros front Heq; simpl in *.
  - by exists front.
  - destruct front as [|y front]; simpl in Heq; simplify_eq; [congruence | ].
    destruct (IH front) as (k & -> & ->); [done | by exists k].
Qed.

Lemma Forall_kind (Q P : event → bool) l :
  (∀ e, Q e → P e = false) → Forall Q l → Forall (λ e, P e = false) l.
Proof. intros HQP Hl. by eapply Forall_impl. Qed.

Lemma Forall_pre_processing (Q : event → bool) l :
  (∀ e, Q e → pre_processing_event e) → Forall Q l →
  Forall pre_processing_event l.
Proof. intros HQ Hl. by eapply Forall_impl. Qed.

Section Blocks.
Context `{Collaborators}.

Lemma prepare_outputdir_events outputdir yes w o w' :
  prepare_outputdir outputdir yes w = (o, w') →
  ∃ evs, log w' = log w ++ evs ∧ Forall startup_event evs.
Proof.
  intros Hrun. unfold prepare_outputdir in Hrun. run_block Hrun.
  all: solve_events.
Qed.

Lemma fetch_image_events image outputdir platform searchpath creds w o w' :
  fetch_image image outputdir platform searchpath creds w = (o, w') →
  ∃ evs, log w' = log w ++ EvSTBPlatform platform searchpath :: evs ∧
         Forall fetch_event evs.
Proof.
  intros Hrun. unfold fetch_image in Hrun. run_block Hrun.
  all: solve_events.
Qed.

Lemma load_app_metadata_events u appmetadata w o w' :
  load_app_metadata u appmetadata w = (o, w') →
  let found := get_app_metadata_from_img u (fs w) in
  ∃ evs,
    log w' = log w ++ EvGetAppMetadata found :: evs ∧
    Forall metadata_event evs ∧
    (count is_delete_metadata evs ≤ 1)%nat ∧
    (∀ a, o = Val a →
       count is_delete_metadata evs = if truthy found then 1%nat else 0%nat).
Proof.
  intros Hrun found. subst found. unfold load_app_metadata in Hrun.
  run_block Hrun.
  all: simpl; rewrite <- ?app_assoc; simpl.
  all: eexists; split; [reflexivity | ].
  all: split; [repeat constructor | ].
  all: split; [simpl; lia | ].
  all: intros a' Ha; simplify_eq; simpl.
  all: destruct (truthy _); simpl in *; try done.
  all: destruct (str_truthy _); simpl in *; done.
Qed.

Lemma load_app_metadata_none u w :
  load_app_metadata u None w =
    (Raised TypeError,
     {| fs := fs w; answers := answers w;
        log := log w ++ [EvGetAppMetadata (get_app_metadata_from_img u (fs w))] |}).
Proof. reflexivity. Qed.

Lemma process_bundle_spec selected_platform outputdir md ndw mode ipk w o w' :
  process_bundle selected_platform outputdir md ndw mode ipk w = (o, w') →
  let p := {| bp_platform_cfg := get_config selected_platform;
              bp_rootfs_path := outputdir; bp_app_metadata := md;
              bp_nodepwalking := ndw; bp_libmatchingmode := mode |} in
  let r := begin_processing p (fs w) in
  if negb (check_compatibility p (fs w)) then
    log w' = log w ++ [EvBundleProcessor p; EvCheckCompatibility false;
                        EvRmtree outputdir] ∧
    match fs w !! outputdir with
    | Some Dir => o = Returned ∧ fs w' = remove_tree outputdir (fs w)
    | Some (File _) => o = Raised (NotADirectoryError outputdir) ∧ fs w' = fs w
    | None => o = Raised (FileNotFoundError outputdir) ∧ fs w' = fs w
    end
  else if negb r.1 then
    o = Returned ∧ fs w' = r.2 ∧
    log w' = log w ++ [EvBundleProcessor p; EvCheckCompatibility true;
                        EvBeginProcessing false;
                        EvLog "WARNING" "Failed to produce bundle"]
  else if ipk then
    o = Val tt ∧
    fs w' = create_ipk outputdir outputdir
              (create_control_file (get_config selected_platform) md r.2) ∧
    log w' = log w ++ [EvBundleProcessor p; EvCheckCompatibility true;
                        EvBeginProcessing true; EvCreateControlFile;
                        EvCreateIpk outputdir outputdir;
                        EvLog "SUCCESS"
                          ("Successfully generated bundle at " +:+
                           outputdir +:+ ".ipk")]
  else
    o = Val tt ∧
    fs w' = create_tgz outputdir outputdir r.2 ∧
    log w' = log w ++ [EvBundleProcessor p; EvCheckCompatibility true;
                        EvBeginProcessing true;
                        EvCreateTgz outputdir outputdir;
                        EvLog "SUCCESS"
                          ("Successfully generated bundle at " +:+
                           outputdir +:+ ".tar.gz")].
Proof.
  intros Hrun p r. subst p r. unfold process_bundle in Hrun.
  unfold_commands in Hrun. simpl in Hrun.
  destruct (check_compatibility _ _) eqn:Hc; simpl in *.
  - destruct (begin_processing _ _) as [ok files'] eqn:Hb; simpl in *.
    destruct ok; simpl in *; [destruct ipk | ]; simpl in *; simplify_eq;
      simpl; rewrite <- ?app_assoc; done.
  - destruct (fs w !! outputdir) as [[c|]|] eqn:Hd; simpl in *; simplify_eq;
      simpl; rewrite <- ?app_assoc; done.
Qed.

(** How a run of [generate] decomposes into its blocks. *)
Lemma run_generate_inv image outputdir platform searchpath creds ipk
    appmetadata yes ndw mode files ans c w' :
  run_generate image outputdir platform searchpath creds ipk appmetadata yes
    ndw mode files ans = (c, w') →
  let out := abspath outputdir in
  let w0 := {| fs := files; answers := ans;
               log := [EvLog "INFO"
                         ("Generating new OCI bundle* from " +:+ image +:+
                          " for " +:+ platform)] |} in
  ∃ o1 w1, prepare_outputdir out yes w0 = (o1, w1) ∧
    match o1 with
    | Val _ =>
        ∃ o2 w2, fetch_image image out platform searchpath creds w1 = (o2, w2) ∧
          match o2 with
          | Val f =>
              ∃ o3 w3, load_app_metadata f.2 appmetadata w2 = (o3, w3) ∧
                match o3 with
                | Val md =>
                    ∃ o4, process_bundle f.1 out md ndw mode ipk w3 = (o4, w') ∧
                          c = completion_of o4
                | _ => w' = w3 ∧ c = completion_of o3
                end
          | _ => w' = w2 ∧ c = completion_of o2
          end
    | _ => w' = w1 ∧ c = completion_of o1
    end.
Proof.
  unfold run_generate, call, generate, init_world, logger, emit,
    os_path_abspath, ret. unfold bind at 1 2 3. simpl.
  intros Hrun.
  destruct (prepare_outputdir _ _ _) as [o1 w1] eqn:H1.
  exists o1, w1. split; [done | ].
  destruct o1 as [[]| |e1]; simplify_eq; try done.
  unfold bind at 1 in Hrun.
  destruct (fetch_image _ _ _ _ _ _) as [o2 w2] eqn:H2.
  exists o2, w2. split; [done | ].
  destruct o2 as [f| |e2]; simplify_eq; try done.
  unfold bind at 1 in Hrun.
  destruct (load_app_metadata _ _ _) as [o3 w3] eqn:H3.
  exists o3, w3. split; [done | ].
  destruct o3 as [md| |e3]; simplify_eq; try done.
  destruct (process_bundle _ _ _ _ _ _ _) as [o4 w4] eqn:H4.
  exists o4. destruct o4; by simplify_eq.
Qed.

Lemma prepare_outputdir_spec outputdir yes w o w' :
  prepare_outputdir outputdir yes w = (o, w') →
  match fs w !! outputdir with
  | None => o = Val tt ∧ w' = w
  | Some n =>
      let removed (asked : list event) (rest : list bool) :=
        log w' = log w ++ asked ++ [EvRmtree outputdir] ∧ answers w' = rest ∧
        match n with
        | Dir => o = Val tt ∧ fs w' = remove_tree outputdir (fs w)
        | File _ => o = Raised (NotADirectoryError outputdir) ∧ fs w' = fs w
        end in
      if yes then removed [] (answers w)
      else match answers w with
           | [] => o = Raised Abort ∧ w' = w
           | false :: rest =>
               o = Raised Abort ∧ fs w' = fs w ∧ answers w' = rest ∧
               log w' = log w ++ [EvConfirm (overwrite_prompt outputdir) false]
           | true :: rest =>
               removed [EvConfirm (overwrite_prompt outputdir) true] rest
           end
  end.
Proof.
  intros Hrun. unfold prepare_outputdir in Hrun.
  unfold_commands in Hrun.
  destruct (fs w !! outputdir) as [n|] eqn:Hd.
  - rewrite bool_decide_eq_true_2 in Hrun by eauto.
    destruct yes; simpl in Hrun.
    + rewrite Hd in Hrun.
      destruct n; simplify_eq; simpl; rewrite <- ?app_assoc; done.
    + destruct (answers w) as [|[] rest] eqn:Ha; simpl in Hrun; simplify_eq;
        cbv zeta; [done | | done].
      rewrite Hd in Hrun.
      destruct n; simplify_eq; simpl; rewrite <- ?app_assoc; done.
  - rewrite bool_decide_eq_false_2 in Hrun by (by intros [? ?]).
    by simplify_eq.
Qed.

Section Run.
Variables (image outputdir platform : string) (searchpath creds : option string)
  (ipk : bool) (appmetadata : option string) (yes nodepwalking : bool)
  (libmatchingmode : string) (files : gmap string node) (ans : list bool).

(** A run stops in one of its four blocks; the log says in which. *)
Lemma run_generate_cases c w' :
  run_generate image outputdir platform searchpath creds ipk appmetadata yes
    nodepwalking libmatchingmode files ans = (c, w') →
  let out := abspath outputdir in
  ∃ o1 w1 evs1,
    prepare_outputdir out yes (started image platform files ans) = (o1, w1) ∧
    log w1 = greeting image platform :: evs1 ∧ Forall startup_event evs1 ∧
    (((∀ a, o1 ≠ Val a) ∧ w' = w1 ∧ c = completion_of o1) ∨
     ∃ o2 w2 evs2,
       o1 = Val tt ∧
       fetch_image image out platform searchpath creds w1 = (o2, w2) ∧
       log w2 = log w1 ++ EvSTBPlatform platform searchpath :: evs2 ∧
       Forall fetch_event evs2 ∧
       (((∀ a, o2 ≠ Val a) ∧ w' = w2 ∧ c = completion_of o2) ∨
        ∃ f o3 w3 evs3,
          o2 = Val f ∧
          load_app_metadata f.2 appmetadata w2 = (o3, w3) ∧
          log w3 =
            log w2 ++
            EvGetAppMetadata (get_app_metadata_from_img f.2 (fs w2)) :: evs3 ∧
          Forall metadata_event evs3 ∧
          (count is_delete_metadata evs3 ≤ 1)%nat ∧
          (∀ a, o3 = Val a →
             count is_delete_metadata evs3 =
               if truthy (get_app_metadata_from_img f.2 (fs w2))
               then 1%nat else 0%nat) ∧
          (((∀ a, o3 ≠ Val a) ∧ w' = w3 ∧ c = completion_of o3) ∨
           ∃ md o4,
             o3 = Val md ∧
             process_bundle f.1 out md nodepwalking libmatchingmode ipk w3 =
               (o4, w') ∧
             c = completion_of o4))).
Proof.
  intros Hrun out.
  apply run_generate_inv in Hrun as (o1 & w1 & H1 & Hrun).
  fold out in H1, Hrun. change {| fs := files; answers := ans; log := _ |}
    with (started image platform files ans) in H1.
  destruct (prepare_outputdir_events _ _ _ _ _ H1) as (evs1 & Hl1 & Hc1).
  exists o1, w1, evs1. split; [done | ]. split; [done | ]. split; [done | ].
  destruct o1 as [[]| |e1]; [right | left; by destruct Hrun..].
  destruct Hrun as (o2 & w2 & H2 & Hrun).
  destruct (fetch_image_events _ _ _ _ _ _ _ _ H2) as (evs2 & Hl2 & Hc2).
  exists o2, w2, evs2. do 4 (split; [done | ]).
  destruct o2 as [f| |e2]; [right | left; by destruct Hrun..].
  destruct Hrun as (o3 & w3 & H3 & Hrun).
  destruct (load_app_metadata_events _ _ _ _ _ H3)
    as (evs3 & Hl3 & Hc3 & Hle & Hcount).
  exists f, o3, w3, evs3. do 6 (split; [done | ]).
  destruct o3 as [md| |e3]; [right | left; by destruct Hrun..].
  destruct Hrun as (o4 & H4 & ->). by exists md, o4.
Qed.

Lemma process_bundle_events sp out md ndw mode k w o w' :
  process_bundle sp out md ndw mode k w = (o, w') →
  ∃ evs, log w' = log w ++ evs.
Proof.
  intros Hrun. apply process_bundle_spec in Hrun. simpl in Hrun.
  repeat case_match; destruct_and?; eauto.
Qed.

(** [process_bundle] starts by building its one processor. *)
Lemma process_bundle_processor sp out md ndw mode k w o w' :
  process_bundle sp out md ndw mode k w = (o, w') →
  ∃ l, log w' =
         log w ++
         EvBundleProcessor
           {| bp_platform_cfg := get_config sp; bp_rootfs_path := out;
              bp_app_metadata := md; bp_nodepwalking := ndw;
              bp_libmatchingmode := mode |} :: l ∧
       Forall processing_event l ∧
       Forall (λ e, is_processor e = false) l.
Proof.
  intros Hrun. apply process_bundle_spec in Hrun. simpl in Hrun.
  repeat case_match; destruct_and?; eexists;
    (split; [done | split; repeat constructor]).
Qed.

(** Either the run ends before a processor is built, or its log is the log
    of the first three blocks followed by what [process_bundle] adds. *)
Lemma run_generate_summary c w' :
  run_generate image outputdir platform searchpath creds ipk appmetadata yes
    nodepwalking libmatchingmode files ans = (c, w') →
  (Forall pre_processing_event (log w') ∧
   (count is_delete_metadata (log w') ≤ 1)%nat) ∨
  ∃ (f : stb_platform * image_unpackager) w3 md o4 found,
    Forall pre_processing_event (log w3) ∧
    (∀ j, EvGetAppMetadata j ∈ log w3 → j = found) ∧
    count is_delete_metadata (log w3) =
      (if truthy found then 1%nat else 0%nat) ∧
    process_bundle f.1 (abspath outputdir) md nodepwalking libmatchingmode
      ipk w3 = (o4, w') ∧
    c = completion_of o4.
Proof.
  intros Hrun.
  apply run_generate_cases in Hrun
    as (o1 & w1 & evs1 & H1 & Hl1 & Hc1 & Hrun). simpl in *.
  assert (Forall pre_processing_event (log w1)) as Hp1.
  { rewrite Hl1. constructor; [done | ].
    eapply Forall_pre_processing; [ | done]. by intros []. }
  assert (count is_delete_metadata (log w1) = 0%nat) as Hd1.
  { rewrite Hl1. simpl. apply count_absent.
    eapply Forall_kind; [ | done]. by intros []. }
  destruct Hrun
    as [(_ & -> & ->) | (o2 & w2 & evs2 & -> & H2 & Hl2 & Hc2 & Hrun)].
  { left. split; [done | lia]. }
  assert (Forall pre_processing_event (log w2)) as Hp2.
  { rewrite Hl2. apply Forall_app. split; [done | ]. constructor; [done | ].
    eapply Forall_pre_processing; [ | done]. by intros []. }
  assert (count is_delete_metadata (log w2) = 0%nat) as Hd2.
  { rewrite Hl2, count_app, Hd1. simpl. apply count_absent.
    eapply Forall_kind; [ | done]. by intros []. }
  assert (∀ j, EvGetAppMetadata j ∉ log w2) as Hg2.
  { intros j Hin. rewrite Hl2, Hl1 in Hin.
    locate_event Hin; wrong_block Hin. }
  destruct Hrun as [(_ & -> & ->) | Hrun].
  { left. split; [done | lia]. }
  destruct Hrun as (f & o3 & w3 & evs3 & -> & H3 & Hl3 & Hc3 & Hle & Hn & Hrun).
  assert (Forall pre_processing_event (log w3)) as Hp3.
  { rewrite Hl3. apply Forall_app. split; [done | ]. constructor; [done | ].
    eapply Forall_pre_processing; [ | done]. by intros []. }
  assert (count is_delete_metadata (log w3) = count is_delete_metadata evs3)
    as Hd3.
  { rewrite Hl3, count_app, Hd2. done. }
  destruct Hrun as [(_ & -> & ->) | (md & o4 & -> & H4 & ->)].
  { left. split; [done | lia]. }
  right. exists f, w3, md, o4, (get_app_metadata_from_img f.2 (fs w2)).
  split; [done | ]. split; [ | split; [ | done] ].
  - intros j Hin. rewrite Hl3 in Hin.
    apply elem_of_app in Hin as [Hin|Hin]; [by apply Hg2 in Hin | ].
    apply elem_of_cons in Hin as [Hin|Hin]; [congruence | ].
    wrong_block Hin.
  - rewrite Hd3. by apply (Hn md).
Qed.

(** The start-up of a run is the log of its first block. *)
Lemma run_generate_startup c w' :
  run_generate image outputdir platform searchpath creds ipk appmetadata yes
    nodepwalking libmatchingmode files ans = (c, w') →
  ∃ o1 w1,
    prepare_outputdir (abspath outputdir) yes
      (started image platform files ans) = (o1, w1) ∧
    startup (log w') = log w1 ∧
    (∃ rest, log w' = log w1 ++ rest) ∧
    ((∀ a, o1 ≠ Val a) → w' = w1 ∧ c = completion_of o1).
Proof.
  intros Hrun.
  apply run_generate_cases in Hrun
    as (o1 & w1 & evs1 & H1 & Hl1 & Hc1 & Hrun). simpl in *.
  exists o1, w1. split; [done | ].
  assert (Forall (λ e, is_platform_load e = false) (log w1)) as Hn1.
  { rewrite Hl1. constructor; [done | ].
    eapply Forall_kind; [ | done]. by intros []. }
  destruct Hrun
    as [(Hnv & -> & ->) | (o2 & w2 & evs2 & -> & H2 & Hl2 & Hc2 & Hrun)].
  { split; [by apply before_miss | ]. split; [ | done].
    exists []. by rewrite app_nil_r. }
  assert (∃ rest, log w' =
            log w1 ++ EvSTBPlatform platform searchpath :: rest) as [rest Hl].
  { destruct Hrun as [(_ & -> & _) | Hrun]; [eauto | ].
    destruct Hrun as (f & o3 & w3 & evs3 & -> & H3 & Hl3 & _ & _ & _ & Hrun).
    rewrite Hl2 in Hl3. rewrite <- app_assoc in Hl3. simpl in Hl3.
    destruct Hrun as [(_ & -> & _) | (md & o4 & -> & H4 & _)]; [eauto | ].
    apply process_bundle_events in H4 as [evs4 Hl4].
    rewrite Hl3 in Hl4. rewrite <- app_assoc in Hl4. simpl in Hl4. eauto. }
  split; [unfold startup; rewrite Hl; by apply before_hit | ].
  split; [eauto | ].
  intros Hnv. by destruct (Hnv ()).
Qed.

End Run.

End Blocks.

Lemma lookup_remove_tree_inside d p (files : gmap string node) :
  inside d p = true → remove_tree d files !! p = None.
Proof.
  intros Hin. unfold remove_tree. apply map_lookup_filter_None.
  right. intros x _. simpl. by rewrite Hin.
Qed.

Lemma inside_refl d : inside d d = true.
Proof. unfold inside. by rewrite String.eqb_refl. Qed.

Section Generate.
Context `{Collaborators}.
Variables (image outputdir platform : string) (searchpath creds : option string)
  (ipk : bool) (appmetadata : option string) (yes nodepwalking : bool)
  (libmatchingmode : string) (files : gmap string node) (ans : list bool).

(** C1.  Whenever the compatibility check of a run answers false, the run
    never calls [begin_processing] and never packages anything; its last
    action is [shutil.rmtree] on the output directory, after which no
    directory is left at that path, and when the call returns normally
    nothing at or below that path is left. *)
Theorem incompatible_run_stops_and_cleans c w' :
  run_generate image outputdir platform searchpath creds ipk appmetadata yes
    nodepwalking libmatchingmode files ans = (c, w') →
  EvCheckCompatibility false ∈ log w' →
  (∀ r, EvBeginProcessing r ∉ log w') ∧
  (∀ e, e ∈ log w' → is_packaging e = false ∧ e ≠ EvCreateControlFile) ∧
  last (log w') = Some (EvRmtree (abspath outputdir)) ∧
  fs w' !! abspath outputdir ≠ Some Dir ∧
  (c = Completed →
   ∀ p, inside (abspath outputdir) p = true → fs w' !! p = None).
Proof.
  intros Hrun Hcheck.
  apply run_generate_inv in Hrun as (o1 & w1 & H1 & Hrun). simpl in *.
  apply prepare_outputdir_events in H1 as (evs1 & Hl1 & Hc1). simpl in Hl1.
  destruct o1 as [[]| |e1]; [ | destruct Hrun as [-> ->].. ];
    try (rewrite Hl1 in Hcheck; locate_event Hcheck; wrong_block Hcheck).
  destruct Hrun as (o2 & w2 & H2 & Hrun).
  apply fetch_image_events in H2 as (evs2 & Hl2 & Hc2). rewrite Hl1 in Hl2.
  destruct o2 as [f| |e2]; [ | destruct Hrun as [-> ->].. ];
    try (rewrite Hl2 in Hcheck; locate_event Hcheck; wrong_block Hcheck).
  destruct Hrun as (o3 & w3 & H3 & Hrun).
  apply load_app_metadata_events in H3 as (evs3 & Hl3 & Hc3 & _).
  rewrite Hl2 in Hl3.
  destruct o3 as [md| |e3]; [ | destruct Hrun as [-> ->].. ];
    try (rewrite Hl3 in Hcheck; locate_event Hcheck; wrong_block Hcheck).
  destruct Hrun as (o4 & H4 & ->).
  apply process_bundle_spec in H4. simpl in H4.
  destruct (check_compatibility _ _); simpl in H4.
  { destruct (begin_processing _ _) as [[] files']; simpl in H4;
      [destruct ipk | ]; destruct H4 as (_ & _ & Hl4);
      rewrite Hl4, Hl3 in Hcheck; locate_event Hcheck; wrong_block Hcheck. }
  destruct H4 as [Hl4 Hfs]. rewrite Hl3 in Hl4. clear Hcheck.
  split; [ | split; [ | split; [ | split ] ] ].
  - intros r Hin. rewrite Hl4 in Hin. locate_event Hin; wrong_block Hin.
  - intros e Hin. rewrite Hl4 in Hin.
    locate_event Hin; subst; try done.
    all: rewrite Forall_forall in Hc1, Hc2, Hc3.
    all: first [apply Hc1 in Hin | apply Hc2 in Hin | apply Hc3 in Hin].
    all: by destruct e.
  - rewrite Hl4.
    rewrite !last_app. done.
  - destruct (fs w3 !! abspath outputdir) as [[content|]|] eqn:Hd;
      destruct Hfs as [-> Hfs]; rewrite Hfs; try congruence.
    rewrite lookup_remove_tree_inside; [done | apply inside_refl].
  - intros Hc p Hin.
    destruct (fs w3 !! abspath outputdir) as [[content|]|] eqn:Hd;
      destruct Hfs as [-> Hfs]; try done.
    rewrite Hfs. by apply lookup_remove_tree_inside.
Qed.

(** Find the event of a decomposition [k ++ e :: back] of a given list. *)
Ltac split_suffix k Hk :=
  repeat (destruct k as [|? k]; simpl in *; simplify_eq).

(** Membership in the new part of a log. *)
Ltac in_new_events :=
  solve [ apply elem_of_app; right;
          repeat first [apply list_elem_of_here | apply list_elem_of_further] ].

(** C7.  In every run the archive is built exactly when [begin_processing]
    has returned success, and only after it has; with the [ipk] flag the
    archive is made by [create_ipk] and announced as [.ipk], without it by
    [create_tgz] and announced as [.tar.gz]. *)
Theorem packaging_follows_successful_processing c w' :
  run_generate image outputdir platform searchpath creds ipk appmetadata yes
    nodepwalking libmatchingmode files ans = (c, w') →
  let out := abspath outputdir in
  ((∃ e, e ∈ log w' ∧ is_packaging e = true) ↔
   EvBeginProcessing true ∈ log w') ∧
  (∀ front e back, log w' = front ++ e :: back → is_packaging e = true →
     EvBeginProcessing true ∈ front) ∧
  (EvBeginProcessing true ∈ log w' →
   if ipk then
     EvCreateIpk out out ∈ log w' ∧ (∀ s d, EvCreateTgz s d ∉ log w') ∧
     last (log w') =
       Some (EvLog "SUCCESS"
               ("Successfully generated bundle at " +:+ out +:+ ".ipk"))
   else
     EvCreateTgz out out ∈ log w' ∧ (∀ s d, EvCreateIpk s d ∉ log w') ∧
     last (log w') =
       Some (EvLog "SUCCESS"
               ("Successfully generated bundle at " +:+ out +:+ ".tar.gz"))).
Proof.
  intros Hrun out. subst out.
  apply run_generate_summary in Hrun
    as [[Hpre _] | (f & w3 & md & o4 & found & Hpre & _ & _ & H4 & _)].
  { (* no processor was built *)
    assert (∀ e, e ∈ log w' → pre_processing_event e) as Hin
      by by apply Forall_forall.
    split; [split | split].
    - intros (e & He & Hp). apply Hin in He. by destruct e.
    - intros He. by apply Hin in He.
    - intros front e back Hl Hp.
      assert (e ∈ log w') as He.
      { rewrite Hl. apply elem_of_app. right. apply list_elem_of_here. }
      apply Hin in He. by destruct e.
    - intros He. by apply Hin in He. }
  assert (∀ e, e ∈ log w3 → pre_processing_event e) as Hin
    by by apply Forall_forall.
  assert (Forall (λ e, is_packaging e = false) (log w3)) as Hnp.
  { eapply Forall_kind; [ | done]. by intros []. }
  assert (∀ l, (∀ e, e ∈ l → is_packaging e = false) →
            EvBeginProcessing true ∉ l →
            ((∃ e, e ∈ log w3 ++ l ∧ is_packaging e = true) ↔
             EvBeginProcessing true ∈ log w3 ++ l) ∧
            (∀ front e back, log w3 ++ l = front ++ e :: back →
               is_packaging e = true → EvBeginProcessing true ∈ front) ∧
            (EvBeginProcessing true ∈ log w3 ++ l → False)) as Hnone.
  { intros l Hl Hb.
    assert (EvBeginProcessing true ∉ log w3 ++ l) as Hb'.
    { intros He. apply elem_of_app in He as [He|He]; [ | done].
      by apply Hin in He. }
    split; [split | split]; try done.
    - intros (e & He & Hp). apply elem_of_app in He as [He|He].
      + apply Hin in He. by destruct e.
      + apply Hl in He. congruence.
    - intros front e back Heq Hp.
      assert (e ∈ log w3 ++ l) as He.
      { rewrite Heq. apply elem_of_app. right. apply list_elem_of_here. }
      apply elem_of_app in He as [He|He].
      + apply Hin in He. by destruct e.
      + apply Hl in He. congruence. }
  apply process_bundle_spec in H4. simpl in H4.
  destruct (check_compatibility _ _); simpl in H4.
  2: { (* not compatible *)
    destruct H4 as [-> _].
    destruct (Hnone [EvBundleProcessor
                       {| bp_platform_cfg := get_config f.1;
                          bp_rootfs_path := abspath outputdir;
                          bp_app_metadata := md;
                          bp_nodepwalking := nodepwalking;
                          bp_libmatchingmode := libmatchingmode |};
                     EvCheckCompatibility false;
                     EvRmtree (abspath outputdir)])
      as (? & ? & ?).
    - intros e He. locate_event He; by subst.
    - intros He. locate_event He; done.
    - done. }
  destruct (begin_processing _ _) as [[] files']; simpl in H4.
  2: { (* processing failed *)
    destruct H4 as (_ & _ & ->).
    destruct (Hnone [EvBundleProcessor
                       {| bp_platform_cfg := get_config f.1;
                          bp_rootfs_path := abspath outputdir;
                          bp_app_metadata := md;
                          bp_nodepwalking := nodepwalking;
                          bp_libmatchingmode := libmatchingmode |};
                     EvCheckCompatibility true; EvBeginProcessing false;
                     EvLog "WARNING" "Failed to produce bundle"])
      as (? & ? & ?).
    - intros e He. locate_event He; by subst.
    - intros He. locate_event He; done.
    - done. }
  (* processing succeeded *)
  destruct ipk; destruct H4 as (_ & _ & ->).
  - split; [split | split].
    + intros _. in_new_events.
    + intros _.
      exists (EvCreateIpk (abspath outputdir) (abspath outputdir)).
      split; [in_new_events | done].
    + intros front e back Hl Hp. symmetry in Hl.
      destruct (split_in_suffix is_packaging _ _ _ _ _ Hl Hp Hnp)
        as (k & -> & Hk).
      split_suffix k Hk. in_new_events.
    + intros _. split; [in_new_events | split; [ | by rewrite last_app]].
      intros s d He. locate_event He; try done. by apply Hin in He.
  - split; [split | split].
    + intros _. in_new_events.
    + intros _.
      exists (EvCreateTgz (abspath outputdir) (abspath outputdir)).
      split; [in_new_events | done].
    + intros front e back Hl Hp. symmetry in Hl.
      destruct (split_in_suffix is_packaging _ _ _ _ _ Hl Hp Hnp)
        as (k & -> & Hk).
      split_suffix k Hk. in_new_events.
    + intros _. split; [in_new_events | split; [ | by rewrite last_app]].
      intros s d He. locate_event He; try done. by apply Hin in He.
Qed.

(** C9.  At start-up (before the platform is loaded) [generate] removes
    the output directory only if it exists and only once the user has
    agreed, by [--yes] or by answering yes to the prompt; when the user
    declines, the run aborts and the file system is as it was; when the
    directory does not exist nothing is removed at start-up. *)
Theorem existing_outputdir_deleted_only_on_consent c w' :
  run_generate image outputdir platform searchpath creds ipk appmetadata yes
    nodepwalking libmatchingmode files ans = (c, w') →
  let out := abspath outputdir in
  let agreed := yes = true ∨ ∃ rest, ans = true :: rest in
  (files !! out = None → ∀ p, EvRmtree p ∉ startup (log w')) ∧
  (∀ p, EvRmtree p ∈ startup (log w') →
     p = out ∧ is_Some (files !! out) ∧
     (yes = true ∨
      ∃ front back,
        startup (log w') = front ++ EvConfirm (overwrite_prompt out) true :: back ∧
        EvRmtree out ∈ back)) ∧
  (is_Some (files !! out) → yes = false →
   ans = [] ∨ (∃ rest, ans = false :: rest) →
     c = Failed Abort ∧ fs w' = files ∧ ∀ p, EvRmtree p ∉ log w') ∧
  (is_Some (files !! out) → agreed → EvRmtree out ∈ startup (log w')) ∧
  (files !! out = Some Dir → agreed →
     ∃ w1, prepare_outputdir out yes (started image platform files ans) =
             (Val tt, w1) ∧
           ∀ p, inside out p = true → fs w1 !! p = None).
Proof.
  intros Hrun out agreed. subst agreed.
  apply run_generate_startup in Hrun as (o1 & w1 & H1 & -> & _ & Hstop).
  fold out in H1. pose proof (prepare_outputdir_spec _ _ _ _ _ H1) as Hspec.
  simpl in Hspec.
  destruct (files !! out) as [n|] eqn:Hd.
  2: { destruct Hspec as [-> ->]. simpl.
       split; [ | split; [ | split; [ | split ] ] ].
       - intros _ p He. locate_event He. done.
       - intros p He. locate_event He. done.
       - by intros [? ?].
       - by intros [? ?].
       - done. }
  destruct yes.
  { destruct Hspec as (Hl & _ & Hn). rewrite Hl. simpl.
    split; [done | split; [ | split; [done | split ] ] ].
    - intros p He. locate_event He; simplify_eq. eauto.
    - intros _ _. do 2 constructor.
    - intros [= ->] _. destruct Hn as [-> Hfs]. exists w1. split; [done | ].
      intros p Hp. rewrite Hfs. by apply lookup_remove_tree_inside. }
  destruct ans as [|[] rest].
  - destruct Hspec as [-> ->]. simpl.
    destruct Hstop as [-> ->]; [done | ]. simpl.
    split; [done | split; [ | split; [ | split ] ] ].
    + intros p He. locate_event He. done.
    + intros _ _ _. split; [done | split; [done | ] ].
      intros p He. locate_event He. done.
    + intros _ [? | [? ?]]; done.
    + intros _ [? | [? ?]]; done.
  - destruct Hspec as (Hl & _ & Hn). rewrite Hl. simpl.
    split; [done | split; [ | split; [ | split ] ] ].
    + intros p He. locate_event He; simplify_eq.
      split; [done | split; [eauto | right ] ].
      exists [greeting image platform], [EvRmtree out]. split; [done | ].
      constructor.
    + intros _ _ [? | [? ?]]; done.
    + intros _ _. do 3 constructor.
    + intros [= ->] _. destruct Hn as [-> Hfs]. exists w1. split; [done | ].
      intros p Hp. rewrite Hfs. by apply lookup_remove_tree_inside.
  - destruct Hspec as (-> & Hfs & _ & Hl).
    destruct Hstop as [-> ->]; [done | ]. rewrite Hl. simpl.
    split; [done | split; [ | split; [ | split ] ] ].
    + intros p He. locate_event He; done.
    + intros _ _ _. split; [done | split; [done | ] ].
      intros p He. locate_event He; done.
    + intros _ [? | [? ?]]; done.
    + intros _ [? | [? ?]]; done.
Qed.

(** Without the [--appmetadata] option no run gets past the metadata
    block, whatever the collaborators do: once the image metadata has been
    read, the run ends in [TypeError]. *)
Lemma missing_appmetadata_option_stops_generate c w' :
  run_generate image outputdir platform searchpath creds ipk None yes
    nodepwalking libmatchingmode files ans = (c, w') →
  (∀ p, EvBundleProcessor p ∉ log w') ∧
  (∀ j, EvGetAppMetadata j ∈ log w' → c = Failed TypeError).
Proof.
  intros Hrun.
  apply run_generate_cases in Hrun
    as (o1 & w1 & evs1 & H1 & Hl1 & Hc1 & Hrun). simpl in *.
  destruct Hrun
    as [(_ & -> & ->) | (o2 & w2 & evs2 & -> & H2 & Hl2 & Hc2 & Hrun)].
  { split; intros x Hx; rewrite Hl1 in Hx; locate_event Hx; wrong_block Hx. }
  rewrite Hl1 in Hl2.
  destruct Hrun as [(_ & -> & ->) | Hrun].
  { split; intros x Hx; rewrite Hl2 in Hx; locate_event Hx; wrong_block Hx. }
  destruct Hrun as (f & o3 & w3 & evs3 & -> & H3 & Hl3 & Hc3 & _ & _ & Hrun).
  rewrite load_app_metadata_none in H3. simplify_eq.
  destruct Hrun as [(_ & -> & ->) | (md & o4 & ? & _)]; [ | done].
  split; [ | done].
  intros p Hp. simpl in Hp. rewrite Hl2 in Hp.
  locate_event Hp; wrong_block Hp.
Qed.

End Generate.

(** C6. The mode a [BundleProcessor] is built with is the value of
    [--libmatchingmode], ['normal'] when the option is not given, and is
    one of ['normal'], ['image'], ['host']; any other value (the comparison
    is on the exact string) makes click reject the command before
    [generate] does anything. *)
Theorem libmatchingmode_is_one_of_three `{Collaborators}
    (a : generate_params) (files : gmap string node) (ans : list bool) c w' :
  generate_command a files ans = (c, w') →
  (∀ p, EvBundleProcessor p ∈ log w' →
     bp_libmatchingmode p = default "normal" (opt_libmatchingmode a) ∧
     (bp_libmatchingmode p = "normal" ∨ bp_libmatchingmode p = "image" ∨
      bp_libmatchingmode p = "host")) ∧
  (∀ v, opt_libmatchingmode a = Some v →
     v ≠ "normal" → v ≠ "image" → v ≠ "host" →
     (∃ msg, c = Failed (UsageError msg)) ∧ log w' = [] ∧ fs w' = files) ∧
  (opt_libmatchingmode a = None →
     ∀ p, EvBundleProcessor p ∈ log w' → bp_libmatchingmode p = "normal").
Proof.
  intros Hrun. unfold generate_command in Hrun.
  assert (∀ p, EvBundleProcessor p ∈ log w' →
            bp_libmatchingmode p = default "normal" (opt_libmatchingmode a) ∧
            default "normal" (opt_libmatchingmode a) ∈ libmatchingmode_choices)
    as Hmode.
  { intros p Hp.
    destruct (platform_value _) as [e|platform];
      [by simplify_eq; apply elem_of_nil in Hp | ].
    unfold libmatchingmode_value, click_choice in Hrun.
    case_bool_decide as Hchoice;
      [ | by simplify_eq; apply elem_of_nil in Hp ].
    split; [ | done].
    apply run_generate_summary in Hrun
      as [[Hpre _] | (f & w3 & md & o4 & found & Hpre & _ & _ & H4 & _)].
    { rewrite Forall_forall in Hpre. by apply Hpre in Hp. }
    apply process_bundle_processor in H4 as (l & Hl & _ & Hl').
    rewrite Hl in Hp. apply elem_of_app in Hp as [Hp|Hp].
    { rewrite Forall_forall in Hpre. by apply Hpre in Hp. }
    apply elem_of_cons in Hp as [Hp|Hp]; [by simplify_eq | ].
    rewrite Forall_forall in Hl'. by apply Hl' in Hp. }
  split; [ | split].
  - intros p Hp. destruct (Hmode p Hp) as [-> Hin]. split; [done | ].
    unfold libmatchingmode_choices in Hin. locate_event Hin; auto.
  - intros v Hv Hn Hi Hh.
    destruct (platform_value _) as [e|platform] eqn:Hplatform.
    { unfold platform_value in Hplatform.
      destruct (opt_platform a); simplify_eq. eauto. }
    unfold libmatchingmode_value, click_choice in Hrun. rewrite Hv in Hrun.
    simpl in Hrun. case_bool_decide as Hchoice.
    + unfold libmatchingmode_choices in Hchoice. locate_event Hchoice; done.
    + simplify_eq. eauto.
  - intros Hnone p Hp. destruct (Hmode p Hp) as [-> _]. by rewrite Hnone.
Qed.

(** The comparison with the choices is case sensitive. *)
Example libmatchingmode_case_sensitive :
  libmatchingmode_value (Some "Normal") = inl (UsageError "Invalid value: Normal") ∧
  libmatchingmode_value (Some "host") = inr "host" ∧
  libmatchingmode_value None = inr "normal".
Proof. done. Qed.

(** C10.  For every verbosity count the level that [cli] hands to
    [logger.add] is defined: 0, 1 and 2 give SUCCESS, INFO and DEBUG, and 3
    or more gives TRACE. *)
Theorem cli_level_defined (verbose : Z) :
  0 ≤ verbose →
  cli_level verbose =
    Some (if verbose =? 0 then "SUCCESS"
          else if verbose =? 1 then "INFO"
          else if verbose =? 2 then "DEBUG"
          else "TRACE") ∧
  cli_level verbose ≠ None ∧
  ∀ w, (cli verbose w).1 = Val tt ∧
       log (cli verbose w).2 =
         log w ++ [EvLoggerRemove; EvLoggerAdd (cli_level verbose)].
Proof.
  intros Hv.
  assert (cli_level verbose =
            Some (if verbose =? 0 then "SUCCESS"
                  else if verbose =? 1 then "INFO"
                  else if verbose =? 2 then "DEBUG"
                  else "TRACE")) as Hlevel.
  { unfold cli_level. destruct (3 <? verbose) eqn:Hclamp.
    - apply Z.ltb_lt in Hclamp.
      destruct (Z.eqb_spec verbose 0); [lia | ].
      destruct (Z.eqb_spec verbose 1); [lia | ].
      destruct (Z.eqb_spec verbose 2); [lia | ]. done.
    - apply Z.ltb_ge in Hclamp.
      assert (verbose = 0 ∨ verbose = 1 ∨ verbose = 2 ∨ verbose = 3)
        as [-> | [-> | [-> | ->]]] by lia; done. }
  split; [done | ]. split; [by rewrite Hlevel | ].
  intros w. unfold cli, bind, emit. simpl. by rewrite <- app_assoc.
Qed.

(** ** The dependency walker *)

Section Walker.
Variable catalog : gmap string LibraryRecord.

(** What is visited stays in the result, and the result is closed as soon
    as every dependency of a visited library is visited or queued. *)
Lemma walk_loop_closed worklist visited unres :
  (∀ n r d, n ∈ visited → catalog !! n = Some r → d ∈ dependsOn r →
     (d ∈ visited ∨ d ∈ worklist) ∧ (catalog !! d = None → d ∈ unres)) →
  (∀ x, x ∈ visited ∨ x ∈ worklist →
     x ∈ (walk_loop catalog worklist visited unres).1) ∧
  unres ⊆ (walk_loop catalog worklist visited unres).2 ∧
  (∀ n r d, n ∈ (walk_loop catalog worklist visited unres).1 →
     catalog !! n = Some r → d ∈ dependsOn r →
     d ∈ (walk_loop catalog worklist visited unres).1 ∧
     (catalog !! d = None → d ∈ (walk_loop catalog worklist visited unres).2)).
Proof.
  funelim (walk_loop catalog worklist visited unres); intros Hinv.
  - simpl. split; [ | split; [done | ] ].
    + intros x [Hx|Hx]; [done | by apply elem_of_nil in Hx].
    + intros n r d Hn Hr Hd. destruct (Hinv n r d Hn Hr Hd) as [[?|Hw] ?].
      * done.
      * by apply elem_of_nil in Hw.
  - destruct H as (Hin & Hun & Hcl).
    + intros n r d Hn Hr Hd. destruct (Hinv n r d Hn Hr Hd) as [[?|Hw] ?].
      * auto.
      * apply elem_of_cons in Hw as [-> | Hw]; auto.
    + split; [ | done]. intros x [Hx|Hx]; [auto | ].
      apply elem_of_cons in Hx as [-> | Hx]; auto.
  - destruct H as (Hin & Hun & Hcl).
    + intros n0 r0 d Hn Hr Hd.
      apply elem_of_union in Hn as [Hn|Hn].
      * apply elem_of_singleton in Hn as ->. simplify_eq. split.
        -- right. apply elem_of_app. left. by apply elem_of_elements.
        -- intros Hnone. apply elem_of_union. right.
           unfold unknown_dependencies. by apply elem_of_filter.
      * destruct (Hinv n0 r0 d Hn Hr Hd) as [[?|Hw] Hu].
        -- split; [left; set_solver | set_solver].
        -- apply elem_of_cons in Hw as [-> | Hw].
           ++ split; [left; set_solver | set_solver].
           ++ split; [right; apply elem_of_app; by right | set_solver].
    + split; [ | split; [set_solver | done] ].
      intros x [Hx|Hx]; [apply Hin; left; set_solver | ].
      apply elem_of_cons in Hx as [-> | Hx].
      * apply Hin. left. set_solver.
      * apply Hin. right. apply elem_of_app. by right.
  - destruct H as (Hin & Hun & Hcl).
    + intros n0 r d Hn Hr Hd.
      apply elem_of_union in Hn as [Hn|Hn].
      * apply elem_of_singleton in Hn as ->. congruence.
      * destruct (Hinv n0 r d Hn Hr Hd) as [[?|Hw] Hu].
        -- split; [left; set_solver | done].
        -- apply elem_of_cons in Hw as [-> | Hw].
           ++ split; [left; set_solver | done].
           ++ split; [by right | done].
    + split; [ | done].
      intros x [Hx|Hx]; [apply Hin; left; set_solver | ].
      apply elem_of_cons in Hx as [-> | Hx].
      * apply Hin. left. set_solver.
      * apply Hin. by right.
Qed.

(** The result holds nothing beyond what any closed set around the
    work at hand holds. *)
Lemma walk_loop_minimal (bound : gset string) worklist visited unres :
  (∀ n r d, n ∈ bound → catalog !! n = Some r → d ∈ dependsOn r → d ∈ bound) →
  (∀ x, x ∈ worklist → x ∈ bound) → visited ⊆ bound →
  (walk_loop catalog worklist visited unres).1 ⊆ bound.
Proof.
  intros Hclosed.
  funelim (walk_loop catalog worklist visited unres); intros Hw Hv.
  - done.
  - apply H; [done | | done].
    intros x Hx. apply Hw. by apply elem_of_cons; right.
  - assert (name ∈ bound) as Hname by (apply Hw; apply list_elem_of_here).
    apply H; [done | | set_solver].
    intros x Hx. apply elem_of_app in Hx as [Hx|Hx].
    + apply elem_of_elements in Hx. by eapply Hclosed.
    + apply Hw. by apply elem_of_cons; right.
  - assert (name ∈ bound) as Hname by (apply Hw; apply list_elem_of_here).
    apply H; [done | | set_solver].
    intros x Hx. apply Hw. by apply elem_of_cons; right.
Qed.

(** Only dependencies that the catalog does not know are recorded as
    unresolved. *)
Lemma walk_loop_unresolved worklist visited unres d :
  d ∈ (walk_loop catalog worklist visited unres).2 →
  d ∈ unres ∨
  (catalog !! d = None ∧ ∃ n r, catalog !! n = Some r ∧ d ∈ dependsOn r).
Proof.
  funelim (walk_loop catalog worklist visited unres); intros Hd.
  - by left.
  - by apply H.
  - apply H in Hd as [Hd|Hd]; [ | by right].
    apply elem_of_union in Hd as [Hd|Hd]; [by left | right].
    unfold unknown_dependencies in Hd. apply elem_of_filter in Hd as [? ?].
    eauto.
  - by apply H.
Qed.

End Walker.

(** C5.  [walk] is a total function: the traversal is defined by
    well-founded recursion on the catalog entries not yet visited and the
    length of the work list, so it ends on every catalog, cyclic or not.
    Its closure holds the roots and is closed under [dependsOn]: a
    dependency of a member is a member, or is recorded as unresolved (it is
    recorded whenever the catalog does not know it).  On the catalog where A
    depends on B and B on A, the closure of A is exactly A and B. *)
Theorem walk_closed_on_cyclic_catalogs
    (roots : gset string) (catalog : gmap string LibraryRecord) :
  roots ⊆ closure (walk roots catalog) ∧
  (∀ n r d, n ∈ closure (walk roots catalog) → catalog !! n = Some r →
     d ∈ dependsOn r →
     d ∈ closure (walk roots catalog) ∨ d ∈ unresolved (walk roots catalog)) ∧
  (∀ n r d, n ∈ closure (walk roots catalog) → catalog !! n = Some r →
     d ∈ dependsOn r → catalog !! d = None →
     d ∈ unresolved (walk roots catalog)) ∧
  (∀ a b, closure (walk {["A"]} (two_cycle a b)) = {["A"; "B"]} ∧
          unresolved (walk {["A"]} (two_cycle a b)) = ∅).
Proof.
  assert (∀ roots catalog,
            roots ⊆ closure (walk roots catalog) ∧
            ∀ n r d, n ∈ closure (walk roots catalog) →
              catalog !! n = Some r → d ∈ dependsOn r →
              d ∈ closure (walk roots catalog) ∧
              (catalog !! d = None → d ∈ unresolved (walk roots catalog)))
    as Hwalk.
  { clear. intros roots catalog. unfold walk. simpl.
    destruct (walk_loop_closed catalog (elements roots) ∅ ∅)
      as (Hin & _ & Hcl); [set_solver | ].
    split; [ | done].
    intros x Hx. apply Hin. right. by apply elem_of_elements. }
  destruct (Hwalk roots catalog) as [Hroots Hclosed].
  split; [done | ]. split; [ | split].
  - intros n r d Hn Hr Hd. left. by eapply Hclosed.
  - intros n r d Hn Hr Hd. by eapply Hclosed.
  - intros a b.
    assert (∀ n r, two_cycle a b !! n = Some r →
              (n = "A" ∧ dependsOn r = {["B"]}) ∨
              (n = "B" ∧ dependsOn r = {["A"]})) as Hentries.
    { intros n r Hn. unfold two_cycle in Hn.
      apply lookup_insert_Some in Hn as [[<- <-] | [_ Hn]]; [by left | ].
      apply lookup_singleton_Some in Hn as [<- <-]. by right. }
    destruct (Hwalk {["A"]} (two_cycle a b)) as [HA Hcl].
    split.
    + apply set_eq. intros x. split.
      * revert x. apply (walk_loop_minimal (two_cycle a b) {["A"; "B"]}).
        -- intros n r d Hn Hr Hd.
           apply Hentries in Hr as [[-> Hr] | [-> Hr]];
             rewrite Hr in Hd; set_solver.
        -- intros x Hx. apply elem_of_elements in Hx. set_solver.
        -- set_solver.
      * intros Hx. apply elem_of_union in Hx as [Hx|Hx];
          apply elem_of_singleton in Hx as ->.
        -- apply HA. set_solver.
        -- eapply (Hcl "A"); [apply HA; set_solver | | ].
           ++ unfold two_cycle. apply lookup_insert_eq.
           ++ simpl. set_solver.
    + apply set_eq. intros d. split; [ | set_solver].
      intros Hd. unfold walk in Hd. simpl in Hd.
      apply walk_loop_unresolved in Hd
        as [Hd | (Hnone & n & r & Hr & Hdep)]; [done | ].
      exfalso.
      apply Hentries in Hr as [[-> Hr] | [-> Hr]]; rewrite Hr in Hdep;
        apply elem_of_singleton in Hdep as ->; by vm_compute in Hnone.
Qed.

(** ** The library matcher *)

Lemma max_tag_singleton t : max_tag {[t]} = Some t.
Proof. unfold max_tag. by rewrite elements_singleton. Qed.

Lemma max_tag_empty : max_tag ∅ = None.
Proof. unfold max_tag. by rewrite elements_empty. Qed.


(** [resolve] on a closure of one library. *)
Lemma resolve_single name r image_libs host_libs mode :
  resolve {[name]} {[name := r]} image_libs host_libs mode =
    match resolve_library mode name (bool_decide (name ∈ image_libs))
            (bool_decide (name ∈ host_libs)) r with
    | inl e => inl e
    | inr l => inr {[name := l]}
    end.
Proof.
  unfold resolve. rewrite elements_singleton. simpl.
  unfold resolve_name. rewrite lookup_singleton_eq.
  destruct (resolve_library _ _ _ _ _); [done | by rewrite insert_empty].
Qed.

(** Mode [normal] on the entry whose host tag is the newer one. *)
Lemma resolve_library_newer_on_host name deps in_image on_host :
  resolve_library NORMAL name in_image on_host
    {| imageVersionTags := {["GLIBC_2.17"]};
       hostVersionTags := {["GLIBC_2.27"]}; dependsOn := deps |} =
    if negb on_host && in_image
    then inr {| origin := IMAGE_ORIGIN;
                chosenVersionTag := Some "GLIBC_2.17" |}
    else inr {| origin := HOST_ORIGIN;
                chosenVersionTag := Some "GLIBC_2.27" |}.
Proof.
  unfold resolve_library. simpl. rewrite !max_tag_singleton.
  replace (tag_lt "GLIBC_2.27" "GLIBC_2.17") with false by (by vm_compute).
  done.
Qed.

(** Mode [normal] on an entry without tags. *)
Lemma resolve_library_no_tags name deps in_image on_host :
  resolve_library NORMAL name in_image on_host
    {| imageVersionTags := ∅; hostVersionTags := ∅; dependsOn := deps |} =
    if on_host
    then inr {| origin := HOST_ORIGIN; chosenVersionTag := None |}
    else inl (MissingHostLibraryError name).
Proof.
  unfold resolve_library, host_rule. simpl. by rewrite !max_tag_empty.
Qed.

(** A library that only the image holds. *)
Lemma resolve_only_in_image name deps (image_libs host_libs : gset string) :
  name ∉ host_libs → name ∈ image_libs →
  resolve {[name]}
    {[name := {| imageVersionTags := {["GLIBC_2.17"]};
                 hostVersionTags := {["GLIBC_2.27"]}; dependsOn := deps |}]}
    image_libs host_libs NORMAL =
    inr {[name := {| origin := IMAGE_ORIGIN;
                     chosenVersionTag := Some "GLIBC_2.17" |}]} ∧
  resolve {[name]}
    {[name := {| imageVersionTags := ∅; hostVersionTags := ∅;
                 dependsOn := deps |}]}
    image_libs host_libs NORMAL =
    inl (MissingHostLibraryError name).
Proof.
  intros Hhost Himage.
  rewrite !resolve_single, resolve_library_newer_on_host,
    resolve_library_no_tags.
  rewrite (bool_decide_eq_false_2 (name ∈ host_libs)) by done.
  by rewrite (bool_decide_eq_true_2 (name ∈ image_libs)) by done.
Qed.


(** ** Runs in the concrete world *)

(** Membership of a named event in a log that is known in full. *)
Ltac in_concrete_log :=
  vm_compute; repeat first [apply list_elem_of_here | apply list_elem_of_further].

(** C2.  A run whose processing fails, and a run whose metadata file
    cannot be found, both end normally without ever calling
    [shutil.rmtree]: the output directory that the unpacker created (it
    did not exist before the run) is still there afterwards. *)
Theorem failed_run_leaves_outputdir :
  let files : gmap string node := ∅ in
  let failed := run_demo true true false (Some "/m.json") false false files [false] in
  let no_file := run_demo false true true (Some "/missing.json") false false files [] in
  files !! "/work/out" = None ∧
  (failed.1 = Completed ∧
   EvBeginProcessing false ∈ log failed.2 ∧
   last (log failed.2) = Some (EvLog "WARNING" "Failed to produce bundle") ∧
   count (λ e, match e with EvRmtree _ => true | _ => false end)
     (log failed.2) = 0%nat ∧
   fs failed.2 !! "/work/out" = Some Dir ∧
   fs failed.2 !! "/work/out/config.json" = Some (File "oci")) ∧
  (no_file.1 = Completed ∧
   last (log no_file.2) =
     Some (EvLog "ERROR" "App metadata file /missing.json does not exist") ∧
   count (λ e, match e with EvRmtree _ => true | _ => false end)
     (log no_file.2) = 0%nat ∧
   fs no_file.2 !! "/work/out" = Some Dir).
Proof.
  intros files failed no_file.
  split; [done | split].
  - repeat split; try (by vm_compute). in_concrete_log.
  - repeat split; by vm_compute.
Qed.

(** C3.  With metadata inside the image and no [--appmetadata] option
    ([None]), [generate] raises [TypeError] in [os.path.abspath] right after
    reading the image metadata: no [BundleProcessor] is ever built. *)
Theorem image_only_metadata_raises :
  let r := run_demo true true true None false false ∅ [] in
  r.1 = Failed TypeError ∧
  last (log r.2) = Some (EvGetAppMetadata (JObj [("id", JStr "app")])) ∧
  truthy (JObj [("id", JStr "app")]) = true ∧
  count is_processor (log r.2) = 0%nat ∧
  count is_delete_metadata (log r.2) = 0%nat.
Proof. intros r. repeat split; by vm_compute. Qed.

(** An incompatible image: the check fails, the unpacked directory is
    removed, nothing is processed. *)
Lemma incompatible_run_stops_and_cleans_witness :
  let r := run_demo true false false (Some "/m.json") false false ∅ [false] in
  EvCheckCompatibility false ∈ log r.2 ∧
  (∀ b, EvBeginProcessing b ∉ log r.2) ∧
  last (log r.2) = Some (EvRmtree "/work/out") ∧
  fs r.2 !! "/work/out" ≠ Some Dir ∧
  (∀ p, inside "/work/out" p = true → fs r.2 !! p = None).
Proof.
  intros r.
  assert (EvCheckCompatibility false ∈ log r.2) as Hcheck by in_concrete_log.
  split; [exact Hcheck | ].
  destruct (incompatible_run_stops_and_cleans (H := demo true false false)
              "img:latest" "out" "rpi3" None None false (Some "/m.json")
              false false "normal" ∅ [false] r.1 r.2)
    as (Hbegin & _ & Hlast & Hdir & Hbelow).
  - by vm_compute.
  - exact Hcheck.
  - split; [exact Hbegin | ]. split; [exact Hlast | ].
    split; [exact Hdir | ]. apply Hbelow. by vm_compute.
Defined.

(** A successful run with [--ipk]. *)
Lemma packaging_follows_successful_processing_witness :
  let r := run_demo true true true (Some "/m.json") true false ∅ [false] in
  EvBeginProcessing true ∈ log r.2 ∧
  EvCreateIpk "/work/out" "/work/out" ∈ log r.2 ∧
  (∀ s d, EvCreateTgz s d ∉ log r.2) ∧
  last (log r.2) =
    Some (EvLog "SUCCESS" "Successfully generated bundle at /work/out.ipk").
Proof.
  intros r.
  assert (EvBeginProcessing true ∈ log r.2) as Hbegin by in_concrete_log.
  split; [exact Hbegin | ].
  destruct (packaging_follows_successful_processing (H := demo true true true)
              "img:latest" "out" "rpi3" None None true (Some "/m.json")
              false false "normal" ∅ [false] r.1 r.2)
    as (_ & _ & Hkind).
  - by vm_compute.
  - exact (Hkind Hbegin).
Defined.

(** An existing output directory and a user who answers no. *)
Lemma existing_outputdir_deleted_only_on_consent_witness :
  let files : gmap string node :=
    {[ "/work/out" := Dir; "/work/out/old.json" := File "old" ]} in
  let r := run_demo true true true (Some "/m.json") false false files [false] in
  is_Some (files !! "/work/out") ∧
  r.1 = Failed Abort ∧ fs r.2 = files ∧ (∀ p, EvRmtree p ∉ log r.2).
Proof.
  intros files r.
  assert (is_Some (files !! "/work/out")) as Hexists by (by exists Dir).
  split; [exact Hexists | ].
  destruct (existing_outputdir_deleted_only_on_consent
              (H := demo true true true)
              "img:latest" "out" "rpi3" None None false (Some "/m.json")
              false false "normal" files [false] r.1 r.2)
    as (_ & _ & Hdeclined & _).
  - by vm_compute.
  - apply Hdeclined; [exact Hexists | reflexivity | ].
    right. by exists [].
Defined.

(** A mode that is not one of the three, and one that is. *)
Lemma libmatchingmode_is_one_of_three_witness :
  let params mode :=
    {| arg_image := "img:latest"; arg_outputdir := "out";
       opt_platform := Some "rpi3"; opt_searchpath := None; opt_creds := None;
       opt_ipk := false; opt_appmetadata := Some "/m.json"; opt_yes := false;
       opt_nodepwalking := false; opt_libmatchingmode := Some mode |} in
  let rejected :=
    generate_command (H := demo true true true) (params "Image") ∅ [false] in
  let accepted :=
    generate_command (H := demo true true true) (params "image") ∅ [false] in
  ((∃ msg, rejected.1 = Failed (UsageError msg)) ∧ log rejected.2 = [] ∧
   fs rejected.2 = ∅) ∧
  (∀ p, EvBundleProcessor p ∈ log accepted.2 → bp_libmatchingmode p = "image").
Proof.
  intros params rejected accepted. split.
  - destruct (libmatchingmode_is_one_of_three (H := demo true true true)
                (params "Image") ∅ [false] rejected.1 rejected.2)
      as (_ & Hrejected & _); [by vm_compute | ].
    by apply (Hrejected "Image").
  - destruct (libmatchingmode_is_one_of_three (H := demo true true true)
                (params "image") ∅ [false] accepted.1 accepted.2)
      as (Hmode & _ & _); [by vm_compute | ].
    intros p Hp. by destruct (Hmode p Hp) as [-> _].
Defined.

(** [-vvvvv] is as verbose as [-vvv]. *)
Lemma cli_level_defined_witness :
  0 ≤ 5 ∧ cli_level 5 = Some "TRACE" ∧ cli_level 5 ≠ None.
Proof.
  assert (0 ≤ 5) as Hcount by lia.
  split; [exact Hcount | ].
  destruct (cli_level_defined 5 Hcount) as (Hlevel & Hdefined & _).
  split; [exact Hlevel | exact Hdefined].
Defined.


(** On a host that lacks the library, while the image has a copy, mode
    [normal] takes the tagged entry from the image and fails on the entry
    without tags. *)
Lemma normal_mode_without_host_copy :
  let libc := "libc.so.6" in
  resolve {[libc]}
    {[libc := {| imageVersionTags := {["GLIBC_2.17"]};
                 hostVersionTags := {["GLIBC_2.27"]}; dependsOn := ∅ |}]}
    {[libc]} ∅ NORMAL =
    inr {[libc := {| origin := IMAGE_ORIGIN;
                     chosenVersionTag := Some "GLIBC_2.17" |}]} ∧
  resolve {[libc]}
    {[libc := {| imageVersionTags := ∅; hostVersionTags := ∅;
                 dependsOn := ∅ |}]}
    {[libc]} ∅ NORMAL =
    inl (MissingHostLibraryError libc) ∧
  ¬ (∀ (image_libs host_libs : gset string) r,
       r = {| imageVersionTags := {["GLIBC_2.17"]};
              hostVersionTags := {["GLIBC_2.27"]}; dependsOn := ∅ |} ∨
       r = {| imageVersionTags := ∅; hostVersionTags := ∅; dependsOn := ∅ |} →
       ∃ l, resolve {[libc]} {[libc := r]} image_libs host_libs NORMAL =
              inr {[libc := l]} ∧ origin l = HOST_ORIGIN).
Proof.
  cbv zeta.
  destruct (resolve_only_in_image "libc.so.6" ∅ {["libc.so.6"]} ∅)
    as [Himage Hfail];
    [apply not_elem_of_empty | by apply elem_of_singleton | ].
  split; [exact Himage | split; [exact Hfail | ] ].
  intros Hclaim.
  destruct (Hclaim {["libc.so.6"]} ∅ _ (or_intror eq_refl)) as (l & Hl & _).
  rewrite Hfail in Hl. discriminate Hl.
Qed.

(** * More about [generate] and [cli] *)

(** ** The blocks, case by case *)

Section Block_equations.
Context `{Collaborators}.

(** Lines 90-111. *)
Lemma fetch_image_eq image outputdir platform searchpath creds w :
  fetch_image image outputdir platform searchpath creds w =
    let sp := STBPlatform platform searchpath (fs w) in
    let d := download_image image creds (get_config sp) (fs w) in
    let u := {| src := d.1; dst := outputdir |} in
    let up := unpack_image u (get_image_tag image) true d.2 in
    let loaded := [EvSTBPlatform platform searchpath] in
    let downloaded := loaded ++ [EvDownloadImage image] in
    let unpacked := downloaded ++ [EvUnpackImage (get_image_tag image)] in
    if negb (found_config sp) then
      (Returned,
       {| fs := fs w; answers := answers w;
          log := log w ++ loaded ++
                 [EvLog "ERROR"
                    ("Could not find config for platform " +:+ platform)] |})
    else if negb (opt_truthy d.1) then
      (Returned,
       {| fs := d.2; answers := answers w; log := log w ++ downloaded |})
    else if negb up.1 then
      (Returned,
       {| fs := up.2; answers := answers w; log := log w ++ unpacked |})
    else
      (Val (sp, u),
       {| fs := up.2; answers := answers w; log := log w ++ unpacked |}).
Proof.
  unfold fetch_image, new_STBPlatform, do_download_image, do_unpack_image,
    logger, when, bind, ret, py_return, emit, get_fs, put_fs. simpl.
  destruct (found_config _); simpl; [ | by rewrite <- !app_assoc].
  destruct (opt_truthy _); simpl; [ | by rewrite <- !app_assoc].
  destruct (unpack_image _ _ _ _).1; simpl; by rewrite <- !app_assoc.
Qed.

(** Lines 129-131 and 135-137: [with open(appmetadata) ...: json.load]. *)
Lemma load_metadata_file_eq path w :
  load_metadata_file path w =
    let opened :=
      {| fs := fs w; answers := answers w; log := log w ++ [EvOpen path] |} in
    let announced :=
      {| fs := fs w; answers := answers w;
         log := log w ++ [EvOpen path;
                          EvLog "DEBUG" ("Loading metadata from " +:+ path)] |} in
    match fs w !! path with
    | None => (Raised (FileNotFoundError path), opened)
    | Some Dir => (Raised (IsADirectoryError path), opened)
    | Some (File content) =>
        match json_loads content with
        | None => (Raised JSONDecodeError, announced)
        | Some j => (Val j, announced)
        end
    end.
Proof.
  unfold load_metadata_file, open_read, json_load, logger, bind, ret, raise,
    emit, get_fs. simpl.
  destruct (fs w !! path) as [[content|]|]; simpl; try done.
  destruct (json_loads content); simpl; by rewrite <- !app_assoc.
Qed.

End Block_equations.

Section Metadata_block.
Context `{Collaborators}.

(** Lines 113-145, case by case. *)
Lemma load_app_metadata_eq u appmetadata w :
  load_app_metadata u appmetadata w =
    let found := get_app_metadata_from_img u (fs w) in
    let read := log w ++ [EvGetAppMetadata found] in
    let at_read := {| fs := fs w; answers := answers w; log := read |} in
    match appmetadata with
    | None => (Raised TypeError, at_read)
    | Some a =>
        let path := abspath a in
        if truthy found then
          if str_truthy path then
            match answers w with
            | [] => (Raised Abort, at_read)
            | true :: rest =>
                let asked :=
                  {| fs := fs w; answers := rest;
                     log := read ++ [EvConfirm metadata_prompt true] |} in
                match load_metadata_file path asked with
                | (Val j, w1) =>
                    (Val j,
                     {| fs := delete_img_app_metadata u (fs w1);
                        answers := answers w1;
                        log := log w1 ++ [EvDeleteImgAppMetadata] |})
                | (Returned, w1) => (Returned, w1)
                | (Raised e, w1) => (Raised e, w1)
                end
            | false :: rest =>
                (Val found,
                 {| fs := delete_img_app_metadata u (fs w); answers := rest;
                    log := read ++ [EvConfirm metadata_prompt false;
                                    EvDeleteImgAppMetadata] |})
            end
          else
            (Val found,
             {| fs := delete_img_app_metadata u (fs w); answers := answers w;
                log := read ++ [EvDeleteImgAppMetadata] |})
        else if str_truthy path then
          match fs w !! path with
          | None =>
              (Returned,
               {| fs := fs w; answers := answers w;
                  log := read ++
                         [EvLog "ERROR"
                            ("App metadata file " +:+ path +:+
                             " does not exist")] |})
          | Some _ => load_metadata_file path at_read
          end
        else
          (Returned,
           {| fs := fs w; answers := answers w;
              log := read ++
                     [EvLog "ERROR"
                        "Cannot find app metadata file in OCI image and none provided to BundleGen"] |})
    end.
Proof.
  destruct appmetadata as [a|]; [ | done]. simpl.
  unfold load_app_metadata. unfold bind at 1.
  unfold do_get_app_metadata_from_img, bind, get_fs, emit, ret. simpl.
  destruct (truthy _) eqn:Hfound; destruct (str_truthy _) eqn:Hpath; simpl.
  - unfold click_confirm. simpl. destruct (answers w) as [|[] rest]; simpl.
    + done.
    + destruct (load_metadata_file _ _) as [[j| |e] w1]; simpl; try done.
    + by rewrite <- !app_assoc.
  - by rewrite <- !app_assoc.
  - unfold os_path_exists, bind, get_fs, ret, when, logger, emit, py_return.
    simpl. destruct (fs w !! abspath a) as [n|] eqn:Hfile.
    + rewrite bool_decide_eq_true_2 by eauto. simpl.
      by destruct (load_metadata_file _ _) as [[j| |e] w1].
    + rewrite bool_decide_eq_false_2 by (by intros [? ?]). simpl.
      by rewrite <- !app_assoc.
  - unfold logger, emit, py_return, bind. simpl. by rewrite <- !app_assoc.
Qed.

(** What the metadata block asks and reads. *)
Lemma load_app_metadata_interaction u appmetadata w o w' :
  load_app_metadata u appmetadata w = (o, w') →
  let found := get_app_metadata_from_img u (fs w) in
  ∃ evs,
    log w' = log w ++ EvGetAppMetadata found :: evs ∧
    (count is_open evs ≤ 1)%nat ∧
    (count is_confirm evs ≤ 1)%nat ∧
    (∀ p, EvOpen p ∈ evs →
       ∃ a, appmetadata = Some a ∧ p = abspath a ∧
            (truthy found = true → EvConfirm metadata_prompt true ∈ evs)) ∧
    (∀ q b, EvConfirm q b ∈ evs →
       q = metadata_prompt ∧ truthy found = true ∧ is_Some appmetadata) ∧
    (truthy found = false → count is_confirm evs = 0%nat).
Proof.
  intros Hrun found. subst found.
  rewrite load_app_metadata_eq in Hrun. simpl in Hrun.
  repeat (rewrite ?load_metadata_file_eq in *; simpl in *; case_match;
          simplify_eq).
  all: simpl; rewrite <- ?app_assoc; simpl;
    (eexists; split; [reflexivity | ]); simpl;
    (split; [lia | split; [lia | split; [ | split; [ | done]]]]).
  all: try (intros p Hp; locate_event Hp; simplify_eq; fail).
  all: try (intros q b Hq; locate_event Hq; simplify_eq; eauto; fail).
  all: intros p Hp; locate_event Hp; simplify_eq;
    (eexists; split; [done | split; [done | ]]);
    first [done | intros _; repeat constructor].
Qed.

(** How the metadata block can fail, and what it logs. *)
Lemma load_app_metadata_endings u appmetadata w o w' :
  load_app_metadata u appmetadata w = (o, w') →
  let found := get_app_metadata_from_img u (fs w) in
  ∃ evs,
    log w' = log w ++ EvGetAppMetadata found :: evs ∧
    (∀ e, o = Raised e →
       (e = Abort ∧ truthy found = true ∧ is_Some appmetadata) ∨
       (e = TypeError ∧ appmetadata = None) ∨
       ∃ a, appmetadata = Some a ∧ EvOpen (abspath a) ∈ evs ∧
            ((e = FileNotFoundError (abspath a) ∧
              EvConfirm metadata_prompt true ∈ evs) ∨
             e = IsADirectoryError (abspath a) ∨ e = JSONDecodeError)) ∧
    (∀ level msg, EvLog level msg ∈ evs →
       level = "DEBUG" ∨
       (level = "ERROR" ∧ o = Returned ∧ last evs = Some (EvLog level msg))) ∧
    (o = Returned → ∃ msg, last evs = Some (EvLog "ERROR" msg)).
Proof.
  intros Hrun found. subst found.
  rewrite load_app_metadata_eq in Hrun. simpl in Hrun.
  repeat (rewrite ?load_metadata_file_eq in *; simpl in *; case_match;
          simplify_eq).
  all: simpl; rewrite <- ?app_assoc; simpl;
    (eexists; split; [reflexivity | ]); simpl;
    (split; [ | split; [ | first [done | eauto]]]).
  all: try (intros e He; simplify_eq; fail).
  all: try (intros level msg Hlog; locate_event Hlog; simplify_eq; auto; fail).
  all: intros e He; simplify_eq; eauto.
  all: right; right; eexists; (split; [done | ]);
    (split; [repeat first [apply list_elem_of_here | apply list_elem_of_further] | ]);
    first [ left; split; [done | ]; apply list_elem_of_here
          | right; left; done | right; right; done | left; done ].
Qed.

(** The metadata that the block hands on. *)
Lemma load_app_metadata_value u appmetadata w md w' :
  load_app_metadata u appmetadata w = (Val md, w') →
  let found := get_app_metadata_from_img u (fs w) in
  ∃ a evs,
    appmetadata = Some a ∧
    log w' = log w ++ EvGetAppMetadata found :: evs ∧
    ((md = found ∧ truthy found = true ∧ count is_open evs = 0%nat) ∨
     (∃ content,
        fs w !! abspath a = Some (File content) ∧
        json_loads content = Some md ∧ EvOpen (abspath a) ∈ evs ∧
        (truthy found = true → EvConfirm metadata_prompt true ∈ evs))) ∧
    (∀ q, EvConfirm q false ∈ evs → md = found) ∧
    fs w' = (if truthy found then delete_img_app_metadata u (fs w) else fs w).
Proof.
  intros Hrun found. subst found.
  rewrite load_app_metadata_eq in Hrun. simpl in Hrun.
  repeat (rewrite ?load_metadata_file_eq in *; simpl in *; case_match;
          simplify_eq).
  all: simpl; rewrite <- ?app_assoc; simpl;
    (eexists _, _; split; [reflexivity | split; [reflexivity | ] ]); simpl.
  all: (split; [ | split; [ | done]]).
  all: try (intros q Hq; locate_event Hq; by simplify_eq).
  all: first
    [ by left
    | right; eexists; split; [eassumption | split; [eassumption | ] ];
      split; [repeat first [apply list_elem_of_here
                           | apply list_elem_of_further] | ];
      first [done | intros _; apply list_elem_of_here] ].
Qed.

(** How the fetch block can end, and what it logs. *)
Lemma fetch_image_endings image outputdir platform searchpath creds w o w' :
  fetch_image image outputdir platform searchpath creds w = (o, w') →
  ∃ evs,
    log w' = log w ++ EvSTBPlatform platform searchpath :: evs ∧
    (∀ e, o ≠ Raised e) ∧
    (∀ level msg, EvLog level msg ∈ evs →
       level = "ERROR" ∧ o = Returned ∧ last evs = Some (EvLog level msg)) ∧
    (o = Returned →
       (∃ msg, last evs = Some (EvLog "ERROR" msg)) ∨
       last (EvSTBPlatform platform searchpath :: evs) =
         Some (EvDownloadImage image) ∨
       last (EvSTBPlatform platform searchpath :: evs) =
         Some (EvUnpackImage (get_image_tag image))).
Proof.
  intros Hrun. rewrite fetch_image_eq in Hrun. simpl in Hrun.
  repeat case_match; simplify_eq; simpl; rewrite <- ?app_assoc; simpl;
    (eexists; split; [reflexivity | ]); simpl;
    (split; [done | split; [ | first [done | eauto]]]);
    intros level msg Hlog; locate_event Hlog; by simplify_eq.
Qed.

End Metadata_block.

(** ** Logs and stages *)

Lemma stages_app l1 l2 : stages (l1 ++ l2) = stages l1 ++ stages l2.
Proof.
  induction l1 as [|e l1 IH]; simpl; [done | ].
  destruct (stage_of e); simpl; by rewrite IH.
Qed.

Lemma stages_none (Q : event → bool) l :
  (∀ e, Q e → stage_of e = None) → Forall Q l → stages l = [].
Proof.
  intros HQ. induction 1 as [|e l He _ IH]; simpl; [done | ].
  by rewrite (HQ e He).
Qed.


(** Find the event of a decomposition [k ++ e :: back] of a given list. *)
Ltac find_in_suffix k Hk :=
  repeat (destruct k as [|? k]; simpl in *; simplify_eq).

(** Membership in what a block adds to a log. *)
Ltac in_added_events :=
  solve [ apply elem_of_app; right;
          repeat first [apply list_elem_of_here | apply list_elem_of_further] ].

Section More.
Context `{Collaborators}.
Variables (image outputdir platform : string) (searchpath creds : option string)
  (ipk : bool) (appmetadata : option string) (yes nodepwalking : bool)
  (libmatchingmode : string) (files : gmap string node) (ans : list bool).

(** The stages of a run are a front part of the pipeline, in the order
    of the source and each stage once. *)
Lemma stages_prefix_of_pipeline c w' :
  run_generate image outputdir platform searchpath creds ipk appmetadata yes
    nodepwalking libmatchingmode files ans = (c, w') →
  stages (log w') `prefix_of` pipeline ipk.
Proof.
  intros Hrun.
  apply run_generate_cases in Hrun
    as (o1 & w1 & evs1 & H1 & Hl1 & Hc1 & Hrun). simpl in *.
  assert (stages (log w1) = []) as Hs1.
  { rewrite Hl1. simpl. eapply stages_none; [ | done]. by intros []. }
  destruct Hrun
    as [(_ & -> & ->) | (o2 & w2 & evs2 & -> & H2 & _ & _ & Hrun)].
  { rewrite Hs1. apply prefix_nil. }
  rewrite fetch_image_eq in H2. simpl in H2.
  destruct Hrun as [(Hstop & -> & ->) | Hrun].
  { repeat case_match; simplify_eq; simpl;
      rewrite ?stages_app, Hs1; simpl; by eexists. }
  destruct Hrun as (f & o3 & w3 & evs3 & -> & H3 & Hl3 & Hc3 & _ & _ & Hrun).
  assert (stages (log w2) = [LoadPlatform; DownloadImage; UnpackImage]) as Hs2.
  { repeat case_match; simplify_eq; simpl. by rewrite !stages_app, Hs1. }
  assert (stages (log w3) =
            [LoadPlatform; DownloadImage; UnpackImage; ReadImageMetadata])
    as Hs3.
  { rewrite Hl3, stages_app, Hs2. simpl.
    erewrite stages_none; [done | | done]. by intros []. }
  destruct Hrun as [(_ & -> & ->) | (md & o4 & -> & H4 & ->)].
  { rewrite Hs3. by eexists. }
  apply process_bundle_spec in H4. simpl in H4.
  repeat case_match; destruct_and?;
    match goal with Hl : log w' = _ |- _ => rewrite Hl end;
    rewrite stages_app, Hs3; simpl; by eexists.
Qed.

(** What the first three blocks log holds no event of the processing
    block. *)
Ltac early_event H Hl1 Hl2 Hl3 :=
  rewrite ?Hl3, ?Hl2, ?Hl1 in H; locate_event H; wrong_block H.

(** X2.  A [BundleProcessor] is built at most once, and with the
    parameters of the run: the absolute output path as its root
    file system, the two matching options as given, and the configuration
    of the platform as it was loaded right after start-up. *)
Theorem processor_receives_run_parameters c w' p :
  run_generate image outputdir platform searchpath creds ipk appmetadata yes
    nodepwalking libmatchingmode files ans = (c, w') →
  EvBundleProcessor p ∈ log w' →
  let out := abspath outputdir in
  let files_after_startup :=
    match files !! out with
    | Some Dir => remove_tree out files
    | _ => files
    end in
  bp_rootfs_path p = out ∧
  bp_nodepwalking p = nodepwalking ∧
  bp_libmatchingmode p = libmatchingmode ∧
  bp_platform_cfg p =
    get_config (STBPlatform platform searchpath files_after_startup) ∧
  count is_processor (log w') = 1%nat.
Proof.
  intros Hrun Hp out files_after_startup. subst files_after_startup.
  apply run_generate_cases in Hrun
    as (o1 & w1 & evs1 & H1 & Hl1 & Hc1 & Hrun). fold out in H1, Hrun.
  simpl in *.
  destruct Hrun
    as [(_ & -> & ->) | (o2 & w2 & evs2 & -> & H2 & Hl2 & Hc2 & Hrun)].
  { early_event Hp Hl1 Hl1 Hl1. }
  destruct Hrun as [(_ & -> & ->) | Hrun].
  { early_event Hp Hl1 Hl2 Hl2. }
  destruct Hrun as (f & o3 & w3 & evs3 & -> & H3 & Hl3 & Hc3 & _ & _ & Hrun).
  destruct Hrun as [(_ & -> & ->) | (md & o4 & -> & H4 & ->)].
  { early_event Hp Hl1 Hl2 Hl3. }
  assert (Forall (λ e, is_processor e = false) (log w3)) as Hearly.
  { rewrite Hl3, Hl2, Hl1.
    repeat first [apply Forall_app; split | apply Forall_cons; split];
      try done; (eapply Forall_kind; [ | done]); by intros []. }
  apply process_bundle_processor in H4 as (l & Hl & _ & Hlate).
  rewrite Hl in Hp |- *.
  assert (p = {| bp_platform_cfg := get_config f.1; bp_rootfs_path := out;
                 bp_app_metadata := md; bp_nodepwalking := nodepwalking;
                 bp_libmatchingmode := libmatchingmode |}) as ->.
  { rewrite Forall_forall in Hearly, Hlate.
    apply elem_of_app in Hp as [Hp|Hp]; [by apply Hearly in Hp | ].
    apply elem_of_cons in Hp as [Hp|Hp]; [by simplify_eq | ].
    by apply Hlate in Hp. }
  simpl. do 3 (split; [done | ]). split.
  - rewrite fetch_image_eq in H2. simpl in H2.
    apply prepare_outputdir_spec in H1. simpl in H1.
    assert (fs w1 = match files !! out with
                    | Some Dir => remove_tree out files
                    | _ => files
                    end) as <-.
    { destruct (files !! out) as [[content|]|]; [ | | by destruct H1 as [_ ->]];
        destruct yes; try destruct ans as [|[] rest];
        destruct_and?; simplify_eq; done. }
    repeat case_match; by simplify_eq.
  - rewrite count_app. simpl. by rewrite !count_absent.
Qed.

(** X3.  [generate] never removes anything but its output directory, and
    it does so at most twice: once at start-up and once after a failed
    compatibility check. *)
Theorem generate_only_removes_outputdir c w' :
  run_generate image outputdir platform searchpath creds ipk appmetadata yes
    nodepwalking libmatchingmode files ans = (c, w') →
  (∀ p, EvRmtree p ∈ log w' → p = abspath outputdir) ∧
  count is_rmtree (log w') =
    (count is_rmtree (startup (log w')) + count is_failed_check (log w'))%nat ∧
  (count is_rmtree (startup (log w')) ≤ 1)%nat ∧
  (count is_failed_check (log w') ≤ 1)%nat.
Proof.
  intros Hrun.
  destruct (run_generate_startup _ _ _ _ _ _ _ _ _ _ _ _ _ _ Hrun)
    as (o1' & w1' & H1' & Hstartup & _ & _).
  apply run_generate_cases in Hrun
    as (o1 & w1 & evs1 & H1 & Hl1 & Hc1 & Hrun). simpl in *.
  rewrite H1 in H1'. simplify_eq. rewrite Hstartup. clear Hstartup.
  apply prepare_outputdir_spec in H1. simpl in H1.
  assert ((∀ p, EvRmtree p ∈ log w1' → p = abspath outputdir) ∧
          (count is_rmtree (log w1') ≤ 1)%nat ∧
          count is_failed_check (log w1') = 0%nat) as (Hp1 & Hle1 & Hf1).
  { destruct (files !! abspath outputdir) as [n|];
      [ | destruct H1 as [_ ->]; simpl; split; [ | split; [lia | done]];
          intros p Hp; locate_event Hp; done ].
    destruct yes; [ | destruct ans as [|[] rest] ]; destruct_and?;
      repeat match goal with
             | Hw : w1' = _ |- _ => rewrite Hw
             | Hl : log w1' = _ |- _ => rewrite Hl
             end; simpl;
      (split; [ | split; [lia | done]]);
      intros p Hp; locate_event Hp; by simplify_eq. }
  destruct Hrun
    as [(_ & -> & ->) | (o2 & w2 & evs2 & -> & H2 & Hl2 & Hc2 & Hrun)].
  { rewrite Hf1. split; [done | ]. split; [lia | ]. split; [done | lia]. }
  assert ((∀ p, EvRmtree p ∈ log w2 → p = abspath outputdir) ∧
          count is_rmtree (log w2) = count is_rmtree (log w1') ∧
          count is_failed_check (log w2) = 0%nat) as (Hp2 & Hr2 & Hf2).
  { rewrite Hl2. split; [ | split].
    - intros p Hp. apply elem_of_app in Hp as [Hp|Hp]; [by apply Hp1 | ].
      locate_event Hp; wrong_block Hp.
    - rewrite count_app. simpl.
      rewrite (count_absent is_rmtree evs2); [lia | ].
      eapply Forall_kind; [ | done]. by intros [].
    - rewrite count_app, Hf1. simpl. apply count_absent.
      eapply Forall_kind; [ | done]. by intros []. }
  destruct Hrun as [(_ & -> & ->) | Hrun].
  { rewrite Hf2, Hr2. split; [done | ]. split; [lia | ]. split; [done | lia]. }
  destruct Hrun as (f & o3 & w3 & evs3 & -> & H3 & Hl3 & Hc3 & _ & _ & Hrun).
  assert ((∀ p, EvRmtree p ∈ log w3 → p = abspath outputdir) ∧
          count is_rmtree (log w3) = count is_rmtree (log w1') ∧
          count is_failed_check (log w3) = 0%nat) as (Hp3 & Hr3 & Hf3).
  { rewrite Hl3. split; [ | split].
    - intros p Hp. apply elem_of_app in Hp as [Hp|Hp]; [by apply Hp2 | ].
      locate_event Hp; wrong_block Hp.
    - rewrite count_app, Hr2. simpl.
      rewrite (count_absent is_rmtree evs3); [lia | ].
      eapply Forall_kind; [ | done]. by intros [].
    - rewrite count_app, Hf2. simpl. apply count_absent.
      eapply Forall_kind; [ | done]. by intros []. }
  destruct Hrun as [(_ & -> & ->) | (md & o4 & -> & H4 & ->)].
  { rewrite Hf3, Hr3. split; [done | ]. split; [lia | ]. split; [done | lia]. }
  apply process_bundle_spec in H4. simpl in H4.
  repeat case_match; destruct_and?;
    match goal with Hl : log w' = _ |- _ => rewrite Hl end;
    rewrite !count_app, Hr3, Hf3; simpl;
    (split; [ | split; [lia | split; [done | lia]]]);
    intros p Hp; (apply elem_of_app in Hp as [Hp|Hp]; [by apply Hp3 | ]);
    locate_event Hp; by simplify_eq.
Qed.

(** The first three blocks: what they log apart from the metadata
    block's own events. *)
Lemma early_blocks_quiet (P : event → bool) w1 evs1 w2 evs2 :
  (∀ e, startup_event e → P e = false) →
  (∀ e, fetch_event e → P e = false) →
  Forall startup_event evs1 → Forall fetch_event evs2 →
  log w1 = greeting image platform :: evs1 →
  log w2 = log w1 ++ EvSTBPlatform platform searchpath :: evs2 →
  Forall (λ e, P e = false) (log w2).
Proof.
  intros Hs Hf Hc1 Hc2 -> ->.
  repeat first [apply Forall_app; split | apply Forall_cons; split].
  - by apply Hf.
  - by apply (Forall_kind startup_event).
  - by apply Hf.
  - by apply (Forall_kind fetch_event).
Qed.

(** X4.  The only file that [generate] itself opens is the custom metadata
    file, at its absolute path and at most once; when the image holds
    metadata of its own, the file is opened only after the user has asked
    for the custom metadata. *)
Theorem generate_only_reads_custom_metadata c w' :
  run_generate image outputdir platform searchpath creds ipk appmetadata yes
    nodepwalking libmatchingmode files ans = (c, w') →
  (count is_open (log w') ≤ 1)%nat ∧
  ∀ p, EvOpen p ∈ log w' →
    (∃ a, appmetadata = Some a ∧ p = abspath a) ∧
    ∀ found, EvGetAppMetadata found ∈ log w' → truthy found = true →
      EvConfirm metadata_prompt true ∈ log w'.
Proof.
  intros Hrun.
  apply run_generate_cases in Hrun
    as (o1 & w1 & evs1 & H1 & Hl1 & Hc1 & Hrun). simpl in *.
  assert (Forall (λ e, is_open e = false) (log w1)) as Hq1.
  { rewrite Hl1. apply Forall_cons. split; [done | ].
    eapply Forall_kind; [ | done]. by intros []. }
  assert (∀ l, Forall (λ e, is_open e = false) l →
            (count is_open l ≤ 1)%nat ∧
            ∀ p, EvOpen p ∈ l →
              (∃ a, appmetadata = Some a ∧ p = abspath a) ∧
              ∀ found, EvGetAppMetadata found ∈ l → truthy found = true →
                EvConfirm metadata_prompt true ∈ l) as Hquiet.
  { intros l Hl. split; [rewrite count_absent by done; lia | ].
    intros p Hp. rewrite Forall_forall in Hl. by apply Hl in Hp. }
  destruct Hrun
    as [(_ & -> & ->) | (o2 & w2 & evs2 & -> & H2 & Hl2 & Hc2 & Hrun)];
    [by apply Hquiet | ].
  assert (Forall (λ e, is_open e = false) (log w2)) as Hq2.
  { eapply early_blocks_quiet; try done; by intros []. }
  assert (∀ j, EvGetAppMetadata j ∉ log w2) as Hg2.
  { intros j Hj. rewrite Hl2, Hl1 in Hj. locate_event Hj; wrong_block Hj. }
  destruct Hrun as [(_ & -> & ->) | Hrun]; [by apply Hquiet | ].
  destruct Hrun as (f & o3 & w3 & evs3 & -> & H3 & Hl3 & Hc3 & _ & _ & Hrun).
  destruct (load_app_metadata_interaction _ _ _ _ _ H3)
    as (evs & Hl3' & Hopen & _ & Hpath & _ & _).
  assert (evs = evs3) as ->.
  { rewrite Hl3 in Hl3'. apply app_inv_head in Hl3'. by simplify_eq. }
  clear Hl3'.
  assert ((count is_open (log w3) ≤ 1)%nat ∧
          ∀ p, EvOpen p ∈ log w3 →
            (∃ a, appmetadata = Some a ∧ p = abspath a) ∧
            ∀ found, EvGetAppMetadata found ∈ log w3 → truthy found = true →
              EvConfirm metadata_prompt true ∈ log w3) as [Hle3 Hp3].
  { rewrite Hl3. split.
    - rewrite count_app, (count_absent _ _ Hq2). simpl. lia.
    - intros p Hp. rewrite Forall_forall in Hq2.
      apply elem_of_app in Hp as [Hp|Hp]; [by apply Hq2 in Hp | ].
      apply elem_of_cons in Hp as [Hp|Hp]; [done | ].
      destruct (Hpath p Hp) as (a & -> & -> & Hasked).
      split; [eauto | ]. intros found Hfound Htrue.
      apply elem_of_app. right. apply list_elem_of_further. apply Hasked.
      apply elem_of_app in Hfound as [Hfound|Hfound];
        [by apply Hg2 in Hfound | ].
      apply elem_of_cons in Hfound as [Hfound|Hfound]; [by simplify_eq | ].
      wrong_block Hfound. }
  destruct Hrun as [(_ & -> & ->) | (md & o4 & -> & H4 & ->)]; [done | ].
  apply process_bundle_processor in H4 as (l & Hl & Hc4 & _).
  assert (Forall (λ e, is_open e = false) (EvBundleProcessor
            {| bp_platform_cfg := get_config f.1;
               bp_rootfs_path := abspath outputdir; bp_app_metadata := md;
               bp_nodepwalking := nodepwalking;
               bp_libmatchingmode := libmatchingmode |} :: l)) as Hq4.
  { apply Forall_cons. split; [done | ].
    eapply Forall_kind; [ | done]. by intros []. }
  rewrite Hl. split.
  - rewrite count_app, (count_absent _ _ Hq4). lia.
  - intros p Hp. rewrite Forall_forall in Hq4.
    apply elem_of_app in Hp as [Hp|Hp]; [ | by apply Hq4 in Hp].
    destruct (Hp3 p Hp) as [Ha Hasked]. split; [done | ].
    intros found Hfound Htrue. apply elem_of_app. left.
    apply (Hasked found); [ | done].
    apply elem_of_app in Hfound as [Hfound|Hfound]; [done | ].
    apply elem_of_cons in Hfound as [Hfound|Hfound]; [done | ].
    wrong_block Hfound.
Qed.

(** Which questions are asked: only the two prompts of the source, each
    only when its condition holds. *)
Lemma prompts_only_when_needed c w' :
  run_generate image outputdir platform searchpath creds ipk appmetadata yes
    nodepwalking libmatchingmode files ans = (c, w') →
  let out := abspath outputdir in
  (count is_confirm (log w') ≤ 2)%nat ∧
  (∀ q b, EvConfirm q b ∈ log w' →
     (q = overwrite_prompt out ∧ yes = false ∧ is_Some (files !! out)) ∨
     (q = metadata_prompt ∧ is_Some appmetadata ∧
      ∃ found, EvGetAppMetadata found ∈ log w' ∧ truthy found = true)) ∧
  (yes = true ∨ files !! out = None →
   (∀ found, EvGetAppMetadata found ∈ log w' → truthy found = false) →
   count is_confirm (log w') = 0%nat).
Proof.
  intros Hrun out.
  apply run_generate_cases in Hrun
    as (o1 & w1 & evs1 & H1 & Hl1 & Hc1 & Hrun). fold out in H1, Hrun.
  simpl in *.
  apply prepare_outputdir_spec in H1. simpl in H1.
  assert ((count is_confirm (log w1) ≤ 1)%nat ∧
          (∀ q b, EvConfirm q b ∈ log w1 →
             q = overwrite_prompt out ∧ yes = false ∧ is_Some (files !! out)) ∧
          (yes = true ∨ files !! out = None →
           count is_confirm (log w1) = 0%nat)) as (Hle1 & Hq1 & Hz1).
  { clear Hl1 Hc1 Hrun. destruct (files !! out) as [n|];
      [ | destruct H1 as [_ ->]; simpl; split; [lia | split; [ | done]];
          intros q b Hq; locate_event Hq; done ].
    destruct yes; [ | destruct ans as [|[] rest] ]; destruct_and?;
      repeat match goal with
             | Hw : w1 = _ |- _ => rewrite Hw
             | Hl : log w1 = _ |- _ => rewrite Hl
             end; simpl.
    all: (split; [lia | split; [ | by intros [? | ?]]]);
      intros q b Hq; locate_event Hq; simplify_eq; eauto. }
  assert (∀ l, log w' = log w1 ++ l → Forall (λ e, is_confirm e = false) l →
            (count is_confirm (log w') ≤ 2)%nat ∧
            (∀ q b, EvConfirm q b ∈ log w' →
               (q = overwrite_prompt out ∧ yes = false ∧
                is_Some (files !! out)) ∨
               (q = metadata_prompt ∧ is_Some appmetadata ∧
                ∃ found, EvGetAppMetadata found ∈ log w' ∧
                         truthy found = true)) ∧
            (yes = true ∨ files !! out = None →
             (∀ found, EvGetAppMetadata found ∈ log w' →
                truthy found = false) →
             count is_confirm (log w') = 0%nat)) as Hquiet.
  { intros l -> Hl. rewrite count_app, (count_absent _ _ Hl).
    split; [lia | split].
    - intros q b Hq. left. rewrite Forall_forall in Hl.
      apply elem_of_app in Hq as [Hq|Hq]; [by apply Hq1 in Hq | ].
      by apply Hl in Hq.
    - intros Hfresh _. rewrite Hz1 by done. lia. }
  destruct Hrun
    as [(_ & -> & ->) | (o2 & w2 & evs2 & -> & H2 & Hl2 & Hc2 & Hrun)].
  { apply (Hquiet []); [by rewrite app_nil_r | done]. }
  assert (Forall (λ e, is_confirm e = false)
            (EvSTBPlatform platform searchpath :: evs2)) as Hn2.
  { apply Forall_cons. split; [done | ].
    eapply Forall_kind; [ | done]. by intros []. }
  destruct Hrun as [(_ & -> & ->) | Hrun].
  { apply (Hquiet _ Hl2 Hn2). }
  destruct Hrun as (f & o3 & w3 & evs3 & -> & H3 & Hl3 & Hc3 & _ & _ & Hrun).
  destruct (load_app_metadata_interaction _ _ _ _ _ H3)
    as (evs & Hl3' & _ & Hle3 & _ & Hq3 & Hz3).
  assert (evs = evs3) as ->.
  { rewrite Hl3 in Hl3'. apply app_inv_head in Hl3'. by simplify_eq. }
  clear Hl3' Hquiet.
  set (found := get_app_metadata_from_img f.2 (fs w2)) in *.
  assert (∀ j, EvGetAppMetadata j ∈ log w3 → j = found) as Hg3.
  { intros j Hj. rewrite Hl3, Hl2, Hl1 in Hj.
    locate_event Hj; try wrong_block Hj. by simplify_eq. }
  assert (EvGetAppMetadata found ∈ log w3) as Hfound.
  { rewrite Hl3. apply elem_of_app. right. apply list_elem_of_here. }
  assert (count is_confirm (log w3) =
            (count is_confirm (log w1) + count is_confirm evs3)%nat) as Hc.
  { rewrite Hl3, Hl2, !count_app, (count_absent _ _ Hn2). simpl. lia. }
  assert (∀ l, log w' = log w3 ++ l → Forall (λ e, is_confirm e = false) l →
            (count is_confirm (log w') ≤ 2)%nat ∧
            (∀ q b, EvConfirm q b ∈ log w' →
               (q = overwrite_prompt out ∧ yes = false ∧
                is_Some (files !! out)) ∨
               (q = metadata_prompt ∧ is_Some appmetadata ∧
                ∃ found, EvGetAppMetadata found ∈ log w' ∧
                         truthy found = true)) ∧
            (yes = true ∨ files !! out = None →
             (∀ found, EvGetAppMetadata found ∈ log w' →
                truthy found = false) →
             count is_confirm (log w') = 0%nat)) as Hrest.
  { intros l -> Hl. rewrite count_app, (count_absent _ _ Hl), Hc.
    split; [lia | split].
    - intros q b Hq. rewrite Forall_forall in Hl, Hn2.
      apply elem_of_app in Hq as [Hq|Hq]; [ | by apply Hl in Hq].
      rewrite Hl3, Hl2 in Hq.
      apply elem_of_app in Hq as [Hq|Hq].
      + apply elem_of_app in Hq as [Hq|Hq]; [left; by apply Hq1 in Hq | ].
        by apply Hn2 in Hq.
      + apply elem_of_cons in Hq as [Hq|Hq]; [done | ]. right.
        destruct (Hq3 q b Hq) as (-> & Htrue & Hsome).
        split; [done | split; [done | ] ]. exists found.
        split; [ | done]. apply elem_of_app. by left.
    - intros Hfresh Hnone. rewrite Hz1 by done.
      rewrite Hz3; [lia | ]. apply Hnone. apply elem_of_app. by left. }
  destruct Hrun as [(_ & -> & ->) | (md & o4 & -> & H4 & ->)].
  { apply (Hrest []); [by rewrite app_nil_r | done]. }
  apply process_bundle_processor in H4 as (l & Hl & Hc4 & _).
  apply (Hrest _ Hl). apply Forall_cons. split; [done | ].
  eapply Forall_kind; [ | done]. by intros [].
Qed.

(** X7.  How a run that returns normally ends: it has packaged the
    bundle and says so; or its last action is an [ERROR] or [WARNING]
    message; or it stops without a word after a failed download, a failed
    unpack or a failed compatibility check.  An [ERROR] or [WARNING]
    message is always the last action of a run, which then returns
    normally without having packaged anything. *)
Theorem generate_normal_return c w' :
  run_generate image outputdir platform searchpath creds ipk appmetadata yes
    nodepwalking libmatchingmode files ans = (c, w') →
  (∀ level msg, EvLog level msg ∈ log w' →
     level = "ERROR" ∨ level = "WARNING" →
     c = Completed ∧ last (log w') = Some (EvLog level msg) ∧
     count is_packaging (log w') = 0%nat) ∧
  (c = Completed →
     (count is_packaging (log w') = 1%nat ∧
      ∃ msg, last (log w') = Some (EvLog "SUCCESS" msg)) ∨
     (count is_packaging (log w') = 0%nat ∧
      ((∃ msg, last (log w') = Some (EvLog "ERROR" msg)) ∨
       last (log w') = Some (EvLog "WARNING" "Failed to produce bundle") ∨
       last (log w') = Some (EvDownloadImage image) ∨
       last (log w') = Some (EvUnpackImage (get_image_tag image)) ∨
       last (log w') = Some (EvRmtree (abspath outputdir))))).
Proof.
  intros Hrun.
  apply run_generate_cases in Hrun
    as (o1 & w1 & evs1 & H1 & Hl1 & Hc1 & Hrun). simpl in *.
  assert (∀ level msg, EvLog level msg ∈ log w1 → level = "INFO") as Hlog1.
  { intros level msg Hlog. rewrite Hl1 in Hlog.
    apply elem_of_cons in Hlog as [Hlog|Hlog];
      [unfold greeting in Hlog; by simplify_eq | ].
    wrong_block Hlog. }
  assert (count is_packaging (log w1) = 0%nat) as Hp1.
  { rewrite Hl1. simpl. apply count_absent.
    eapply Forall_kind; [ | done]. by intros []. }
  destruct Hrun
    as [(Hstop & -> & ->) | (o2 & w2 & evs2 & -> & H2 & Hl2 & Hc2 & Hrun)].
  { split.
    - intros level msg Hlog Hlevel. apply Hlog1 in Hlog.
      destruct Hlevel; by simplify_eq.
    - intros Hc. apply prepare_outputdir_spec in H1. simpl in H1.
      exfalso. clear Hl1 Hc1 Hlog1 Hp1.
      destruct (files !! abspath outputdir) as [n|];
        [ | destruct H1 as [-> _]; by destruct (Hstop ()) ].
      destruct yes; [ | destruct ans as [|[] rest] ]; destruct_and?;
        try destruct n; destruct_and?; simplify_eq;
        first [done | by destruct (Hstop ())]. }
  destruct (fetch_image_endings _ _ _ _ _ _ _ _ H2)
    as (evs & Hl2' & Hnever & Hlog2 & Hret2).
  assert (evs = evs2) as ->.
  { rewrite Hl2 in Hl2'. apply app_inv_head in Hl2'. by simplify_eq. }
  clear Hl2'.
  assert (count is_packaging (log w2) = 0%nat) as Hp2.
  { rewrite Hl2, count_app, Hp1. simpl. apply count_absent.
    eapply Forall_kind; [ | done]. by intros []. }
  assert (∀ x, last evs2 = Some x → last (log w2) = Some x) as Hlast2.
  { intros x Hx. by rewrite Hl2, last_app, last_cons, Hx. }
  destruct Hrun as [(Hstop & -> & ->) | Hrun].
  { split.
    - intros level msg Hlog Hlevel. rewrite Hl2 in Hlog.
      apply elem_of_app in Hlog as [Hlog|Hlog].
      { apply Hlog1 in Hlog. destruct Hlevel; by simplify_eq. }
      apply elem_of_cons in Hlog as [Hlog|Hlog]; [done | ].
      destruct (Hlog2 level msg Hlog) as (-> & -> & Hlast). auto.
    - intros Hc. right. split; [done | ].
      destruct o2 as [f| |e2].
      + by destruct (Hstop f).
      + destruct (Hret2 eq_refl) as [[msg Hlast] | [Hlast | Hlast]].
        * left. exists msg. by apply Hlast2.
        * do 2 right; left. by rewrite Hl2, last_app, Hlast.
        * do 3 right; left. by rewrite Hl2, last_app, Hlast.
      + done. }
  destruct Hrun as (f & o3 & w3 & evs3 & -> & H3 & Hl3 & Hc3 & _ & _ & Hrun).
  assert (∀ level msg, EvLog level msg ∈ log w2 → level = "INFO") as Hlog2'.
  { intros level msg Hlog. rewrite Hl2 in Hlog.
    apply elem_of_app in Hlog as [Hlog|Hlog]; [by eapply Hlog1 | ].
    apply elem_of_cons in Hlog as [Hlog|Hlog]; [done | ].
    by destruct (Hlog2 level msg Hlog) as (_ & ? & _). }
  destruct (load_app_metadata_endings _ _ _ _ _ H3)
    as (evs & Hl3' & _ & Hlog3 & Hret3).
  assert (evs = evs3) as ->.
  { rewrite Hl3 in Hl3'. apply app_inv_head in Hl3'. by simplify_eq. }
  clear Hl3'.
  assert (count is_packaging (log w3) = 0%nat) as Hp3.
  { rewrite Hl3, count_app, Hp2. simpl. apply count_absent.
    eapply Forall_kind; [ | done]. by intros []. }
  assert (∀ x, last evs3 = Some x → last (log w3) = Some x) as Hlast3.
  { intros x Hx. by rewrite Hl3, last_app, last_cons, Hx. }
  assert (∀ level msg, EvLog level msg ∈ log w3 →
            level = "INFO" ∨ level = "DEBUG" ∨
            (level = "ERROR" ∧ o3 = Returned ∧
             last (log w3) = Some (EvLog level msg))) as Hlog3'.
  { intros level msg Hlog. rewrite Hl3 in Hlog.
    apply elem_of_app in Hlog as [Hlog|Hlog]; [left; by eapply Hlog2' | ].
    apply elem_of_cons in Hlog as [Hlog|Hlog]; [done | ]. right.
    destruct (Hlog3 level msg Hlog) as [-> | (-> & -> & Hlast)]; auto. }
  destruct Hrun as [(Hstop & -> & ->) | (md & o4 & -> & H4 & ->)].
  { split.
    - intros level msg Hlog Hlevel.
      destruct (Hlog3' level msg Hlog) as [-> | [-> | (-> & -> & Hlast)]];
        [by destruct Hlevel | by destruct Hlevel | done].
    - intros Hc. right. split; [done | ]. left.
      destruct o3 as [j| |e3]; [by destruct (Hstop j) | | done].
      destruct (Hret3 eq_refl) as [msg Hlast]. exists msg. by apply Hlast3. }
  assert (∀ level msg, EvLog level msg ∈ log w3 →
            level = "INFO" ∨ level = "DEBUG") as Hquiet.
  { intros level msg Hlog.
    destruct (Hlog3' level msg Hlog) as [-> | [-> | (_ & ? & _)]]; auto.
    done. }
  apply process_bundle_spec in H4. simpl in H4.
  repeat case_match; destruct_and?; simplify_eq;
    match goal with Hl : log w' = _ |- _ => rewrite Hl end;
    rewrite count_app, Hp3, last_app; simpl; (split; [ | intros Hc; eauto 10]);
    intros level msg Hlog Hlevel;
    (apply elem_of_app in Hlog as [Hlog|Hlog];
      [apply Hquiet in Hlog; destruct Hlog, Hlevel; by simplify_eq | ]);
    locate_event Hlog; simplify_eq; destruct Hlevel; by simplify_eq.
Qed.

(** The file system after start-up. *)
Lemma prepare_outputdir_files outputdir' yes' w o w1 :
  prepare_outputdir outputdir' yes' w = (o, w1) →
  (fs w1 = fs w ∨
   (fs w !! outputdir' = Some Dir ∧ o = Val tt ∧
    fs w1 = remove_tree outputdir' (fs w))) ∧
  (o = Val tt →
   fs w1 = match fs w !! outputdir' with
           | Some Dir => remove_tree outputdir' (fs w)
           | _ => fs w
           end) ∧
  (∀ x, o ≠ Returned ∧ o ≠ Raised TypeError ∧ (o = Val x → x = tt)).
Proof.
  intros Hrun. apply prepare_outputdir_spec in Hrun.
  destruct (fs w !! outputdir') as [n|];
    [ | destruct Hrun as [-> ->]; split; [by left | split; [done | ] ];
        by intros [] ].
  destruct yes'; [ | destruct (answers w) as [|[] rest] ]; cbv zeta in Hrun;
    destruct_and?; try destruct n; destruct_and?; simplify_eq;
    (split; [first [by left | by right] | split; [done | by intros []]]).
Qed.


(** X9.  When the output path is an existing regular file, [generate]
    never gets to load the platform: it aborts at the prompt, or
    [shutil.rmtree] refuses the file with [NotADirectoryError]; either way
    the file system is untouched. *)
Theorem outputdir_is_a_regular_file c w' content :
  files !! abspath outputdir = Some (File content) →
  run_generate image outputdir platform searchpath creds ipk appmetadata yes
    nodepwalking libmatchingmode files ans = (c, w') →
  let out := abspath outputdir in
  fs w' = files ∧ stages (log w') = [] ∧
  (c = Failed Abort ∨ c = Failed (NotADirectoryError out)) ∧
  (yes = true ∨ (∃ rest, ans = true :: rest) →
   c = Failed (NotADirectoryError out) ∧
   last (log w') = Some (EvRmtree out)).
Proof.
  intros Hfile Hrun out.
  apply run_generate_cases in Hrun
    as (o1 & w1 & evs1 & H1 & Hl1 & Hc1 & Hrun). fold out in H1, Hrun, Hfile.
  simpl in *.
  assert (stages (log w1) = []) as Hs1.
  { rewrite Hl1. simpl. eapply stages_none; [ | done]. by intros []. }
  apply prepare_outputdir_spec in H1. simpl in H1. rewrite Hfile in H1.
  clear Hl1 Hc1.
  destruct Hrun as [(_ & -> & ->) | (o2 & w2 & evs2 & -> & _)].
  - rewrite Hs1.
    destruct yes; [ | destruct ans as [|[] rest] ]; destruct_and?;
      simplify_eq; simpl;
      repeat match goal with Hl : log _ = _ |- _ => rewrite Hl end;
      (split; [done | split; [done | split; [auto | ] ] ]);
      first [ by intros [? | [? ?]] | by intros _ ].
  - exfalso.
    destruct yes; [ | destruct ans as [|[] rest] ]; destruct_and?; done.
Qed.

(** X10.  The archive control file is written exactly in the runs that
    package with [--ipk], and [create_ipk] is the very next call. *)
Theorem control_file_only_for_ipk c w' :
  run_generate image outputdir platform searchpath creds ipk appmetadata yes
    nodepwalking libmatchingmode files ans = (c, w') →
  let out := abspath outputdir in
  (EvCreateControlFile ∈ log w' ↔
   ipk = true ∧ EvBeginProcessing true ∈ log w') ∧
  (∀ front back, log w' = front ++ EvCreateControlFile :: back →
     ∃ back', back = EvCreateIpk out out :: back').
Proof.
  intros Hrun out.
  apply run_generate_summary in Hrun
    as [[Hpre _] | (f & w3 & md & o4 & found & Hpre & _ & _ & H4 & _)].
  { assert (∀ e, e ∈ log w' → pre_processing_event e) as Hin
      by by apply Forall_forall.
    split; [split | ].
    - intros He. by apply Hin in He.
    - intros [_ He]. by apply Hin in He.
    - intros front back Hl.
      assert (EvCreateControlFile ∈ log w') as He.
      { rewrite Hl. apply elem_of_app. right. apply list_elem_of_here. }
      by apply Hin in He. }
  assert (∀ e, e ∈ log w3 → pre_processing_event e) as Hin
    by by apply Forall_forall.
  set (is_control := λ e, match e with EvCreateControlFile => true
                          | _ => false end).
  assert (Forall (λ e, is_control e = false) (log w3)) as Hnc.
  { eapply Forall_kind; [ | done]. by intros []. }
  apply process_bundle_spec in H4. simpl in H4. fold out in H4.
  assert (∀ l, log w' = log w3 ++ l → Forall (λ e, is_control e = false) l →
            (ipk = true ∧ EvBeginProcessing true ∈ log w' → False) →
            (EvCreateControlFile ∈ log w' ↔
             ipk = true ∧ EvBeginProcessing true ∈ log w') ∧
            (∀ front back, log w' = front ++ EvCreateControlFile :: back →
               ∃ back', back = EvCreateIpk out out :: back')) as Hnone.
  { intros l Hl Hl' Hno.
    assert (EvCreateControlFile ∉ log w') as Hnot.
    { rewrite Hl. intros He. rewrite Forall_forall in Hl'.
      apply elem_of_app in He as [He|He]; [by apply Hin in He | ].
      by apply Hl' in He. }
    split; [split; [done | by intros ?%Hno] | ].
    intros front back Heq. destruct Hnot. rewrite Heq.
    apply elem_of_app. right. apply list_elem_of_here. }
  destruct (check_compatibility _ _); simpl in H4.
  2: { destruct H4 as [Hl _]. apply (Hnone _ Hl); [by repeat constructor | ].
       intros [_ He]. rewrite Hl in He. locate_event He; try done.
       by apply Hin in He. }
  destruct (begin_processing _ _) as [[] files']; simpl in H4.
  2: { destruct H4 as (_ & _ & Hl).
       apply (Hnone _ Hl); [by repeat constructor | ].
       intros [_ He]. rewrite Hl in He. locate_event He; try done.
       by apply Hin in He. }
  destruct ipk; destruct H4 as (_ & _ & Hl).
  - rewrite Hl. split; [split | ].
    + intros _. split; [done | in_added_events].
    + intros _. in_added_events.
    + intros front back Heq. symmetry in Heq.
      destruct (split_in_suffix is_control _ _ _ _ _ Heq eq_refl Hnc)
        as (k & -> & Hk).
      find_in_suffix k Hk. eauto.
  - apply (Hnone _ Hl); [by repeat constructor | ]. by intros [? _].
Qed.

(** A start-up that goes on has heard no refusal. *)
Lemma prepare_outputdir_consent outputdir' yes' w w1 :
  prepare_outputdir outputdir' yes' w = (Val tt, w1) →
  ∀ q, EvConfirm q false ∈ log w1 → EvConfirm q false ∈ log w.
Proof.
  intros Hrun q Hq. apply prepare_outputdir_spec in Hrun.
  destruct (fs w !! outputdir') as [n|]; [ | by destruct Hrun as [_ ->] ].
  destruct yes'; [ | destruct (answers w) as [|[] rest] ];
    cbv beta zeta in Hrun; destruct_and?; simplify_eq; try done;
    match goal with Hl : log w1 = _ |- _ => rewrite Hl in Hq end;
    locate_event Hq; by simplify_eq.
Qed.

(** X11.  The metadata a [BundleProcessor] is built with is the one found
    in the image, and then no file was opened, or the JSON value parsed
    from the custom file as it is once the image is unpacked.  When the
    image holds metadata, the custom file wins only after a yes at the
    prompt, and after a no the image's metadata is used. *)
Theorem processor_receives_chosen_metadata c w' p :
  run_generate image outputdir platform searchpath creds ipk appmetadata yes
    nodepwalking libmatchingmode files ans = (c, w') →
  EvBundleProcessor p ∈ log w' →
  let out := abspath outputdir in
  let files_after_startup :=
    match files !! out with
    | Some Dir => remove_tree out files
    | _ => files
    end in
  let cfg := get_config (STBPlatform platform searchpath files_after_startup) in
  let d := download_image image creds cfg files_after_startup in
  let u := {| src := d.1; dst := out |} in
  let unpacked := (unpack_image u (get_image_tag image) true d.2).2 in
  let found := get_app_metadata_from_img u unpacked in
  ∃ a,
    appmetadata = Some a ∧
    EvGetAppMetadata found ∈ log w' ∧
    ((bp_app_metadata p = found ∧ truthy found = true ∧
      count is_open (log w') = 0%nat) ∨
     (∃ content,
        unpacked !! abspath a = Some (File content) ∧
        json_loads content = Some (bp_app_metadata p) ∧
        EvOpen (abspath a) ∈ log w' ∧
        (truthy found = true → EvConfirm metadata_prompt true ∈ log w'))) ∧
    (∀ q, EvConfirm q false ∈ log w' → bp_app_metadata p = found).
Proof.
  intros Hrun Hp out files_after_startup cfg d u unpacked found.
  subst found unpacked u d cfg files_after_startup.
  apply run_generate_cases in Hrun
    as (o1 & w1 & evs1 & H1 & Hl1 & Hc1 & Hrun). fold out in H1, Hrun.
  simpl in *.
  destruct Hrun
    as [(_ & -> & ->) | (o2 & w2 & evs2 & -> & H2 & Hl2 & Hc2 & Hrun)].
  { early_event Hp Hl1 Hl1 Hl1. }
  destruct Hrun as [(_ & -> & ->) | Hrun].
  { early_event Hp Hl1 Hl2 Hl2. }
  destruct Hrun as (f & o3 & w3 & evs3 & -> & H3 & Hl3 & Hc3 & _ & _ & Hrun).
  destruct Hrun as [(_ & -> & ->) | (md & o4 & -> & H4 & ->)].
  { early_event Hp Hl1 Hl2 Hl3. }
  assert (Forall (λ e, is_processor e = false) (log w3)) as Hearly.
  { rewrite Hl3, Hl2, Hl1.
    repeat first [apply Forall_app; split | apply Forall_cons; split];
      try done; (eapply Forall_kind; [ | done]); by intros []. }
  assert (Forall (λ e, is_open e = false) (log w2)) as Hq2.
  { eapply early_blocks_quiet; try done; by intros []. }
  assert (∀ q, EvConfirm q false ∉ log w2) as Hno2.
  { intros q Hq. rewrite Hl2 in Hq.
    apply elem_of_app in Hq as [Hq|Hq].
    - apply (prepare_outputdir_consent _ _ _ _ H1) in Hq. simpl in Hq.
      unfold greeting in Hq. locate_event Hq. done.
    - locate_event Hq; wrong_block Hq. }
  apply process_bundle_processor in H4 as (l & Hl & Hc4 & Hlate).
  assert (p = {| bp_platform_cfg := get_config f.1; bp_rootfs_path := out;
                 bp_app_metadata := md; bp_nodepwalking := nodepwalking;
                 bp_libmatchingmode := libmatchingmode |}) as ->.
  { rewrite Hl in Hp. rewrite Forall_forall in Hearly, Hlate.
    apply elem_of_app in Hp as [Hp|Hp]; [by apply Hearly in Hp | ].
    apply elem_of_cons in Hp as [Hp|Hp]; [by simplify_eq | ].
    by apply Hlate in Hp. }
  assert (Forall (λ e, is_open e = false) (EvBundleProcessor
            {| bp_platform_cfg := get_config f.1; bp_rootfs_path := out;
               bp_app_metadata := md; bp_nodepwalking := nodepwalking;
               bp_libmatchingmode := libmatchingmode |} :: l)) as Hq4.
  { apply Forall_cons. split; [done | ].
    eapply Forall_kind; [ | done]. by intros []. }
  assert (Forall (λ e, is_confirm e = false) (EvBundleProcessor
            {| bp_platform_cfg := get_config f.1; bp_rootfs_path := out;
               bp_app_metadata := md; bp_nodepwalking := nodepwalking;
               bp_libmatchingmode := libmatchingmode |} :: l)) as Hc4'.
  { apply Forall_cons. split; [done | ].
    eapply Forall_kind; [ | done]. by intros []. }
  simpl.
  destruct (prepare_outputdir_files _ _ _ _ _ H1) as (_ & Hval1 & _).
  specialize (Hval1 eq_refl). simpl in Hval1. rewrite <- Hval1.
  rewrite fetch_image_eq in H2. simpl in H2.
  assert (f = (STBPlatform platform searchpath (fs w1),
               {| src := (download_image image creds
                            (get_config (STBPlatform platform searchpath
                                           (fs w1))) (fs w1)).1;
                  dst := out |}) ∧
          fs w2 =
            (unpack_image
               {| src := (download_image image creds
                            (get_config (STBPlatform platform searchpath
                                           (fs w1))) (fs w1)).1;
                  dst := out |} (get_image_tag image) true
               (download_image image creds
                  (get_config (STBPlatform platform searchpath (fs w1)))
                  (fs w1)).2).2) as [-> Hfs2].
  { repeat case_match; by simplify_eq. }
  clear H2. simpl in *. rewrite <- Hfs2.
  apply load_app_metadata_value in H3
    as (a & evs & -> & Hl3' & Hmd & Hrefused & _).
  assert (evs = evs3) as ->.
  { rewrite Hl3 in Hl3'. apply app_inv_head in Hl3'. by simplify_eq. }
  clear Hl3'.
  exists a. split; [done | ]. rewrite Hl, Hl3.
  split; [ | split].
  - apply elem_of_app. left. apply elem_of_app. right.
    apply list_elem_of_here.
  - destruct Hmd as [(-> & Htrue & Hnone) | (content & Hfile & Hjson & Hopen & Hyes)].
    + left. split; [done | split; [done | ] ].
      rewrite !count_app, (count_absent _ _ Hq2), (count_absent _ _ Hq4).
      simpl. lia.
    + right. exists content. split; [done | split; [done | ] ].
      split.
      * apply elem_of_app. left. apply elem_of_app. right.
        by apply list_elem_of_further.
      * intros Htrue. apply elem_of_app. left. apply elem_of_app. right.
        apply list_elem_of_further. by apply Hyes.
  - intros q Hq. rewrite Forall_forall in Hc4'.
    apply elem_of_app in Hq as [Hq|Hq]; [ | by apply Hc4' in Hq].
    apply elem_of_app in Hq as [Hq|Hq]; [by apply Hno2 in Hq | ].
    apply elem_of_cons in Hq as [Hq|Hq]; [done | ].
    by apply (Hrefused q).
Qed.

End More.

(** The level of [cli] is undefined exactly for a negative count
    (which click's counting option never produces). *)
Theorem cli_level_undefined_iff_negative (verbose : Z) :
  cli_level verbose = None ↔ verbose < 0.
Proof.
  unfold cli_level. split.
  - intros Hnone. destruct (3 <? verbose) eqn:Hclamp; [done | ].
    apply Z.ltb_ge in Hclamp.
    destruct (decide (verbose < 0)) as [ | Hv]; [done | ].
    assert (verbose = 0 ∨ verbose = 1 ∨ verbose = 2 ∨ verbose = 3)
      as [-> | [-> | [-> | ->]]] by lia; done.
  - intros Hv.
    destruct (3 <? verbose) eqn:Hclamp; [apply Z.ltb_lt in Hclamp; lia | ].
    unfold log_levels. rewrite !lookup_insert_ne by lia.
    apply lookup_singleton_ne. lia.
Qed.

(** ** Runs in the concrete world, continued *)

(** A run that packages a [.tar.gz] goes through the whole pipeline. *)

Section Success.
Context `{Collaborators}.
Variables (image outputdir platform : string) (searchpath creds : option string)
  (ipk : bool) (appmetadata : option string) (yes nodepwalking : bool)
  (libmatchingmode : string) (files : gmap string node) (ans : list bool).

(** X12.  The run that succeeds without a question about metadata: the
    output path is free or may be deleted, the platform is known, download
    and unpack succeed, the image holds no metadata and the custom file
    parses, the bundle is compatible and processing succeeds.  Then
    [generate] goes through the whole pipeline, packages what
    [begin_processing] left and ends on the SUCCESS message. *)
Theorem successful_run a content md :
  let out := abspath outputdir in
  let files_after_startup :=
    match files !! out with
    | Some Dir => remove_tree out files
    | _ => files
    end in
  let sp := STBPlatform platform searchpath files_after_startup in
  let d := download_image image creds (get_config sp) files_after_startup in
  let u := {| src := d.1; dst := out |} in
  let up := unpack_image u (get_image_tag image) true d.2 in
  let p := {| bp_platform_cfg := get_config sp; bp_rootfs_path := out;
              bp_app_metadata := md; bp_nodepwalking := nodepwalking;
              bp_libmatchingmode := libmatchingmode |} in
  let processed := begin_processing p up.2 in
  files !! out = None ∨
    (files !! out = Some Dir ∧ (yes = true ∨ ∃ rest, ans = true :: rest)) →
  found_config sp = true →
  opt_truthy d.1 = true →
  up.1 = true →
  truthy (get_app_metadata_from_img u up.2) = false →
  appmetadata = Some a →
  str_truthy (abspath a) = true →
  up.2 !! abspath a = Some (File content) →
  json_loads content = Some md →
  check_compatibility p up.2 = true →
  processed.1 = true →
  ∃ w',
    run_generate image outputdir platform searchpath creds ipk appmetadata yes
      nodepwalking libmatchingmode files ans = (Completed, w') ∧
    stages (log w') = pipeline ipk ∧
    count is_rmtree (log w') =
      (if bool_decide (files !! out = None) then 0 else 1)%nat ∧
    last (log w') =
      Some (EvLog "SUCCESS"
              ("Successfully generated bundle at " +:+ out +:+
               (if ipk then ".ipk" else ".tar.gz"))) ∧
    fs w' =
      if ipk
      then create_ipk out out
             (create_control_file (get_config sp) md processed.2)
      else create_tgz out out processed.2.
Proof.
  intros out files_after_startup sp d u up p processed
    Hstart Hsp Hd Hup Hfound -> Hpath Hfile Hjson Hcheck Hdone.
  destruct (run_generate _ _ _ _ _ _ _ _ _ _ _ _) as [c w'] eqn:Hrun.
  exists w'.
  apply run_generate_cases in Hrun
    as (o1 & w1 & evs1 & H1 & Hl1 & Hc1 & Hrun). fold out in H1, Hrun.
  simpl in *.
  assert (stages (log w1) = []) as Hs1.
  { rewrite Hl1. simpl. eapply stages_none; [ | done]. by intros []. }
  (* start-up *)
  assert (o1 = Val tt ∧ fs w1 = files_after_startup ∧
          count is_rmtree (log w1) =
            (if bool_decide (files !! out = None) then 0 else 1)%nat)
    as (-> & Hfs1 & Hrm1).
  { clear Hrun Hl1 Hc1 Hs1. apply prepare_outputdir_spec in H1. simpl in H1.
    subst files_after_startup.
    destruct Hstart as [Hnone | [Hdir Hyes] ].
    - rewrite Hnone in *. destruct H1 as [-> ->].
      by rewrite bool_decide_eq_true_2.
    - rewrite Hdir in *. rewrite bool_decide_eq_false_2 by done.
      destruct Hyes as [-> | [rest ->] ]; cbv beta zeta in H1;
        [ | destruct yes]; destruct_and?; simplify_eq;
        (split; [done | split; [done | ] ]);
        match goal with Hl : log w1 = _ |- _ => rewrite Hl end; done. }
  destruct Hrun
    as [(Hstop & _) | (o2 & w2 & evs2 & _ & H2 & _ & _ & Hrun)];
    [by destruct (Hstop tt) | ].
  (* platform, download, unpack *)
  rewrite fetch_image_eq in H2. simpl in H2. rewrite Hfs1 in H2.
  fold sp in H2. rewrite Hsp in H2. simpl in H2.
  fold d in H2. rewrite Hd in H2. simpl in H2.
  fold u in H2. fold up in H2. rewrite Hup in H2. simpl in H2.
  injection H2 as <- <-.
  destruct Hrun as [(Hstop & _) | Hrun]; [by destruct (Hstop (sp, u)) | ].
  destruct Hrun as (f & o3 & w3 & evs3 & [= <-] & H3 & _ & _ & _ & _ & Hrun).
  (* metadata *)
  rewrite load_app_metadata_eq in H3. simpl in H3.
  rewrite Hfound, Hpath, Hfile, load_metadata_file_eq in H3. simpl in H3.
  rewrite Hfile, Hjson in H3. injection H3 as <- <-.
  destruct Hrun as [(Hstop & _) | (md' & o4 & [= <-] & H4 & ->)];
    [by destruct (Hstop md) | ].
  (* check, process, package *)
  apply process_bundle_spec in H4. simpl in H4.
  fold p in H4. rewrite Hcheck in H4. simpl in H4.
  fold processed in H4. rewrite Hdone in H4. simpl in H4.
  unfold pipeline.
  destruct ipk; destruct H4 as (-> & -> & Hl4);
    (split; [done | ]); rewrite Hl4;
    rewrite !stages_app, !count_app, Hs1, Hrm1; simpl;
    (split; [done | split; [lia | split; [ | done] ] ]);
    by rewrite last_app.
Qed.

End Success.

(** ** The image metadata and the file system handed to processing *)

Section Image_metadata.
Context `{Collaborators}.
Variables (image outputdir platform : string) (searchpath creds : option string)
  (ipk : bool) (appmetadata : option string) (yes nodepwalking : bool)
  (libmatchingmode : string) (files : gmap string node) (ans : list bool).



End Image_metadata.

(** ** Where a run stops, and what it asks *)

Section Metadata_prompt.
Context `{Collaborators}.

(** With metadata in the image and a custom file on the command line, the
    metadata block asks which one to use, or finds the input closed. *)
Lemma load_app_metadata_asks u a w o w' :
  load_app_metadata u (Some a) w = (o, w') →
  let found := get_app_metadata_from_img u (fs w) in
  truthy found = true → str_truthy (abspath a) = true →
  (∃ b rest, answers w = b :: rest ∧ EvConfirm metadata_prompt b ∈ log w') ∨
  (answers w = [] ∧ o = Raised Abort ∧
   log w' = log w ++ [EvGetAppMetadata found]).
Proof.
  intros Hrun found Hfound Hpath. subst found.
  rewrite load_app_metadata_eq in Hrun. simpl in Hrun.
  rewrite Hfound, Hpath in Hrun.
  destruct (answers w) as [|[] rest].
  - right. by simplify_eq.
  - left. exists true, rest. split; [done | ].
    rewrite load_metadata_file_eq in Hrun. simpl in Hrun.
    repeat case_match; simplify_eq; simpl; rewrite <- ?app_assoc;
      apply elem_of_app; right;
      repeat first [apply list_elem_of_here | apply list_elem_of_further].
  - left. exists false, rest. split; [done | ]. simplify_eq. simpl.
    rewrite <- !app_assoc. apply elem_of_app. right.
    repeat first [apply list_elem_of_here | apply list_elem_of_further].
Qed.

(** The answers left when start-up is over. *)
Lemma prepare_outputdir_answers outputdir' yes' w w1 :
  prepare_outputdir outputdir' yes' w = (Val tt, w1) →
  answers w1 =
    if negb yes' && bool_decide (is_Some (fs w !! outputdir'))
    then tail (answers w) else answers w.
Proof.
  intros Hrun. apply prepare_outputdir_spec in Hrun.
  destruct (fs w !! outputdir') as [n|] eqn:Hd.
  - rewrite bool_decide_eq_true_2 by eauto.
    destruct yes'; [ | destruct (answers w) as [|[] rest] ];
      cbv beta zeta in Hrun; destruct_and?; simplify_eq; done.
  - destruct Hrun as [_ ->].
    rewrite bool_decide_eq_false_2 by (by intros [? ?]).
    by rewrite andb_false_r.
Qed.

End Metadata_prompt.

Section Pipeline.
Context `{Collaborators}.
Variables (image outputdir platform : string) (searchpath creds : option string)
  (ipk : bool) (appmetadata : option string) (yes nodepwalking : bool)
  (libmatchingmode : string) (files : gmap string node) (ans : list bool).

(** X1.  Every run goes through a front part of the pipeline, stage by
    stage in the order of the source and each stage once, and it stops at
    the first stage that fails: after the platform when it has no
    configuration, after the download when it gives no image path, after
    the unpacking when that fails, after the compatibility check when it
    says no, after the processing when that fails.  An exception ends the
    run before anything is packaged, and the whole pipeline is run exactly
    when [begin_processing] succeeded. *)
Theorem run_follows_pipeline c w' :
  run_generate image outputdir platform searchpath creds ipk appmetadata yes
    nodepwalking libmatchingmode files ans = (c, w') →
  let out := abspath outputdir in
  let files_after_startup :=
    match files !! out with
    | Some Dir => remove_tree out files
    | _ => files
    end in
  let sp := STBPlatform platform searchpath files_after_startup in
  let d := download_image image creds (get_config sp) files_after_startup in
  let u := {| src := d.1; dst := out |} in
  let up := unpack_image u (get_image_tag image) true d.2 in
  stages (log w') `prefix_of` pipeline ipk ∧
  (found_config sp = false → stages (log w') `prefix_of` [LoadPlatform]) ∧
  (opt_truthy d.1 = false →
   stages (log w') `prefix_of` [LoadPlatform; DownloadImage]) ∧
  (up.1 = false →
   stages (log w') `prefix_of` [LoadPlatform; DownloadImage; UnpackImage]) ∧
  (EvCheckCompatibility false ∈ log w' →
   stages (log w') =
     [LoadPlatform; DownloadImage; UnpackImage; ReadImageMetadata;
      BuildProcessor; CheckCompatibility]) ∧
  (EvBeginProcessing false ∈ log w' →
   stages (log w') =
     [LoadPlatform; DownloadImage; UnpackImage; ReadImageMetadata;
      BuildProcessor; CheckCompatibility; Process]) ∧
  (EvBeginProcessing true ∈ log w' ↔ stages (log w') = pipeline ipk) ∧
  (∀ e, c = Failed e → Package ∉ stages (log w')).
Proof.
  intros Hrun out files_after_startup sp d u up.
  split; [by eapply stages_prefix_of_pipeline | ].
  apply run_generate_cases in Hrun
    as (o1 & w1 & evs1 & H1 & Hl1 & Hc1 & Hrun). fold out in H1, Hrun.
  simpl in Hrun.
  assert (stages (log w1) = []) as Hs1.
  { rewrite Hl1. simpl. eapply stages_none; [ | done]. by intros []. }
  assert (∀ l, stages l = [] →
            (∀ b, EvCheckCompatibility b ∉ l) ∧
            (∀ b, EvBeginProcessing b ∉ l)) as Hquiet.
  { intros l Hl. split; intros b Hb;
      apply list_elem_of_split in Hb as (l1 & l2 & ->);
      rewrite stages_app in Hl; simpl in Hl;
      by apply app_eq_nil in Hl as [_ ?]. }
  destruct Hrun
    as [(_ & -> & ->) | (o2 & w2 & evs2 & -> & H2 & Hl2 & Hc2 & Hrun)].
  { destruct (Hquiet _ Hs1) as [Hnc Hnb]. rewrite Hs1.
    repeat split; try (intros; apply prefix_nil);
      try (intros Hin; by apply Hnc in Hin);
      try (intros Hin; by apply Hnb in Hin);
      try (by destruct ipk); by intros ? _ ?%elem_of_nil. }
  destruct (prepare_outputdir_files _ _ _ _ _ H1) as (_ & Hval1 & _).
  specialize (Hval1 eq_refl). simpl in Hval1. fold files_after_startup in Hval1.
  rewrite fetch_image_eq in H2. simpl in H2. rewrite Hval1 in H2.
  fold sp in H2. fold d in H2. fold u in H2. fold up in H2.
  destruct Hrun as [(Hstop & -> & ->) | Hrun].
  { assert (stages (log w2) `prefix_of`
              [LoadPlatform; DownloadImage; UnpackImage] ∧
            (found_config sp = false → stages (log w2) = [LoadPlatform]) ∧
            (found_config sp = true → opt_truthy d.1 = false →
             stages (log w2) = [LoadPlatform; DownloadImage]) ∧
            (∀ b, EvCheckCompatibility b ∉ log w2) ∧
            (∀ b, EvBeginProcessing b ∉ log w2) ∧
            (Package ∉ stages (log w2)) ∧ (stages (log w2) ≠ pipeline ipk))
      as (Hpre & Hcfg & Hdl & Hnc & Hnb & Hnp & Hne).
    { assert (∀ b, EvCheckCompatibility b ∉ log w2) as Hnc.
      { intros b Hb. rewrite Hl2, Hl1 in Hb. locate_event Hb; wrong_block Hb. }
      assert (∀ b, EvBeginProcessing b ∉ log w2) as Hnb.
      { intros b Hb. rewrite Hl2, Hl1 in Hb. locate_event Hb; wrong_block Hb. }
      clear Hl2 Hc2.
      destruct (found_config sp) eqn:Hsp; simpl in H2;
        [destruct (opt_truthy d.1) eqn:Hd; simpl in H2;
         [destruct (up.1) eqn:Hup; simpl in H2 | ] | ];
        simplify_eq; simpl; rewrite ?stages_app, ?Hs1; simpl;
        try (by destruct (Hstop (sp, u)));
        (split; [by eexists | ]);
        (split; [done | split; [done | split; [done | split; [done | ] ] ] ]);
        (split; [ | by destruct ipk]);
        intros Hin; repeat (apply elem_of_cons in Hin as [? | Hin]; [done | ]);
        by apply elem_of_nil in Hin. }
    split; [ | split; [ | split; [ | split; [ | split; [ | split] ] ] ] ].
    - intros Hsp. rewrite (Hcfg Hsp). done.
    - intros Hd. destruct (found_config sp) eqn:Hsp.
      + by rewrite (Hdl eq_refl Hd).
      + rewrite (Hcfg eq_refl). by exists [DownloadImage].
    - by intros _.
    - intros Hin. by apply Hnc in Hin.
    - intros Hin. by apply Hnb in Hin.
    - split; [intros Hin; by apply Hnb in Hin | done].
    - by intros e _. }
  destruct Hrun as (f & o3 & w3 & evs3 & -> & H3 & Hl3 & Hc3 & _ & _ & Hrun).
  assert (found_config sp = true ∧ opt_truthy d.1 = true ∧ up.1 = true ∧
          stages (log w2) = [LoadPlatform; DownloadImage; UnpackImage])
    as (Hsp & Hd & Hup & Hs2).
  { clear Hl2 Hc2.
    destruct (found_config sp) eqn:Hsp; simpl in H2;
      [destruct (opt_truthy d.1) eqn:Hd; simpl in H2;
       [destruct (up.1) eqn:Hup; simpl in H2 | ] | ];
      simplify_eq. simpl. by rewrite !stages_app, Hs1. }
  assert (stages (log w3) =
            [LoadPlatform; DownloadImage; UnpackImage; ReadImageMetadata])
    as Hs3.
  { rewrite Hl3, stages_app, Hs2. simpl.
    erewrite stages_none; [done | | done]. by intros []. }
  assert ((∀ b, EvCheckCompatibility b ∉ log w3) ∧
          (∀ b, EvBeginProcessing b ∉ log w3)) as [Hnc3 Hnb3].
  { split; intros b Hb; rewrite Hl3, Hl2, Hl1 in Hb;
      locate_event Hb; wrong_block Hb. }
  rewrite Hsp, Hd, Hup.
  do 3 (split; [done | ]).
  destruct Hrun as [(_ & -> & ->) | (md & o4 & -> & H4 & ->)].
  { rewrite Hs3.
    split; [intros Hin; by apply Hnc3 in Hin | ].
    split; [intros Hin; by apply Hnb3 in Hin | ].
    split; [split; [intros Hin; by apply Hnb3 in Hin | by destruct ipk] | ].
    intros e _ Hin.
    repeat (apply elem_of_cons in Hin as [? | Hin]; [done | ]).
    by apply elem_of_nil in Hin. }
  apply process_bundle_spec in H4. simpl in H4.
  repeat case_match; destruct_and?; simplify_eq;
    match goal with Hl : log w' = _ |- _ => rewrite Hl end;
    rewrite stages_app, Hs3; simpl;
    (split; [intros Hin | split; [intros Hin | split; [split; intros Hin | ] ] ]);
    try done;
    try (apply elem_of_app in Hin as [Hin|Hin];
         [first [by apply Hnc3 in Hin | by apply Hnb3 in Hin]
         | locate_event Hin; by simplify_eq]);
    try (intros e He; simpl in He; done);
    try (intros e He Hin; simpl in He; simplify_eq;
         repeat (apply elem_of_cons in Hin as [? | Hin]; [done | ]);
         by apply elem_of_nil in Hin);
    try (apply elem_of_app; right;
         repeat first [apply list_elem_of_here | apply list_elem_of_further]);
    try (exfalso; by destruct ipk).
Qed.
End Pipeline.

Section Prompts.
Context `{Collaborators}.
Variables (image outputdir platform : string) (searchpath creds : option string)
  (ipk : bool) (appmetadata : option string) (yes nodepwalking : bool)
  (libmatchingmode : string) (files : gmap string node) (ans : list bool).

(** X5.  [generate] asks at most two questions.  The first, whether to
    overwrite, is asked exactly on an existing output path without
    [--yes].  The second, which metadata to use, is asked whenever the run
    gets to read metadata from the image that is true in Python's sense
    while [--appmetadata] is given: [--yes] does not silence it, it takes
    the next answer of the user, and a closed input aborts the run right
    there.  On a fresh directory (or with [--yes]) and an image without
    metadata nothing is asked. *)
Theorem generate_prompts c w' :
  run_generate image outputdir platform searchpath creds ipk appmetadata yes
    nodepwalking libmatchingmode files ans = (c, w') →
  let out := abspath outputdir in
  let asked_to_overwrite := negb yes && bool_decide (is_Some (files !! out)) in
  (count is_confirm (log w') ≤ 2)%nat ∧
  (∀ q b, EvConfirm q b ∈ log w' →
     (q = overwrite_prompt out ∧ yes = false ∧ is_Some (files !! out)) ∨
     (q = metadata_prompt ∧ is_Some appmetadata ∧
      ∃ found, EvGetAppMetadata found ∈ log w' ∧ truthy found = true)) ∧
  (yes = true ∨ files !! out = None →
   (∀ found, EvGetAppMetadata found ∈ log w' → truthy found = false) →
   count is_confirm (log w') = 0%nat) ∧
  (asked_to_overwrite = true →
   match ans with
   | [] => c = Failed Abort ∧ count is_confirm (log w') = 0%nat
   | b :: _ => EvConfirm (overwrite_prompt out) b ∈ log w'
   end) ∧
  (∀ a found,
     appmetadata = Some a → str_truthy (abspath a) = true →
     EvGetAppMetadata found ∈ log w' → truthy found = true →
     match (if asked_to_overwrite then tail ans else ans) with
     | [] => c = Failed Abort ∧ last (log w') = Some (EvGetAppMetadata found)
     | b :: _ => EvConfirm metadata_prompt b ∈ log w'
     end).
Proof.
  intros Hrun out asked_to_overwrite.
  destruct (prompts_only_when_needed _ _ _ _ _ _ _ _ _ _ _ _ _ _ Hrun)
    as (Hle & Honly & Hnone).
  do 3 (split; [done | ]).
  apply run_generate_cases in Hrun
    as (o1 & w1 & evs1 & H1 & Hl1 & Hc1 & Hrun). fold out in H1, Hrun.
  simpl in Hrun.
  split.
  - (* the overwrite prompt *)
    intros Hasked. subst asked_to_overwrite.
    apply andb_true_iff in Hasked as [Hyes Hexists].
    apply negb_true_iff in Hyes. apply bool_decide_eq_true_1 in Hexists.
    destruct Hexists as [n Hn].
    assert (match ans with
            | [] => o1 = Raised Abort ∧ log w1 = [greeting image platform]
            | b :: _ => EvConfirm (overwrite_prompt out) b ∈ log w1
            end) as Hfirst.
    { clear Hrun Hl1 Hc1. apply prepare_outputdir_spec in H1. simpl in H1.
      rewrite Hn, Hyes in H1.
      destruct ans as [|[] rest]; cbv beta zeta in H1; destruct_and?;
        simplify_eq; [done | | ];
        match goal with Hl : log w1 = _ |- _ => rewrite Hl end; simpl;
        repeat first [apply list_elem_of_here | apply list_elem_of_further]. }
    destruct ans as [|b rest].
    + destruct Hfirst as [-> Hlog].
      destruct Hrun as [(_ & -> & ->) | (? & ? & ? & ? & _)]; [ | done].
      by rewrite Hlog.
    + destruct Hrun
        as [(_ & -> & ->) | (o2 & w2 & evs2 & -> & H2 & Hl2 & Hc2 & Hrun)];
        [done | ].
      assert (EvConfirm (overwrite_prompt out) b ∈ log w2) as Hin2.
      { rewrite Hl2. apply elem_of_app. by left. }
      destruct Hrun as [(_ & -> & ->) | Hrun]; [done | ].
      destruct Hrun
        as (f & o3 & w3 & evs3 & -> & H3 & Hl3 & Hc3 & _ & _ & Hrun).
      assert (EvConfirm (overwrite_prompt out) b ∈ log w3) as Hin3.
      { rewrite Hl3. apply elem_of_app. by left. }
      destruct Hrun as [(_ & -> & ->) | (md & o4 & -> & H4 & ->)]; [done | ].
      apply process_bundle_processor in H4 as (l & -> & _).
      apply elem_of_app. by left.
  - (* the metadata prompt *)
    intros a found -> Hpath Hfound Htrue.
    destruct Hrun
      as [(_ & -> & ->) | (o2 & w2 & evs2 & -> & H2 & Hl2 & Hc2 & Hrun)].
    { exfalso. rewrite Hl1 in Hfound. locate_event Hfound; wrong_block Hfound. }
    assert (∀ j, EvGetAppMetadata j ∉ log w2) as Hg2.
    { intros j Hj. rewrite Hl2, Hl1 in Hj. locate_event Hj; wrong_block Hj. }
    destruct Hrun as [(_ & -> & ->) | Hrun]; [by apply Hg2 in Hfound | ].
    destruct Hrun as (f & o3 & w3 & evs3 & -> & H3 & Hl3 & Hc3 & _ & _ & Hrun).
    assert (answers w2 = if asked_to_overwrite then tail ans else ans) as Ha2.
    { rewrite fetch_image_eq in H2. simpl in H2.
      apply prepare_outputdir_answers in H1. simpl in H1.
      fold asked_to_overwrite in H1. rewrite <- H1.
      repeat case_match; by simplify_eq. }
    assert (EvGetAppMetadata found ∈ log w3 →
            found = get_app_metadata_from_img f.2 (fs w2)) as Hsame.
    { intros Hin. rewrite Hl3 in Hin.
      apply elem_of_app in Hin as [Hin|Hin]; [by apply Hg2 in Hin | ].
      apply elem_of_cons in Hin as [Hin|Hin]; [by simplify_eq | ].
      wrong_block Hin. }
    pose proof (load_app_metadata_asks _ _ _ _ _ H3) as Hasks.
    simpl in Hasks. rewrite Ha2 in Hasks.
    destruct Hrun as [(_ & -> & ->) | (md & o4 & -> & H4 & ->)].
    + rewrite <- (Hsame Hfound) in Hasks.
      destruct (Hasks Htrue Hpath)
        as [(b & rest & -> & Hb) | (-> & -> & Hlog)]; [done | ].
      split; [done | ]. by rewrite Hlog, last_app.
    + apply process_bundle_processor in H4 as (l & Hl & Hc4 & _).
      assert (EvGetAppMetadata found ∈ log w3) as Hin3.
      { rewrite Hl in Hfound.
        apply elem_of_app in Hfound as [Hfound|Hfound]; [done | ].
        apply elem_of_cons in Hfound as [Hfound|Hfound]; [done | ].
        wrong_block Hfound. }
      rewrite <- (Hsame Hin3) in Hasks.
      destruct (Hasks Htrue Hpath)
        as [(b & rest & -> & Hb) | (_ & ? & _)]; [ | done].
      rewrite Hl. apply elem_of_app. by left.
Qed.
End Prompts.

Section Missing_metadata_file.
Context `{Collaborators}.
Variables (image outputdir platform : string) (searchpath creds : option string)
  (ipk : bool) (appmetadata : option string) (yes nodepwalking : bool)
  (libmatchingmode : string) (files : gmap string node) (ans : list bool).

(** X6.  A custom metadata file that does not exist once the image is
    unpacked.  When the image has no metadata of its own, the run logs the
    error of line 127 and returns normally, without opening anything.
    When the image has metadata, the user is asked first: after a yes,
    [open] raises [FileNotFoundError] and the run ends there, before
    [delete_img_app_metadata]; after a no, the file is never looked at and
    the processor is built with the image's metadata; on a closed input
    the run aborts. *)
Theorem missing_custom_metadata_file a c w' :
  appmetadata = Some a → str_truthy (abspath a) = true →
  run_generate image outputdir platform searchpath creds ipk appmetadata yes
    nodepwalking libmatchingmode files ans = (c, w') →
  let out := abspath outputdir in
  let files_after_startup :=
    match files !! out with
    | Some Dir => remove_tree out files
    | _ => files
    end in
  let sp := STBPlatform platform searchpath files_after_startup in
  let d := download_image image creds (get_config sp) files_after_startup in
  let u := {| src := d.1; dst := out |} in
  let unpacked := (unpack_image u (get_image_tag image) true d.2).2 in
  let found := get_app_metadata_from_img u unpacked in
  let asked_to_overwrite := negb yes && bool_decide (is_Some (files !! out)) in
  unpacked !! abspath a = None →
  EvGetAppMetadata found ∈ log w' →
  if truthy found then
    match (if asked_to_overwrite then tail ans else ans) with
    | [] => c = Failed Abort
    | true :: _ =>
        c = Failed (FileNotFoundError (abspath a)) ∧
        last (log w') = Some (EvOpen (abspath a)) ∧
        count is_delete_metadata (log w') = 0%nat ∧
        count is_processor (log w') = 0%nat
    | false :: _ =>
        count is_open (log w') = 0%nat ∧
        ∃ p, EvBundleProcessor p ∈ log w' ∧ bp_app_metadata p = found
    end
  else
    c = Completed ∧
    last (log w') =
      Some (EvLog "ERROR"
              ("App metadata file " +:+ abspath a +:+ " does not exist")) ∧
    count is_open (log w') = 0%nat ∧
    count is_processor (log w') = 0%nat.
Proof.
  intros -> Hpath Hrun out files_after_startup sp d u unpacked found
    asked_to_overwrite Hmissing Hread.
  apply run_generate_cases in Hrun
    as (o1 & w1 & evs1 & H1 & Hl1 & Hc1 & Hrun). fold out in H1, Hrun.
  simpl in Hrun.
  destruct Hrun
    as [(_ & -> & ->) | (o2 & w2 & evs2 & -> & H2 & Hl2 & Hc2 & Hrun)].
  { exfalso. rewrite Hl1 in Hread. locate_event Hread; wrong_block Hread. }
  assert (∀ j, EvGetAppMetadata j ∉ log w2) as Hg2.
  { intros j Hj. rewrite Hl2, Hl1 in Hj. locate_event Hj; wrong_block Hj. }
  destruct Hrun as [(_ & -> & ->) | Hrun]; [by apply Hg2 in Hread | ].
  destruct Hrun as (f & o3 & w3 & evs3 & -> & H3 & Hl3 & Hc3 & _ & _ & Hrun).
  (* the world in which the metadata block starts *)
  assert (Forall (λ e, is_open e = false) (log w2)) as Hq2.
  { eapply early_blocks_quiet; try done; by intros []. }
  assert (Forall (λ e, is_processor e = false) (log w2)) as Hp2.
  { eapply early_blocks_quiet; try done; by intros []. }
  assert (Forall (λ e, is_delete_metadata e = false) (log w2)) as Hd2.
  { eapply early_blocks_quiet; try done; by intros []. }
  pose proof (prepare_outputdir_answers _ _ _ _ H1) as Ha1. simpl in Ha1.
  fold asked_to_overwrite in Ha1.
  destruct (prepare_outputdir_files _ _ _ _ _ H1) as (_ & Hval1 & _).
  specialize (Hval1 eq_refl). simpl in Hval1. fold files_after_startup in Hval1.
  rewrite fetch_image_eq in H2. simpl in H2. rewrite Hval1 in H2.
  fold sp in H2. fold d in H2. fold u in H2.
  assert (f = (sp, u) ∧ fs w2 = unpacked ∧
          answers w2 = if asked_to_overwrite then tail ans else ans)
    as (-> & Hfs2 & Ha2).
  { subst unpacked. rewrite <- Ha1. repeat case_match; by simplify_eq. }
  clear H2 Hl1 Hc1 Hl2 Hc2 Hg2 Hread. simpl in H3, Hl3.
  rewrite load_app_metadata_eq in H3. simpl in H3.
  rewrite Hfs2, Ha2, Hpath in H3. rewrite ?Hmissing in H3. fold found in H3.
  destruct (truthy found) eqn:Hfound.
  - destruct (if asked_to_overwrite then tail ans else ans) as [|[] rest].
    + simplify_eq. by destruct Hrun as [(_ & _ & ->) | (? & ? & ? & _)].
    + rewrite load_metadata_file_eq in H3. simpl in H3.
      rewrite Hmissing in H3. simplify_eq.
      destruct Hrun as [(_ & -> & ->) | (? & ? & ? & _)]; [ | done].
      simpl. split; [done | ]. split; [by rewrite !last_app | ].
      rewrite !count_app, (count_absent _ _ Hd2), (count_absent _ _ Hp2).
      done.
    + simplify_eq.
      destruct Hrun as [(Hstop & _) | (md & o4 & [= <-] & H4 & ->)];
        [by destruct (Hstop found) | ].
      apply process_bundle_processor in H4 as (l & Hl & Hc4 & _).
      rewrite Hl. simpl. split.
      * rewrite !count_app, (count_absent _ _ Hq2). simpl.
        apply count_absent. eapply Forall_kind; [ | done]. by intros [].
      * eexists. split;
          [apply elem_of_app; right; apply list_elem_of_here | done].
  - simplify_eq.
    destruct Hrun as [(_ & -> & ->) | (? & ? & ? & _)]; [ | done].
    simpl. split; [done | ]. split; [by rewrite !last_app | ].
    by rewrite !count_app, (count_absent _ _ Hq2), (count_absent _ _ Hp2).
Qed.
End Missing_metadata_file.

(** ** Concrete runs *)

Lemma processor_receives_run_parameters_witness :
  let r := run_demo true true true (Some "/m.json") false false ∅ [false] in
  let p := {| bp_platform_cfg := JObj [("arch", JStr "arm")];
              bp_rootfs_path := "/work/out";
              bp_app_metadata := JObj [("id", JStr "app")];
              bp_nodepwalking := false; bp_libmatchingmode := "normal" |} in
  EvBundleProcessor p ∈ log r.2 ∧
  bp_rootfs_path p = "/work/out" ∧
  count is_processor (log r.2) = 1%nat.
Proof.
  intros r p.
  assert (EvBundleProcessor p ∈ log r.2) as Hp by in_concrete_log.
  split; [exact Hp | ].
  destruct (processor_receives_run_parameters (H := demo true true true)
              "img:latest" "out" "rpi3" None None false (Some "/m.json")
              false false "normal" ∅ [false] r.1 r.2 p)
    as (Hroot & _ & _ & _ & Hone).
  - by vm_compute.
  - exact Hp.
  - split; [exact Hroot | exact Hone].
Defined.

(** [--yes] on an existing directory and an incompatible image: the
    directory is removed twice. *)
Lemma generate_only_removes_outputdir_witness :
  let files : gmap string node := {[ "/work/out" := Dir ]} in
  let r := run_demo true false false (Some "/m.json") false true files [false] in
  count is_rmtree (log r.2) = 2%nat ∧
  (∀ p, EvRmtree p ∈ log r.2 → p = "/work/out") ∧
  count is_rmtree (log r.2) =
    (count is_rmtree (startup (log r.2)) + count is_failed_check (log r.2))%nat.
Proof.
  intros files r. split; [by vm_compute | ].
  destruct (generate_only_removes_outputdir (H := demo true false false)
              "img:latest" "out" "rpi3" None None false (Some "/m.json")
              true false "normal" files [false] r.1 r.2)
    as (Hpath & Hcount & _).
  - by vm_compute.
  - split; [exact Hpath | exact Hcount].
Defined.

(** The user asks for the custom metadata file. *)
Lemma generate_only_reads_custom_metadata_witness :
  let files : gmap string node := {[ "/m.json" := File "custom" ]} in
  let r := run_demo true true true (Some "/m.json") false false files [true] in
  EvOpen "/m.json" ∈ log r.2 ∧
  (count is_open (log r.2) ≤ 1)%nat ∧
  EvConfirm metadata_prompt true ∈ log r.2.
Proof.
  intros files r.
  assert (EvOpen "/m.json" ∈ log r.2) as Hopen by in_concrete_log.
  assert (EvGetAppMetadata (JObj [("id", JStr "app")]) ∈ log r.2) as Hfound
    by in_concrete_log.
  split; [exact Hopen | ].
  destruct (generate_only_reads_custom_metadata (H := demo true true true)
              "img:latest" "out" "rpi3" None None false (Some "/m.json")
              false false "normal" files [true] r.1 r.2)
    as (Hle & Hpath).
  - by vm_compute.
  - split; [exact Hle | ].
    exact (proj2 (Hpath "/m.json" Hopen) _ Hfound eq_refl).
Defined.

(** Processing fails: the warning is the last action. *)
Lemma generate_normal_return_witness :
  let r := run_demo true true false (Some "/m.json") false false ∅ [false] in
  EvLog "WARNING" "Failed to produce bundle" ∈ log r.2 ∧
  r.1 = Completed ∧
  last (log r.2) = Some (EvLog "WARNING" "Failed to produce bundle") ∧
  count is_packaging (log r.2) = 0%nat.
Proof.
  intros r.
  assert (EvLog "WARNING" "Failed to produce bundle" ∈ log r.2) as Hlog
    by in_concrete_log.
  split; [exact Hlog | ].
  destruct (generate_normal_return (H := demo true true false)
              "img:latest" "out" "rpi3" None None false (Some "/m.json")
              false false "normal" ∅ [false] r.1 r.2)
    as (Hlast & _).
  - by vm_compute.
  - apply (Hlast _ _ Hlog). by right.
Defined.


(** The output path is a file and the user agrees to go on. *)
Lemma outputdir_is_a_regular_file_witness :
  let files : gmap string node := {[ "/work/out" := File "notes" ]} in
  let r := run_demo true true true (Some "/m.json") false false files [true] in
  files !! "/work/out" = Some (File "notes") ∧
  fs r.2 = files ∧ r.1 = Failed (NotADirectoryError "/work/out").
Proof.
  intros files r.
  assert (files !! "/work/out" = Some (File "notes")) as Hfile
    by (by vm_compute).
  split; [exact Hfile | ].
  destruct (outputdir_is_a_regular_file (H := demo true true true)
              "img:latest" "out" "rpi3" None None false (Some "/m.json")
              false false "normal" files [true] r.1 r.2 "notes" Hfile)
    as (Hfs & _ & _ & Hagreed).
  - by vm_compute.
  - split; [exact Hfs | ]. apply Hagreed. right. by exists [].
Defined.

(** A successful run with [--ipk]. *)
Lemma control_file_only_for_ipk_witness :
  let r := run_demo true true true (Some "/m.json") true false ∅ [false] in
  EvCreateControlFile ∈ log r.2 ∧
  (EvCreateControlFile ∈ log r.2 ↔ true = true ∧ EvBeginProcessing true ∈ log r.2).
Proof.
  intros r. split; [in_concrete_log | ].
  apply (control_file_only_for_ipk (H := demo true true true)
           "img:latest" "out" "rpi3" None None true (Some "/m.json")
           false false "normal" ∅ [false] r.1 r.2).
  by vm_compute.
Defined.

Lemma processor_receives_chosen_metadata_witness :
  let files : gmap string node := {[ "/m.json" := File "custom" ]} in
  let r := run_demo true true true (Some "/m.json") false false files [true] in
  let p := {| bp_platform_cfg := JObj [("arch", JStr "arm")];
              bp_rootfs_path := "/work/out";
              bp_app_metadata := JObj [("id", JStr "custom")];
              bp_nodepwalking := false; bp_libmatchingmode := "normal" |} in
  EvBundleProcessor p ∈ log r.2 ∧
  EvGetAppMetadata (JObj [("id", JStr "app")]) ∈ log r.2 ∧
  EvConfirm metadata_prompt true ∈ log r.2.
Proof.
  intros files r p.
  assert (EvBundleProcessor p ∈ log r.2) as Hp by in_concrete_log.
  split; [exact Hp | ].
  destruct (processor_receives_chosen_metadata (H := demo true true true)
              "img:latest" "out" "rpi3" None None false (Some "/m.json")
              false false "normal" files [true] r.1 r.2 p)
    as (a & Ha & Hfound & Hchosen & _).
  - by vm_compute.
  - exact Hp.
  - split; [exact Hfound | ].
    destruct Hchosen as [(Himage & _) | (content & _ & _ & _ & Hasked)].
    + vm_compute in Himage. discriminate Himage.
    + exact (Hasked eq_refl).
Defined.

Lemma successful_run_witness :
  let files : gmap string node := {[ "/m.json" := File "custom" ]} in
  ∃ w',
    run_demo false true true (Some "/m.json") false false files [] =
      (Completed, w') ∧
    stages (log w') = pipeline false ∧
    fs w' !! "/work/out.tar.gz" = Some (File "tgz").
Proof.
  intros files.
  destruct (successful_run (H := demo false true true)
              "img:latest" "out" "rpi3" None None false (Some "/m.json")
              false false "normal" files [] "/m.json" "custom"
              (JObj [("id", JStr "custom")]))
    as (w' & Hrun & Hstages & _ & _ & Hfs).
  - left. by vm_compute.
  - by vm_compute.
  - by vm_compute.
  - by vm_compute.
  - by vm_compute.
  - reflexivity.
  - by vm_compute.
  - by vm_compute.
  - by vm_compute.
  - by vm_compute.
  - by vm_compute.
  - exists w'. split; [exact Hrun | split; [exact Hstages | ] ].
    rewrite Hfs. by vm_compute.
Defined.


(** An image whose metadata is the empty object, with a custom file: the
    processor is built, nothing was deleted, and the side-file is still
    in the output directory when the run is over. *)
Lemma empty_image_metadata_is_not_deleted :
  let files : gmap string node := {[ "/m.json" := File "custom" ]} in
  let r := run_generate (H := empty_metadata_image) "img:latest" "out" "rpi3"
             None None false (Some "/m.json") false false "normal" files [] in
  r.1 = Completed ∧
  EvUnpackImage "latest" ∈ log r.2 ∧
  EvGetAppMetadata (JObj []) ∈ log r.2 ∧
  EvBundleProcessor
    {| bp_platform_cfg := JObj [("arch", JStr "arm")];
       bp_rootfs_path := "/work/out";
       bp_app_metadata := JObj [("id", JStr "custom")];
       bp_nodepwalking := false; bp_libmatchingmode := "normal" |} ∈ log r.2 ∧
  count is_delete_metadata (log r.2) = 0%nat ∧
  fs r.2 !! "/work/out/appmetadata.json" = Some (File "{}").
Proof.
  intros files r.
  split; [by vm_compute | ].
  split; [in_concrete_log | ].
  split; [in_concrete_log | ].
  split; [in_concrete_log | ].
  split; by vm_compute.
Qed.

Lemma run_follows_pipeline_witness :
  let r := run_demo true false false (Some "/m.json") false false ∅ [false] in
  EvCheckCompatibility false ∈ log r.2 ∧
  stages (log r.2) =
    [LoadPlatform; DownloadImage; UnpackImage; ReadImageMetadata;
     BuildProcessor; CheckCompatibility].
Proof.
  intros r.
  assert (EvCheckCompatibility false ∈ log r.2) as Hno by in_concrete_log.
  split; [exact Hno | ].
  destruct (run_follows_pipeline (H := demo true false false)
              "img:latest" "out" "rpi3" None None false (Some "/m.json")
              false false "normal" ∅ [false] r.1 r.2)
    as (_ & _ & _ & _ & Hcheck & _).
  - by vm_compute.
  - exact (Hcheck Hno).
Defined.

(** With [--yes], an image with metadata and a custom file: the question
    about metadata is asked all the same. *)
Lemma generate_prompts_witness :
  let files : gmap string node := {[ "/m.json" := File "custom" ]} in
  let r := run_demo true true true (Some "/m.json") false true files [true] in
  EvGetAppMetadata (JObj [("id", JStr "app")]) ∈ log r.2 ∧
  EvConfirm metadata_prompt true ∈ log r.2 ∧
  (count is_confirm (log r.2) ≤ 2)%nat.
Proof.
  intros files r.
  assert (EvGetAppMetadata (JObj [("id", JStr "app")]) ∈ log r.2) as Hfound
    by in_concrete_log.
  split; [exact Hfound | ].
  destruct (generate_prompts (H := demo true true true)
              "img:latest" "out" "rpi3" None None false (Some "/m.json")
              true false "normal" files [true] r.1 r.2)
    as (Hle & _ & _ & _ & Hasked).
  - by vm_compute.
  - split; [ | exact Hle].
    exact (Hasked "/m.json" _ eq_refl eq_refl Hfound eq_refl).
Defined.

(** The image has metadata, the custom file is missing and the user asks
    for it: [FileNotFoundError]. *)
Lemma missing_custom_metadata_file_witness :
  let r := run_demo true true true (Some "/missing.json") false false ∅ [true] in
  let quiet :=
    run_demo false true true (Some "/missing.json") false false ∅ [] in
  r.1 = Failed (FileNotFoundError "/missing.json") ∧
  last (log r.2) = Some (EvOpen "/missing.json") ∧
  quiet.1 = Completed ∧
  last (log quiet.2) =
    Some (EvLog "ERROR" "App metadata file /missing.json does not exist").
Proof.
  intros r quiet.
  destruct (missing_custom_metadata_file (H := demo true true true)
              "img:latest" "out" "rpi3" None None false (Some "/missing.json")
              false false "normal" ∅ [true] "/missing.json" r.1 r.2)
    as (Hraised & Hlast & _).
  - reflexivity.
  - by vm_compute.
  - by vm_compute.
  - by vm_compute.
  - in_concrete_log.
  - destruct (missing_custom_metadata_file (H := demo false true true)
                "img:latest" "out" "rpi3" None None false
                (Some "/missing.json") false false "normal" ∅ []
                "/missing.json" quiet.1 quiet.2)
      as (Hdone & Hlogged & _).
    + reflexivity.
    + by vm_compute.
    + by vm_compute.
    + by vm_compute.
    + in_concrete_log.
    + split; [exact Hraised | ]. split; [exact Hlast | ].
      split; [exact Hdone | exact Hlogged].
Defined.
